(** * Verification of synapse's TLS configuration (synapse/config/tls.py)

    A shallow embedding of [TlsConfig] -- certificate validity check,
    certificate loading with fingerprint reconciliation, and generation of a
    self-signed certificate/key pair -- together with models of the library
    calls the code makes (hashlib.sha256, unpaddedbase64, datetime, the file
    system and pyOpenSSL's crypto objects). *)

From Stdlib Require Import ZArith Lia List.
From Stdlib.Strings Require Import String Ascii Byte.
From stdpp Require Import base option list gmap strings.

Local Open Scope Z_scope.

(** * Bytes *)

Definition bytes := list byte.

#[global] Instance byte_eq_dec : EqDecision byte := Byte.byte_eq_dec.

Definition byte_to_Z (b : byte) : Z := Z.of_N (Byte.to_N b).

Definition byte_of_Z (z : Z) : byte :=
  match Byte.of_N (Z.to_N (z mod 256)) with
  | Some b => b
  | None => x00
  end.

(** [n] bytes of [z], most significant first. *)
Fixpoint be_bytes (n : nat) (z : Z) : bytes :=
  match n with
  | O => []
  | S n' => byte_of_Z (Z.shiftr z (8 * Z.of_nat n')) :: be_bytes n' z
  end.

Definition be_word (bs : bytes) : Z :=
  fold_left (fun acc b => acc * 256 + byte_to_Z b) bs 0.

(** Python's [bytes.decode('ascii')] and [str.encode('ascii')]. *)
Definition str_of_bytes (bs : bytes) : string := string_of_list_byte bs.
Definition bytes_of_str (s : string) : bytes := list_byte_of_string s.

(** * hashlib.sha256 (FIPS 180-4) *)

Module SHA256.

Definition wrap (x : Z) : Z := x mod 2 ^ 32.
Definition add32 (x y : Z) : Z := wrap (x + y).
Definition rotr (n x : Z) : Z :=
  Z.lor (Z.shiftr x n) (wrap (Z.shiftl x (32 - n))).
Definition not32 (x : Z) : Z := Z.lxor x (2 ^ 32 - 1).

Definition choose (x y z : Z) : Z :=
  Z.lxor (Z.land x y) (Z.land (not32 x) z).
Definition majority (x y z : Z) : Z :=
  Z.lxor (Z.lxor (Z.land x y) (Z.land x z)) (Z.land y z).
Definition big_sigma0 (x : Z) : Z :=
  Z.lxor (Z.lxor (rotr 2 x) (rotr 13 x)) (rotr 22 x).
Definition big_sigma1 (x : Z) : Z :=
  Z.lxor (Z.lxor (rotr 6 x) (rotr 11 x)) (rotr 25 x).
Definition small_sigma0 (x : Z) : Z :=
  Z.lxor (Z.lxor (rotr 7 x) (rotr 18 x)) (Z.shiftr x 3).
Definition small_sigma1 (x : Z) : Z :=
  Z.lxor (Z.lxor (rotr 17 x) (rotr 19 x)) (Z.shiftr x 10).

(** The constants are the leading 32 fractional bits of the cube roots
    (round constants) and square roots (initial state) of the first primes;
    they are computed here rather than tabulated. *)
Fixpoint is_prime_by (ds : list Z) (n : Z) : bool :=
  match ds with
  | [] => true
  | d :: ds' => negb (n mod d =? 0) && is_prime_by ds' n
  end.

Fixpoint primes_from (fuel : nat) (count : nat) (n : Z) (found : list Z)
  : list Z :=
  match fuel, count with
  | _, O => rev found
  | O, _ => rev found
  | S fuel', S count' =>
      if is_prime_by found n
      then primes_from fuel' count' (n + 1) (n :: found)
      else primes_from fuel' count (n + 1) found
  end.

Definition first_primes (count : nat) : list Z :=
  primes_from 400 count 2 [].

(** Integer cube root by bisection on the bits of the result. *)
Fixpoint icbrt_bits (bit : nat) (acc n : Z) : Z :=
  match bit with
  | O => acc
  | S bit' =>
      let cand := acc + 2 ^ Z.of_nat bit' in
      icbrt_bits bit' (if cand * cand * cand <=? n then cand else acc) n
  end.

Definition icbrt (n : Z) : Z := icbrt_bits 40 0 n.

Definition round_constants : list Z :=
  Eval vm_compute in
    map (fun p => wrap (icbrt (p * 2 ^ 96))) (first_primes 64).

Definition initial_words : list Z :=
  Eval vm_compute in
    map (fun p => wrap (Z.sqrt (p * 2 ^ 64))) (first_primes 8).

Record state := State {
  sa : Z; sb : Z; sc : Z; sd : Z; se : Z; sf : Z; sg : Z; sh : Z }.

Definition initial_state : state :=
  match initial_words with
  | [a; b; c; d; e; f; g; h] => State a b c d e f g h
  | _ => State 0 0 0 0 0 0 0 0
  end.

(** Message schedule: [ws] holds the words produced so far, latest first. *)
Fixpoint extend_schedule (n : nat) (ws : list Z) : list Z :=
  match n with
  | O => ws
  | S n' =>
      let w := add32 (add32 (small_sigma1 (nth 1 ws 0)) (nth 6 ws 0))
                     (add32 (small_sigma0 (nth 14 ws 0)) (nth 15 ws 0)) in
      extend_schedule n' (w :: ws)
  end.

Fixpoint block_words (n : nat) (block : bytes) : list Z :=
  match n with
  | O => []
  | S n' => be_word (take 4 block) :: block_words n' (drop 4 block)
  end.

Definition schedule (block : bytes) : list Z :=
  rev (extend_schedule 48 (rev (block_words 16 block))).

Definition round (s : state) (kw : Z * Z) : state :=
  let '(k, w) := kw in
  let t1 := add32 (add32 (add32 (sh s) (big_sigma1 (se s)))
                         (add32 (choose (se s) (sf s) (sg s)) k)) w in
  let t2 := add32 (big_sigma0 (sa s)) (majority (sa s) (sb s) (sc s)) in
  State (add32 t1 t2) (sa s) (sb s) (sc s) (add32 (sd s) t1)
        (se s) (sf s) (sg s).

Definition compress (s : state) (block : bytes) : state :=
  let r := fold_left round (combine round_constants (schedule block)) s in
  State (add32 (sa s) (sa r)) (add32 (sb s) (sb r))
        (add32 (sc s) (sc r)) (add32 (sd s) (sd r))
        (add32 (se s) (se r)) (add32 (sf s) (sf r))
        (add32 (sg s) (sg r)) (add32 (sh s) (sh r)).

Definition pad (msg : bytes) : bytes :=
  let len := Z.of_nat (length msg) in
  msg ++ [x80] ++ repeat x00 (Z.to_nat ((55 - len) mod 64))
      ++ be_bytes 8 (8 * len).

Fixpoint absorb (nblocks : nat) (s : state) (data : bytes) : state :=
  match nblocks with
  | O => s
  | S n' => absorb n' (compress s (take 64 data)) (drop 64 data)
  end.

(** The first [nblocks] blocks of 64 bytes of [data], in order. *)
Fixpoint blocks (nblocks : nat) (data : bytes) : list bytes :=
  match nblocks with
  | O => []
  | S n' => take 64 data :: blocks n' (drop 64 data)
  end.

Definition digest_of (s : state) : bytes :=
  be_bytes 4 (sa s) ++ be_bytes 4 (sb s) ++ be_bytes 4 (sc s)
    ++ be_bytes 4 (sd s) ++ be_bytes 4 (se s) ++ be_bytes 4 (sf s)
    ++ be_bytes 4 (sg s) ++ be_bytes 4 (sh s).

(** [sha256(data).digest()] *)
Definition digest (msg : bytes) : bytes :=
  let padded := pad msg in
  digest_of (absorb (length padded / 64)%nat initial_state padded).

End SHA256.

Definition hex_digit (n : Z) : ascii :=
  ascii_of_nat (Z.to_nat (if n <? 10 then 48 + n else 87 + n)).

Fixpoint hexdigest (bs : bytes) : string :=
  match bs with
  | [] => EmptyString
  | b :: bs' =>
      String (hex_digit (byte_to_Z b / 16))
        (String (hex_digit (byte_to_Z b mod 16)) (hexdigest bs'))
  end.


(** * unpaddedbase64.encode_base64

    [base64.b64encode] followed by [rstrip("=")]. *)

Definition b64_alphabet : string :=
  "ABCDEFGHIJKLMNOPQRSTUVWXYZabcdefghijklmnopqrstuvwxyz0123456789+/".

Definition b64_pad : ascii := "="%char.

Definition b64_char (n : Z) : ascii :=
  match String.get (Z.to_nat (n mod 64)) b64_alphabet with
  | Some c => c
  | None => b64_pad
  end.

(** The digit a character of the alphabet stands for: its position. *)
Fixpoint index_in (c : ascii) (s : string) : Z :=
  match s with
  | EmptyString => 0
  | String x s' => if Ascii.eqb x c then 0 else 1 + index_in c s'
  end.

Definition b64_value (c : ascii) : Z := index_in c b64_alphabet.

Fixpoint b64encode (bs : bytes) : string :=
  match bs with
  | [] => EmptyString
  | [a] =>
      let n := byte_to_Z a * 65536 in
      String (b64_char (n / 262144)) (String (b64_char (n / 4096))
        (String b64_pad (String b64_pad EmptyString)))
  | [a; b] =>
      let n := byte_to_Z a * 65536 + byte_to_Z b * 256 in
      String (b64_char (n / 262144)) (String (b64_char (n / 4096))
        (String (b64_char (n / 64)) (String b64_pad EmptyString)))
  | a :: b :: c :: rest =>
      let n := byte_to_Z a * 65536 + byte_to_Z b * 256 + byte_to_Z c in
      String (b64_char (n / 262144)) (String (b64_char (n / 4096))
        (String (b64_char (n / 64)) (String (b64_char n) (b64encode rest))))
  end.

(** [str.rstrip(c)] for a single character [c]. *)
Fixpoint rstrip (c : ascii) (s : string) : string :=
  match s with
  | EmptyString => EmptyString
  | String x s' =>
      match rstrip c s' with
      | EmptyString => if Ascii.eqb x c then EmptyString else String x EmptyString
      | r => String x r
      end
  end.

Definition encode_base64 (input_bytes : bytes) : string :=
  rstrip b64_pad (b64encode input_bytes).

(** Every character of an unpadded encoding is one of the 64 digits, never
    the padding character, and [n] bytes give [ceil(4n/3)] characters. *)
Definition unpadded (n : nat) (s : string) : Prop :=
  Forall (fun c => c <> b64_pad) (list_ascii_of_string s)
  /\ (3 * String.length s = 4 * n + (3 - n mod 3) mod 3)%nat.

(** The padding [b64encode] adds to an input of [n] bytes. *)
Definition b64_padding (n : nat) : string :=
  match (n mod 3)%nat with
  | 0%nat => EmptyString
  | 1%nat => String b64_pad (String b64_pad EmptyString)
  | _ => String b64_pad EmptyString
  end.

(** * datetime

    Naive datetimes of the proleptic Gregorian calendar, their ordinals and
    differences, following CPython's [datetime] module. *)

Record datetime := Datetime {
  year : Z; month : Z; day : Z;
  hour : Z; minute : Z; second : Z; microsecond : Z }.

Record timedelta := Timedelta {
  days : Z; seconds : Z; microseconds : Z }.

Definition is_leap (y : Z) : bool :=
  (y mod 4 =? 0) && (negb (y mod 100 =? 0) || (y mod 400 =? 0)).

Definition days_in_month (y m : Z) : Z :=
  if m =? 2 then (if is_leap y then 29 else 28)
  else if (m =? 4) || (m =? 6) || (m =? 9) || (m =? 11) then 30
  else 31.

Definition days_before_year (y : Z) : Z :=
  let p := y - 1 in p * 365 + p / 4 - p / 100 + p / 400.

Fixpoint days_before_month_aux (y : Z) (k : nat) : Z :=
  match k with
  | O => 0
  | S k' => days_before_month_aux y k' + days_in_month y (Z.of_nat k)
  end.

Definition days_before_month (y m : Z) : Z :=
  days_before_month_aux y (Z.to_nat (m - 1)).

Definition ymd2ord (y m d : Z) : Z :=
  days_before_year y + days_before_month y m + d.

Definition toordinal (dt : datetime) : Z :=
  ymd2ord (year dt) (month dt) (day dt).

(** [timedelta(days, seconds, microseconds)]: the constructor carries
    microseconds into seconds and seconds into days, so that
    [0 <= seconds < 86400] and [0 <= microseconds < 1000000]. *)
Definition timedelta_new (d s us : Z) : timedelta :=
  let s1 := s + us / 1000000 in
  Timedelta (d + s1 / 86400) (s1 mod 86400) (us mod 1000000).

(** [datetime.__sub__] on two naive datetimes. *)
Definition datetime_sub (a b : datetime) : timedelta :=
  let secs1 := second a + minute a * 60 + hour a * 3600 in
  let secs2 := second b + minute b * 60 + hour b * 3600 in
  timedelta_new (toordinal a - toordinal b) (secs1 - secs2)
                (microsecond a - microsecond b).

(** Inverse of [ymd2ord]: the date of a proleptic Gregorian ordinal. *)
Definition ord2ymd (ordinal : Z) : Z * Z * Z :=
  let n := ordinal - 1 in
  let n400 := n / 146097 in
  let n := n mod 146097 in
  let n100 := n / 36524 in
  let n := n mod 36524 in
  let n4 := n / 1461 in
  let n := n mod 1461 in
  let n1 := n / 365 in
  let n := n mod 365 in
  let y := n400 * 400 + 1 + n100 * 100 + n4 * 4 + n1 in
  if (n1 =? 4) || (n100 =? 4) then (y - 1, 12, 31)
  else
    let leapyear := (n1 =? 3) && (negb (n4 =? 24) || (n100 =? 3)) in
    let m := Z.shiftr (n + 50) 5 in
    let preceding :=
      days_before_month (if leapyear then 4 else 1) m in
    if n <? preceding
    then (y, m - 1,
          n - (preceding
               - days_in_month (if leapyear then 4 else 1) (m - 1)) + 1)
    else (y, m, n - preceding + 1).

Definition unix_epoch_ordinal : Z := 719163.
Definition us_per_second : Z := 1000000.
Definition us_per_day : Z := 86400 * us_per_second.

(** The datetime [datetime.utcfromtimestamp] gives for an instant counted in
    microseconds since the Unix epoch. *)
Definition datetime_of_posix_us (t : Z) : datetime :=
  let d := t / us_per_day in
  let r := t mod us_per_day in
  let '(y, m, dd) := ord2ymd (unix_epoch_ordinal + d) in
  let secs := r / us_per_second in
  Datetime y m dd (secs / 3600) (secs / 60 mod 60) (secs mod 60)
           (r mod us_per_second).

(** Position of a datetime on the time line, in microseconds since the
    start of ordinal day 0. *)
Definition timeline_us (dt : datetime) : Z :=
  toordinal dt * us_per_day
  + (second dt + minute dt * 60 + hour dt * 3600) * us_per_second
  + microsecond dt.

Definition datetime_valid (dt : datetime) : bool :=
  (1 <=? year dt) && (year dt <=? 9999)
  && (1 <=? month dt) && (month dt <=? 12)
  && (1 <=? day dt) && (day dt <=? days_in_month (year dt) (month dt))
  && (0 <=? hour dt) && (hour dt <? 24)
  && (0 <=? minute dt) && (minute dt <? 60)
  && (0 <=? second dt) && (second dt <? 60)
  && (0 <=? microsecond dt) && (microsecond dt <? 1000000).

(** Decimal digits. *)
Definition digit_value (c : ascii) : option Z :=
  let n := Z.of_nat (nat_of_ascii c) in
  if (48 <=? n) && (n <=? 57) then Some (n - 48) else None.

Fixpoint digits_value (acc : Z) (cs : list ascii) : option Z :=
  match cs with
  | [] => Some acc
  | c :: cs' =>
      match digit_value c with
      | Some d => digits_value (acc * 10 + d) cs'
      | None => None
      end
  end.

Definition digit_char (d : Z) : ascii :=
  ascii_of_nat (Z.to_nat (48 + d mod 10)).

Fixpoint zero_padded (width : nat) (n : Z) : list ascii :=
  match width with
  | O => []
  | S w' => zero_padded w' (n / 10) ++ [digit_char n]
  end.

(** [P] holds of the [n] integers from [z] on. *)
Fixpoint all_from (n : nat) (z : Z) (P : Z -> bool) : bool :=
  match n with
  | O => true
  | S k => P z && all_from k (z + 1) P
  end.

(** The Gregorian calendar repeats every 146097 days (400 years). For the
    day [r] of a cycle: [ord2ymd] and [ymd2ord] are inverse, and the date is
    a date of the calendar, in the last year of the cycle only in its last
    366 days. *)
Definition days_per_cycle : Z := 146097.

Definition cycle_day_ok (r : Z) : bool :=
  let '(y, m, d) := ord2ymd (r + 1) in
  (ymd2ord y m d =? r + 1)
  && (1 <=? y) && (y <=? 400)
  && ((y <=? 399) || (days_per_cycle - 366 <=? r))
  && (1 <=? m) && (m <=? 12)
  && (1 <=? d) && (d <=? days_in_month y m).


(** * Exceptions and the machine state *)

Inductive exn :=
| KeyError (key : string)
| TypeError (msg : string)
| ValueError (msg : string)
| AttributeError (msg : string)
| UnicodeDecodeError
| IOError (path : string)
| ConfigError (msg : string)
| CryptoError (msg : string).

(** A regular file: whether the process may read it, and its contents. *)
Record file := File { readable : bool; content : bytes }.

(** A record of the [logging] module. *)
Record log_record := LogRecord {
  log_level : string; log_message : string; log_exc_info : option exn }.

(** ** pyOpenSSL objects *)

Inductive FILETYPE := FILETYPE_PEM | FILETYPE_ASN1.
Inductive key_type := TYPE_RSA | TYPE_DSA.

(** [crypto.PKey]: [pk_pair] identifies the key pair the object belongs to;
    an object with [pk_only_public] holds only the public half of it. *)
Record PKey := MkPKey {
  pk_initialized : bool;
  pk_type : key_type;
  pk_bits : Z;
  pk_pair : N;
  pk_only_public : bool }.

#[global] Instance key_type_eq_dec : EqDecision key_type.
Proof. solve_decision. Defined.
#[global] Instance PKey_eq_dec : EqDecision PKey.
Proof. solve_decision. Defined.

(** [crypto.X509Name]: the attributes in order, as (short name, value). In
    the model names are compared entry by entry. *)
Definition X509Name := list (string * string).

(** The signed part of a certificate. Times are POSIX seconds. *)
Record tbs_certificate := MkTbs {
  serial_number : Z;
  not_before : option Z;
  not_after : option Z;
  subject : X509Name;
  issuer : X509Name;
  pubkey : option PKey }.

#[global] Instance tbs_certificate_eq_dec : EqDecision tbs_certificate.
Proof. solve_decision. Defined.

Record cert_signature := MkSignature {
  sig_digest : string;
  sig_pair : N;
  sig_over : tbs_certificate }.

(** [crypto.X509] *)
Record X509 := MkX509 {
  x509_tbs : tbs_certificate;
  x509_signature : option cert_signature }.

(** The encodings of certificates and keys (PEM armour, ASN.1 DER) and
    [os.path.abspath] are taken as an interface. *)
Class Platform := {
  dump_certificate : FILETYPE -> X509 -> bytes;
  load_certificate : FILETYPE -> bytes -> exn + X509;
  dump_privatekey : FILETYPE -> PKey -> bytes;
  load_privatekey : FILETYPE -> bytes -> exn + PKey;
  abspath : string -> string;
  (* what [load_certificate] raises on malformed input is a [crypto.Error] *)
  load_certificate_error : forall t b e,
    load_certificate t b = inl e -> exists msg, e = CryptoError msg;
  (* [load_privatekey] returns an initialised key with its private half *)
  load_privatekey_private : forall t b k,
    load_privatekey t b = inr k ->
    pk_initialized k = true /\ pk_only_public k = false }.

(** ** Python objects of the configuration *)

(** A fingerprint entry [{"sha256": ...}] is a dict with string keys. *)
Definition pydict := gmap string string.

(** Address of a Python list object. *)
Definition loc := positive.

(** The [acme] sub-dict and the config dict, as far as the code reads them;
    [None] is an absent key. *)
Record AcmeDict := MkAcmeDict {
  d_enabled : option bool;
  d_url : option string;
  d_port : option Z;
  d_bind_addresses : option (list string);
  d_reprovision_threshold : option Z }.

Record ConfigDict := MkConfigDict {
  c_acme : option AcmeDict;
  c_tls_certificate_path : option string;
  c_tls_private_key_path : option string;
  c_tls_fingerprints : option loc;
  c_no_tls : option bool;
  c_use_insecure_ssl_client_just_for_testing_do_not_use : option bool;
  c_server_name : option string }.

(** The attributes of a [TlsConfig] instance. *)
Record TlsConfig := MkTlsConfig {
  acme_enabled : bool;
  acme_url : string;
  acme_port : Z;
  acme_bind_addresses : list string;
  acme_reprovision_threshold : Z;
  tls_certificate_file : string;
  tls_private_key_file : string;
  _original_tls_fingerprints : loc;
  tls_fingerprints : loc;
  no_tls : bool;
  use_insecure_ssl_client_just_for_testing_do_not_use : option bool;
  tls_certificate : option X509;
  tls_private_key : option PKey }.

(** ** The state a method runs in *)

Record state := MkState {
  st_files : gmap string file;        (* the file system, by path *)
  st_clock : Z;                       (* microseconds since the Unix epoch *)
  st_entropy : N;                     (* the random source *)
  st_log : list log_record;           (* what the logger has emitted *)
  st_heap : gmap loc (list pydict);   (* Python list objects *)
  st_self : TlsConfig;                (* the instance the method is called on *)
  st_writable : string -> bool }.     (* where a file may be created or truncated *)

Definition with_files (fs : gmap string file) (s : state) : state :=
  MkState fs (st_clock s) (st_entropy s) (st_log s) (st_heap s) (st_self s)
          (st_writable s).
Definition with_entropy (n : N) (s : state) : state :=
  MkState (st_files s) (st_clock s) n (st_log s) (st_heap s) (st_self s)
          (st_writable s).
Definition with_log (l : list log_record) (s : state) : state :=
  MkState (st_files s) (st_clock s) (st_entropy s) l (st_heap s) (st_self s)
          (st_writable s).
Definition with_heap (h : gmap loc (list pydict)) (s : state) : state :=
  MkState (st_files s) (st_clock s) (st_entropy s) (st_log s) h (st_self s)
          (st_writable s).
Definition with_self (c : TlsConfig) (s : state) : state :=
  MkState (st_files s) (st_clock s) (st_entropy s) (st_log s) (st_heap s) c
          (st_writable s).
Definition with_writable (w : string -> bool) (s : state) : state :=
  MkState (st_files s) (st_clock s) (st_entropy s) (st_log s) (st_heap s)
          (st_self s) w.

(** ** Computations that may raise *)

Inductive outcome (A : Type) :=
| Return (a : A) (s : state)
| Raise (e : exn) (s : state).
Arguments Return {A} a s.
Arguments Raise {A} e s.

Definition M (A : Type) : Type := state -> outcome A.

Definition final_state {A} (o : outcome A) : state :=
  match o with Return _ s => s | Raise _ s => s end.

#[global] Instance M_ret : MRet M := fun A a s => Return a s.
#[global] Instance M_bind : MBind M := fun A B f m s =>
  match m s with
  | Return a s' => f a s'
  | Raise e s' => Raise e s'
  end.

Definition raise {A} (e : exn) : M A := fun s => Raise e s.

(** Results of calls that touch no state. *)
#[global] Instance result_ret : MRet (sum exn) := fun A a => inr a.
#[global] Instance result_bind : MBind (sum exn) := fun A B f r =>
  match r with
  | inl e => inl e
  | inr a => f a
  end.

Definition lift {A} (r : exn + A) : M A :=
  match r with inl e => raise e | inr a => mret a end.

Definition get_state : M state := fun s => Return s s.
Definition modify (f : state -> state) : M unit := fun s => Return tt (f s).

(** [logger.exception(msg)] inside an [except] clause handling [e]. *)
Definition logger_exception (msg : string) (e : exn) : M unit :=
  modify (fun s => with_log (st_log s ++ [LogRecord "ERROR" msg (Some e)]) s).

(** [try: body / except Exception: logger.exception(msg); raise] *)
Definition try_log_reraise {A} (body : M A) (msg : string) : M A :=
  fun s =>
    match body s with
    | Return a s' => Return a s'
    | Raise e s' => (logger_exception msg e ;; raise e) s'
    end.

(** ** Operating system *)

Definition os_path_exists (path : string) : M bool :=
  fun s => Return (bool_decide (is_Some (st_files s !! path))) s.

(** [with open(path, 'rb') as f: f.read()] *)
Definition read_whole_file (path : string) : M bytes :=
  fun s =>
    match st_files s !! path with
    | Some f => if readable f then Return (content f) s else Raise (IOError path) s
    | None => Raise (IOError path) s
    end.

(** Whether [open(path, "wb")] succeeds: never on the empty path, and
    otherwise where the file system lets the process create or truncate the
    file (the directory exists and may be written to, the path is not itself
    a directory, the file system is not read-only). *)
Definition can_open_wb (s : state) (path : string) : bool :=
  negb (String.eqb path EmptyString) && st_writable s path.

(** [open(path, "wb")]: creates the file, or truncates it if it exists; an
    [OSError] ([IOError] is its other name) where that is not possible, and
    then nothing is created. *)
Definition open_wb (path : string) : M unit :=
  fun s =>
    if can_open_wb s path
    then
      let r := match st_files s !! path with
               | Some f => readable f
               | None => true
               end in
      Return tt (with_files (<[path := File r []]> (st_files s)) s)
    else Raise (IOError path) s.

(** [f.write(data)] on the file opened at [path]. *)
Definition file_write (path : string) (data : bytes) : M unit :=
  modify (fun s =>
    match st_files s !! path with
    | Some f => with_files (<[path := File (readable f) (content f ++ data)]>
                              (st_files s)) s
    | None => s
    end).

(** [datetime.utcnow()] and C's [time(NULL)]. *)
Definition utcnow : M datetime :=
  fun s => Return (datetime_of_posix_us (st_clock s)) s.
Definition time_now : M Z :=
  fun s => Return (st_clock s / us_per_second) s.

(** ** Python lists on the heap *)

Definition heap_list (l : loc) : M (list pydict) :=
  fun s => match st_heap s !! l with
           | Some xs => Return xs s
           | None => Raise (TypeError "object is not iterable") s
           end.

(** [list(x)]: a new list object with the items of [x]. *)
Definition list_copy (l : loc) : M loc :=
  xs ← heap_list l;
  ((fun s => let l' := fresh (dom (st_heap s)) in
             Return l' (with_heap (<[l' := xs]> (st_heap s)) s)) : M loc).

(** [x.append(item)] *)
Definition list_append (l : loc) (item : pydict) : M unit :=
  xs ← heap_list l;
  modify (fun s => with_heap (<[l := xs ++ [item]]> (st_heap s)) s).

(** [d[key]] *)
Definition dict_getitem (d : pydict) (key : string) : exn + string :=
  match d !! key with
  | Some v => inr v
  | None => inl (KeyError key)
  end.

(** ** pyOpenSSL operations *)

(** The ASN.1 GeneralizedTime rendering [YYYYMMDDhhmmssZ] of an instant, as
    [get_notAfter] returns it. *)
Definition generalizedtime_chars (dt : datetime) : list ascii :=
  zero_padded 4 (year dt) ++ zero_padded 2 (month dt)
  ++ zero_padded 2 (day dt) ++ zero_padded 2 (hour dt)
  ++ zero_padded 2 (minute dt) ++ zero_padded 2 (second dt)
  ++ ["Z"%char].

Definition generalizedtime (t : Z) : bytes :=
  map byte_of_ascii
    (generalizedtime_chars (datetime_of_posix_us (t * us_per_second))).

(** [crypto.X509()] *)
Definition X509_new : X509 :=
  MkX509 (MkTbs 0 None None [] [] None) None.

Definition get_subject (c : X509) : X509Name := subject (x509_tbs c).
Definition get_issuer (c : X509) : X509Name := issuer (x509_tbs c).
Definition get_notBefore (c : X509) : option bytes :=
  generalizedtime <$> not_before (x509_tbs c).
Definition get_notAfter (c : X509) : option bytes :=
  generalizedtime <$> not_after (x509_tbs c).

Definition X509Name_eqb (a b : X509Name) : bool := bool_decide (a = b).

Definition with_tbs (f : tbs_certificate -> tbs_certificate) (c : X509) : X509 :=
  MkX509 (f (x509_tbs c)) (x509_signature c).

(** [name.CN = value]: an old entry of that attribute is dropped and the new
    one is added at the end. *)
Fixpoint drop_first_entry (key : string) (n : X509Name) : X509Name :=
  match n with
  | [] => []
  | (k, v) :: n' => if String.eqb k key then n' else (k, v) :: drop_first_entry key n'
  end.

Definition name_set (key value : string) (n : X509Name) : X509Name :=
  drop_first_entry key n ++ [(key, value)].


(** OpenSSL's bounds on a commonName: 1 to [ub_common_name] characters. *)
Definition ub_common_name : nat := 64.
Definition common_name_ok (value : string) : bool :=
  (1 <=? String.length value)%nat && (String.length value <=? ub_common_name)%nat.

(** [subject = cert.get_subject(); subject.CN = value]: the name object
    returned by [get_subject] is the certificate's own. OpenSSL refuses a
    value that is empty or longer than [ub_common_name], and the assignment
    then raises [crypto.Error]. *)
Definition set_subject_CN (value : string) (c : X509) : exn + X509 :=
  if (String.length value =? 0)%nat
  then inl (CryptoError "string too short")
  else if (ub_common_name <? String.length value)%nat
  then inl (CryptoError "string too long")
  else inr (with_tbs
              (fun t => MkTbs (serial_number t) (not_before t) (not_after t)
                              (name_set "CN" value (subject t)) (issuer t)
                              (pubkey t)) c).

Definition set_serial_number (n : Z) (c : X509) : X509 :=
  with_tbs (fun t => MkTbs n (not_before t) (not_after t) (subject t)
                           (issuer t) (pubkey t)) c.

Definition gmtime_adj_notBefore (amount : Z) (c : X509) : M X509 :=
  now ← time_now;
  mret (with_tbs (fun t => MkTbs (serial_number t) (Some (now + amount))
                                 (not_after t) (subject t) (issuer t)
                                 (pubkey t)) c).

Definition gmtime_adj_notAfter (amount : Z) (c : X509) : M X509 :=
  now ← time_now;
  mret (with_tbs (fun t => MkTbs (serial_number t) (not_before t)
                                 (Some (now + amount)) (subject t) (issuer t)
                                 (pubkey t)) c).

Definition set_issuer (n : X509Name) (c : X509) : X509 :=
  with_tbs (fun t => MkTbs (serial_number t) (not_before t) (not_after t)
                           (subject t) n (pubkey t)) c.

Definition public_half (k : PKey) : PKey :=
  MkPKey (pk_initialized k) (pk_type k) (pk_bits k) (pk_pair k) true.

Definition set_pubkey (k : PKey) (c : X509) : X509 :=
  with_tbs (fun t => MkTbs (serial_number t) (not_before t) (not_after t)
                           (subject t) (issuer t) (Some (public_half k))) c.

Definition known_digests : list string :=
  ["md5"; "sha1"; "sha224"; "sha256"; "sha384"; "sha512"]%string.

(** [cert.sign(pkey, digest)] *)
Definition sign (k : PKey) (digest : string) (c : X509) : exn + X509 :=
  if pk_only_public k then inl (ValueError "Key only has public part")
  else if negb (pk_initialized k) then inl (ValueError "Key is uninitialized")
  else if negb (bool_decide (digest ∈ known_digests))
       then inl (ValueError "No such digest method")
  else inr (MkX509 (x509_tbs c)
                   (Some (MkSignature digest (pk_pair k) (x509_tbs c)))).


(** [crypto.PKey()] *)
Definition PKey_new : PKey := MkPKey false TYPE_RSA 0 0 false.

(** [pkey.generate_key(type, bits)]: draws a key pair from the random
    source. *)
Definition generate_key (ty : key_type) (bits : Z) (k : PKey) : M PKey :=
  if bits <=? 0 then raise (ValueError "Invalid number of bits")
  else fun s =>
    Return (MkPKey true ty bits (st_entropy s) false)
           (with_entropy (N.succ (st_entropy s)) s).

(** [bytes.decode('ascii')] *)
Definition decode_ascii (bs : bytes) : exn + string :=
  if forallb (fun b => byte_to_Z b <? 128) bs
  then inr (str_of_bytes bs)
  else inl UnicodeDecodeError.

(** [datetime.strptime(s, "%Y%m%d%H%M%SZ")] on the fifteen-character form
    [YYYYMMDDhhmmssZ] named in the code's comment. Every failure of
    [strptime] is a [ValueError]; a string of another shape is rejected. *)
Definition strptime_YmdHMSZ (s : string) : exn + datetime :=
  let bad := inl (ValueError "time data does not match format") in
  match list_ascii_of_string s with
  | [y1; y2; y3; y4; m1; m2; d1; d2; h1; h2; n1; n2; s1; s2; z] =>
      if Ascii.eqb z "Z" then
        match digits_value 0 [y1; y2; y3; y4], digits_value 0 [m1; m2],
              digits_value 0 [d1; d2], digits_value 0 [h1; h2],
              digits_value 0 [n1; n2], digits_value 0 [s1; s2] with
        | Some y, Some m, Some d, Some h, Some n, Some sec =>
            let dt := Datetime y m d h n sec 0 in
            if datetime_valid dt then inr dt else bad
        | _, _, _, _, _, _ => bad
        end
      else bad
  | _ => bad
  end.

(** * synapse.config.tls.TlsConfig *)

Section TlsConfig.
Context `{Platform}.

Definition get_self : M TlsConfig := fun s => Return (st_self s) s.

Definition set_attrs (f : TlsConfig -> TlsConfig) : M unit :=
  modify (fun s => with_self (f (st_self s)) s).

Definition set_acme (en : bool) (url : string) (port : Z)
    (addrs : list string) (thr : Z) (c : TlsConfig) : TlsConfig :=
  MkTlsConfig en url port addrs thr
    (tls_certificate_file c) (tls_private_key_file c)
    (_original_tls_fingerprints c) (tls_fingerprints c) (no_tls c)
    (use_insecure_ssl_client_just_for_testing_do_not_use c)
    (tls_certificate c) (tls_private_key c).

Definition set_tls_certificate_file (p : string) (c : TlsConfig) : TlsConfig :=
  MkTlsConfig (acme_enabled c) (acme_url c) (acme_port c)
    (acme_bind_addresses c) (acme_reprovision_threshold c)
    p (tls_private_key_file c)
    (_original_tls_fingerprints c) (tls_fingerprints c) (no_tls c)
    (use_insecure_ssl_client_just_for_testing_do_not_use c)
    (tls_certificate c) (tls_private_key c).

Definition set_tls_private_key_file (p : string) (c : TlsConfig) : TlsConfig :=
  MkTlsConfig (acme_enabled c) (acme_url c) (acme_port c)
    (acme_bind_addresses c) (acme_reprovision_threshold c)
    (tls_certificate_file c) p
    (_original_tls_fingerprints c) (tls_fingerprints c) (no_tls c)
    (use_insecure_ssl_client_just_for_testing_do_not_use c)
    (tls_certificate c) (tls_private_key c).

Definition set_original_tls_fingerprints (l : loc) (c : TlsConfig) : TlsConfig :=
  MkTlsConfig (acme_enabled c) (acme_url c) (acme_port c)
    (acme_bind_addresses c) (acme_reprovision_threshold c)
    (tls_certificate_file c) (tls_private_key_file c)
    l (tls_fingerprints c) (no_tls c)
    (use_insecure_ssl_client_just_for_testing_do_not_use c)
    (tls_certificate c) (tls_private_key c).

Definition set_tls_fingerprints (l : loc) (c : TlsConfig) : TlsConfig :=
  MkTlsConfig (acme_enabled c) (acme_url c) (acme_port c)
    (acme_bind_addresses c) (acme_reprovision_threshold c)
    (tls_certificate_file c) (tls_private_key_file c)
    (_original_tls_fingerprints c) l (no_tls c)
    (use_insecure_ssl_client_just_for_testing_do_not_use c)
    (tls_certificate c) (tls_private_key c).

Definition set_no_tls (b : bool) (c : TlsConfig) : TlsConfig :=
  MkTlsConfig (acme_enabled c) (acme_url c) (acme_port c)
    (acme_bind_addresses c) (acme_reprovision_threshold c)
    (tls_certificate_file c) (tls_private_key_file c)
    (_original_tls_fingerprints c) (tls_fingerprints c) b
    (use_insecure_ssl_client_just_for_testing_do_not_use c)
    (tls_certificate c) (tls_private_key c).

Definition set_use_insecure (b : option bool) (c : TlsConfig) : TlsConfig :=
  MkTlsConfig (acme_enabled c) (acme_url c) (acme_port c)
    (acme_bind_addresses c) (acme_reprovision_threshold c)
    (tls_certificate_file c) (tls_private_key_file c)
    (_original_tls_fingerprints c) (tls_fingerprints c) (no_tls c)
    b (tls_certificate c) (tls_private_key c).

Definition set_tls_certificate (x : option X509) (c : TlsConfig) : TlsConfig :=
  MkTlsConfig (acme_enabled c) (acme_url c) (acme_port c)
    (acme_bind_addresses c) (acme_reprovision_threshold c)
    (tls_certificate_file c) (tls_private_key_file c)
    (_original_tls_fingerprints c) (tls_fingerprints c) (no_tls c)
    (use_insecure_ssl_client_just_for_testing_do_not_use c)
    x (tls_private_key c).

Definition set_tls_private_key (k : option PKey) (c : TlsConfig) : TlsConfig :=
  MkTlsConfig (acme_enabled c) (acme_url c) (acme_port c)
    (acme_bind_addresses c) (acme_reprovision_threshold c)
    (tls_certificate_file c) (tls_private_key_file c)
    (_original_tls_fingerprints c) (tls_fingerprints c) (no_tls c)
    (use_insecure_ssl_client_just_for_testing_do_not_use c)
    (tls_certificate c) k.

(** [config[key]] *)
Definition config_getitem {A} (key : string) (v : option A) : M A :=
  match v with
  | Some a => mret a
  | None => raise (KeyError key)
  end.

(** [os.path.abspath(config.get(key))]: [abspath(None)] is a [TypeError]. *)
Definition abspath_of (v : option string) : M string :=
  match v with
  | Some p => mret (abspath p)
  | None => raise (TypeError "expected str, bytes or os.PathLike object")
  end.

Definition empty_acme : AcmeDict := MkAcmeDict None None None None None.

(** [TlsConfig.read_config] *)
Definition read_config (config : ConfigDict) : M unit :=
  let acme_config := default empty_acme (c_acme config) in
  set_attrs (set_acme
    (default false (d_enabled acme_config))
    (default "https://acme-v01.api.letsencrypt.org/directory"%string
             (d_url acme_config))
    (default 8449 (d_port acme_config))
    (default ["127.0.0.1"%string] (d_bind_addresses acme_config))
    (default 30 (d_reprovision_threshold acme_config)));;
  cert_file ← abspath_of (c_tls_certificate_path config);
  set_attrs (set_tls_certificate_file cert_file);;
  key_file ← abspath_of (c_tls_private_key_path config);
  set_attrs (set_tls_private_key_file key_file);;
  original ← config_getitem "tls_fingerprints" (c_tls_fingerprints config);
  set_attrs (set_original_tls_fingerprints original);;
  self ← get_self;
  copy ← list_copy (_original_tls_fingerprints self);
  set_attrs (set_tls_fingerprints copy);;
  set_attrs (set_no_tls (default false (c_no_tls config)));;
  set_attrs (set_use_insecure
    (c_use_insecure_ssl_client_just_for_testing_do_not_use config));;
  set_attrs (set_tls_certificate None);;
  set_attrs (set_tls_private_key None).

(** [TlsConfig.is_disk_cert_valid] *)
Definition is_disk_cert_valid (allow_self_signed : bool) : M (option Z) :=
  self ← get_self;
  present ← os_path_exists (tls_certificate_file self);
  if negb present then mret None
  else
    cert_pem ← try_log_reraise
      (read_whole_file (tls_certificate_file self))
      "Failed to read existing certificate off disk!";
    tls_certificate ← try_log_reraise
      (lift (load_certificate FILETYPE_PEM cert_pem))
      "Failed to parse existing certificate off disk!";
    (if negb allow_self_signed
     then if X509Name_eqb (get_subject tls_certificate)
                          (get_issuer tls_certificate)
          then raise (ValueError
                 "TLS Certificate is self signed, and this is not permitted")
          else mret tt
     else mret tt);;
    not_after_bytes ←
      match get_notAfter tls_certificate with
      | Some b => mret b
      | None => raise (AttributeError
                  "'NoneType' object has no attribute 'decode'")
      end;
    not_after_str ← lift (decode_ascii not_after_bytes);
    expires_on ← lift (strptime_YmdHMSZ not_after_str);
    now ← utcnow;
    let days_remaining := days (datetime_sub expires_on now) in
    mret (Some days_remaining).

(** Modelled from the spec: [Config.read_file] of synapse/config/_base.py,
    which is not among the sources. The spec's [load] fails when the path
    does not exist (its NotFoundError) and, distinctly, when the file is
    unreadable; otherwise it yields the file's contents. *)
Definition read_file (file_path config_name : string) : M bytes :=
  present ← os_path_exists file_path;
  if negb present
  then raise (ConfigError ("Error accessing file (config for " ++ config_name ++ ")"))
  else read_whole_file file_path.

(** Modelled from the spec: [Config.path_exists] of synapse/config/_base.py,
    which is not among the sources. The spec branches on whether the path
    "does not exist". *)
Definition path_exists (file_path : string) : M bool :=
  os_path_exists file_path.

Definition read_failure_record (e : exn) : log_record :=
  LogRecord "ERROR" "Failed to read existing certificate off disk!" (Some e).
Definition parse_failure_record (e : exn) : log_record :=
  LogRecord "ERROR" "Failed to parse existing certificate off disk!" (Some e).

Definition self_signed_error : exn :=
  ValueError "TLS Certificate is self signed, and this is not permitted".

(** The expiry [is_disk_cert_valid] computes from a parsed certificate:
    lines 94-96. *)
Definition expiry_of (c : X509) : exn + datetime :=
  match get_notAfter c with
  | Some b => s ← decode_ascii b; strptime_YmdHMSZ s
  | None => inl (AttributeError "'NoneType' object has no attribute 'decode'")
  end.

(** [TlsConfig.read_tls_certificate] *)
Definition read_tls_certificate (cert_path : string) : M X509 :=
  cert_pem ← read_file cert_path "tls_certificate";
  lift (load_certificate FILETYPE_PEM cert_pem).

(** [TlsConfig.read_tls_private_key] *)
Definition read_tls_private_key (private_key_path : string) : M PKey :=
  private_key_pem ← read_file private_key_path "tls_private_key";
  lift (load_privatekey FILETYPE_PEM private_key_pem).

(** [encode_base64(sha256(dump_certificate(FILETYPE_ASN1, cert)).digest())],
    lines 114-117. *)
Definition sha256_fingerprint_of (cert : X509) : string :=
  let x509_certificate_bytes := dump_certificate FILETYPE_ASN1 cert in
  encode_base64 (SHA256.digest x509_certificate_bytes).

(** The generator [f["sha256"] for f in fingerprints], run to its end. *)
Fixpoint each_sha256 (fingerprints : list pydict) : exn + list string :=
  match fingerprints with
  | [] => inr []
  | f :: rest =>
      v ← dict_getitem f "sha256";
      vs ← each_sha256 rest;
      mret (v :: vs)
  end.

Definition fingerprint_entry (fp : string) : pydict := {[ "sha256"%string := fp ]}.

(** An entry carries a fingerprint when that is its ["sha256"] item. *)
Definition carries (fp : string) (f : pydict) : Prop :=
  f !! "sha256"%string = Some fp.

(** [TlsConfig.read_certificate_from_disk] *)
Definition read_certificate_from_disk : M unit :=
  self ← get_self;
  cert ← read_tls_certificate (tls_certificate_file self);
  set_attrs (set_tls_certificate (Some cert));;
  self ← get_self;
  (if negb (no_tls self)
   then key ← read_tls_private_key (tls_private_key_file self);
        set_attrs (set_tls_private_key (Some key))
   else mret tt);;
  self ← get_self;
  copy ← list_copy (_original_tls_fingerprints self);
  set_attrs (set_tls_fingerprints copy);;
  self ← get_self;
  own ← match tls_certificate self with
        | Some c => mret c
        | None => raise (TypeError "cert must be an X509 instance")
        end;
  let sha256_fingerprint := sha256_fingerprint_of own in
  current ← heap_list (tls_fingerprints self);
  values ← lift (each_sha256 current);
  let sha256_fingerprints : gset string := list_to_set values in
  if bool_decide (sha256_fingerprint ∉ sha256_fingerprints)
  then list_append (tls_fingerprints self) (fingerprint_entry sha256_fingerprint)
  else mret tt.

(** Lines 110-120 of [read_certificate_from_disk] as a function of the
    configured list and the certificate: the list the method publishes. *)
Definition reconcile (configured : list pydict) (cert : X509)
  : exn + list pydict :=
  let tls_fingerprints := configured in
  let sha256_fingerprint := sha256_fingerprint_of cert in
  values ← each_sha256 tls_fingerprints;
  let sha256_fingerprints : gset string := list_to_set values in
  if bool_decide (sha256_fingerprint ∉ sha256_fingerprints)
  then mret (tls_fingerprints ++ [fingerprint_entry sha256_fingerprint])
  else mret tls_fingerprints.

(** The two halves of [read_certificate_from_disk]: lines 105-108, which load
    the certificate and the key, and lines 110-120, which rebuild and
    publish the fingerprint list. *)
Definition load_certificate_and_key : M unit :=
  self ← get_self;
  cert ← read_tls_certificate (tls_certificate_file self);
  set_attrs (set_tls_certificate (Some cert));;
  self ← get_self;
  (if negb (no_tls self)
   then key ← read_tls_private_key (tls_private_key_file self);
        set_attrs (set_tls_private_key (Some key))
   else mret tt).

Definition publish_fingerprints : M unit :=
  self ← get_self;
  copy ← list_copy (_original_tls_fingerprints self);
  set_attrs (set_tls_fingerprints copy);;
  self ← get_self;
  own ← match tls_certificate self with
        | Some c => mret c
        | None => raise (TypeError "cert must be an X509 instance")
        end;
  let sha256_fingerprint := sha256_fingerprint_of own in
  current ← heap_list (tls_fingerprints self);
  values ← lift (each_sha256 current);
  let sha256_fingerprints : gset string := list_to_set values in
  if bool_decide (sha256_fingerprint ∉ sha256_fingerprints)
  then list_append (tls_fingerprints self) (fingerprint_entry sha256_fingerprint)
  else mret tt.

(** The instance once the certificate has been assigned (line 105). *)
Definition holding (c : X509) (s : state) : state :=
  with_self (set_tls_certificate (Some c) (st_self s)) s.

(** The list the instance publishes, and the list it was configured with. *)
Definition published (s : state) : option (list pydict) :=
  st_heap s !! tls_fingerprints (st_self s).
Definition configured_fingerprints (s : state) : option (list pydict) :=
  st_heap s !! _original_tls_fingerprints (st_self s).

(** One step in the life of a configured instance: a call of
    [read_certificate_from_disk], whether it returns or raises, or a change
    of the world around it (files and where they may be written, clock,
    random source, log) that leaves the instance and the Python lists
    alone. *)
Inductive reload_step : state -> state -> Prop :=
| step_reload s :
    reload_step s (final_state (read_certificate_from_disk s))
| step_world s files clock entropy log writable :
    reload_step s (MkState files clock entropy log (st_heap s) (st_self s)
                           writable).

(** The states an instance goes through after [read_config] has read a
    config whose ["tls_fingerprints"] list is [configured]. *)
Inductive runs (configured : list pydict) : state -> Prop :=
| runs_configured config l s0 s :
    c_tls_fingerprints config = Some l ->
    st_heap s0 !! l = Some configured ->
    read_config config s0 = Return tt s ->
    runs configured s
| runs_step s s' :
    runs configured s -> reload_step s s' -> runs configured s'.

(** The ["sha256"] item of the first published entry. *)
Definition first_published_sha256 (s : state) : option string :=
  l ← published s; f ← l !! 0%nat; f !! "sha256"%string.

(** The published list is the configured one, or the configured one
    followed by the fingerprint entry of the certificate currently held. *)
Definition publishes_current (configured : list pydict) (s : state) : Prop :=
  forall c, tls_certificate (st_self s) = Some c ->
    published s = Some configured
    \/ published s
       = Some (configured ++ [fingerprint_entry (sha256_fingerprint_of c)]).

(** The invariant of [runs]: the configured list is intact, and the published
    list is the configured one followed by at most one entry, which is the
    fingerprint entry of a certificate. *)
Definition at_most_own (configured : list pydict) (s : state) : Prop :=
  configured_fingerprints s = Some configured
  /\ exists extra,
       published s = Some (configured ++ extra)
       /\ (length extra <= 1)%nat
       /\ forall f, f ∈ extra ->
            exists c, f = fingerprint_entry (sha256_fingerprint_of c).

(** [TlsConfig.generate_files] *)
Definition generate_files (config : ConfigDict) : M unit :=
  tls_certificate_path ←
    config_getitem "tls_certificate_path" (c_tls_certificate_path config);
  tls_private_key_path ←
    config_getitem "tls_private_key_path" (c_tls_private_key_path config);
  key_present ← path_exists tls_private_key_path;
  tls_private_key ←
    (if negb key_present
     then
       open_wb tls_private_key_path;;
       tls_private_key ← generate_key TYPE_RSA 2048 PKey_new;
       let private_key_pem := dump_privatekey FILETYPE_PEM tls_private_key in
       file_write tls_private_key_path private_key_pem;;
       mret tls_private_key
     else
       private_key_pem ← read_whole_file tls_private_key_path;
       lift (load_privatekey FILETYPE_PEM private_key_pem));
  cert_present ← path_exists tls_certificate_path;
  if negb cert_present
  then
    open_wb tls_certificate_path;;
    let cert := X509_new in
    server_name ← config_getitem "server_name" (c_server_name config);
    cert ← lift (set_subject_CN server_name cert);
    let cert := set_serial_number 1000 cert in
    cert ← gmtime_adj_notBefore 0 cert;
    cert ← gmtime_adj_notAfter (10 * 365 * 24 * 60 * 60) cert;
    let cert := set_issuer (get_subject cert) cert in
    let cert := set_pubkey tls_private_key cert in
    cert ← lift (sign tls_private_key "sha256" cert);
    let cert_pem := dump_certificate FILETYPE_PEM cert in
    file_write tls_certificate_path cert_pem
  else mret tt.

(** The two [if] blocks of [generate_files], lines 201-214 and 216-232. *)
Definition ensure_private_key (tls_private_key_path : string) : M PKey :=
  key_present ← path_exists tls_private_key_path;
  if negb key_present
  then
    open_wb tls_private_key_path;;
    tls_private_key ← generate_key TYPE_RSA 2048 PKey_new;
    let private_key_pem := dump_privatekey FILETYPE_PEM tls_private_key in
    file_write tls_private_key_path private_key_pem;;
    mret tls_private_key
  else
    private_key_pem ← read_whole_file tls_private_key_path;
    lift (load_privatekey FILETYPE_PEM private_key_pem).

Definition ensure_certificate (config : ConfigDict)
    (tls_certificate_path : string) (tls_private_key : PKey) : M unit :=
  cert_present ← path_exists tls_certificate_path;
  if negb cert_present
  then
    open_wb tls_certificate_path;;
    let cert := X509_new in
    server_name ← config_getitem "server_name" (c_server_name config);
    cert ← lift (set_subject_CN server_name cert);
    let cert := set_serial_number 1000 cert in
    cert ← gmtime_adj_notBefore 0 cert;
    cert ← gmtime_adj_notAfter (10 * 365 * 24 * 60 * 60) cert;
    let cert := set_issuer (get_subject cert) cert in
    let cert := set_pubkey tls_private_key cert in
    cert ← lift (sign tls_private_key "sha256" cert);
    let cert_pem := dump_certificate FILETYPE_PEM cert in
    file_write tls_certificate_path cert_pem
  else mret tt.

(** The key pair [generate_key] draws in state [s]. *)
Definition fresh_key (s : state) : PKey :=
  MkPKey true TYPE_RSA 2048 (st_entropy s) false.

(** The certificate [generate_files] builds for [server_name] at POSIX time
    [now] with the key [k]. *)
Definition generated_tbs (server_name : string) (now : Z) (k : PKey)
  : tbs_certificate :=
  MkTbs 1000 (Some (now + 0)) (Some (now + 10 * 365 * 24 * 60 * 60))
        [("CN"%string, server_name)] [("CN"%string, server_name)]
        (Some (public_half k)).

(** The private key [generate_files] goes on with: the one it generates when
    the key path does not exist (and can be opened for writing), the one it
    loads from the file otherwise. *)
Definition key_available (s : state) (key_path : string) (k : PKey) : Prop :=
  (st_files s !! key_path = None /\ can_open_wb s key_path = true
   /\ k = fresh_key s)
  \/ (exists f, st_files s !! key_path = Some f /\ readable f = true
                /\ load_privatekey FILETYPE_PEM (content f) = inr k).

Definition generated_certificate (server_name : string) (now : Z) (k : PKey)
  : X509 :=
  MkX509 (generated_tbs server_name now k)
         (Some (MkSignature "sha256" (pk_pair k)
                            (generated_tbs server_name now k))).


End TlsConfig.

(** * A concrete platform

    A small length-prefixed encoding of certificates and keys, standing in
    for DER and PEM, so that the model can be run on examples. *)

Module SimplePlatform.

Definition parser (A : Type) : Type := bytes -> option (A * bytes).

Definition ser_nat (width : nat) (n : Z) : bytes := be_bytes width n.

Definition p_nat (width : nat) : parser Z := fun b =>
  if decide (width <= length b)%nat
  then Some (be_word (take width b), drop width b)
  else None.

Definition ser_str (s : string) : bytes :=
  ser_nat 2 (Z.of_nat (String.length s)) ++ bytes_of_str s.

Definition p_str : parser string := fun b =>
  '(n, b1) ← p_nat 2 b;
  if decide (Z.to_nat n <= length b1)%nat
  then Some (str_of_bytes (take (Z.to_nat n) b1), drop (Z.to_nat n) b1)
  else None.

Definition ser_opt {A} (ser : A -> bytes) (o : option A) : bytes :=
  match o with
  | None => [x00]
  | Some a => x01 :: ser a
  end.

Definition p_opt {A} (p : parser A) : parser (option A) := fun b =>
  match b with
  | x00 :: b' => Some (None, b')
  | x01 :: b' => '(a, b'') ← p b'; Some (Some a, b'')
  | _ => None
  end.

Definition ser_entry (e : string * string) : bytes :=
  ser_str (fst e) ++ ser_str (snd e).

Definition ser_name (n : X509Name) : bytes :=
  ser_nat 1 (Z.of_nat (length n)) ++ flat_map ser_entry n.

Fixpoint p_entries (count : nat) : parser X509Name := fun b =>
  match count with
  | O => Some ([], b)
  | S count' =>
      '(k, b1) ← p_str b;
      '(v, b2) ← p_str b1;
      '(rest, b3) ← p_entries count' b2;
      Some ((k, v) :: rest, b3)
  end.

Definition p_name : parser X509Name := fun b =>
  '(n, b1) ← p_nat 1 b;
  p_entries (Z.to_nat n) b1.

Definition ser_key (k : PKey) : bytes :=
  [ if pk_initialized k then x01 else x00;
    match pk_type k with TYPE_RSA => x00 | TYPE_DSA => x01 end;
    if pk_only_public k then x01 else x00 ]
  ++ ser_nat 8 (pk_bits k) ++ ser_nat 8 (Z.of_N (pk_pair k)).

Definition p_flag (b : byte) : option bool :=
  match b with x00 => Some false | x01 => Some true | _ => None end.

Definition p_key : parser PKey := fun b =>
  match b with
  | i :: t :: o :: b' =>
      init ← p_flag i;
      dsa ← p_flag t;
      only ← p_flag o;
      '(bits, b1) ← p_nat 8 b';
      '(pr, b2) ← p_nat 8 b1;
      Some (MkPKey init (if dsa : bool then TYPE_DSA else TYPE_RSA) bits
                   (Z.to_N pr) only, b2)
  | _ => None
  end.

Definition ser_tbs (t : tbs_certificate) : bytes :=
  ser_nat 8 (serial_number t)
  ++ ser_opt (ser_nat 8) (not_before t) ++ ser_opt (ser_nat 8) (not_after t)
  ++ ser_name (subject t) ++ ser_name (issuer t)
  ++ ser_opt ser_key (pubkey t).

Definition p_tbs : parser tbs_certificate := fun b =>
  '(sn, b1) ← p_nat 8 b;
  '(nb, b2) ← p_opt (p_nat 8) b1;
  '(na, b3) ← p_opt (p_nat 8) b2;
  '(sub, b4) ← p_name b3;
  '(iss, b5) ← p_name b4;
  '(pk, b6) ← p_opt p_key b5;
  Some (MkTbs sn nb na sub iss pk, b6).

Definition ser_sig (sg : cert_signature) : bytes :=
  ser_str (sig_digest sg) ++ ser_nat 8 (Z.of_N (sig_pair sg))
  ++ ser_tbs (sig_over sg).

Definition p_sig : parser cert_signature := fun b =>
  '(d, b1) ← p_str b;
  '(pr, b2) ← p_nat 8 b1;
  '(over, b3) ← p_tbs b2;
  Some (MkSignature d (Z.to_N pr) over, b3).

Definition der_of_certificate (c : X509) : bytes :=
  ser_tbs (x509_tbs c) ++ ser_opt ser_sig (x509_signature c).

Definition certificate_of_der (b : bytes) : exn + X509 :=
  match ('(t, b1) ← p_tbs b; '(sg, b2) ← p_opt p_sig b1; Some (MkX509 t sg, b2)) with
  | Some (c, []) => inr c
  | _ => inl (CryptoError "not a certificate")
  end.

Definition key_of_der (b : bytes) : exn + PKey :=
  match p_key b with
  | Some (k, []) =>
      inr (MkPKey true (pk_type k) (pk_bits k) (pk_pair k) false)
  | _ => inl (CryptoError "not a private key")
  end.

Definition armour (label : string) (der : bytes) : bytes :=
  bytes_of_str ("-----BEGIN " ++ label ++ "-----") ++ der.

Definition strip_armour (label : string) (pem : bytes) : option bytes :=
  let header := bytes_of_str ("-----BEGIN " ++ label ++ "-----") in
  if decide (take (length header) pem = header)
  then Some (drop (length header) pem)
  else None.

Definition encode (label : string) (t : FILETYPE) (der : bytes) : bytes :=
  match t with
  | FILETYPE_PEM => armour label der
  | FILETYPE_ASN1 => der
  end.

Definition decode {A} (label : string) (of_der : bytes -> exn + A)
    (t : FILETYPE) (b : bytes) : exn + A :=
  match t with
  | FILETYPE_PEM =>
      match strip_armour label b with
      | Some der => of_der der
      | None => inl (CryptoError "no start line")
      end
  | FILETYPE_ASN1 => of_der b
  end.

Definition load_simple_key (t : FILETYPE) (b : bytes) : exn + PKey :=
  decode "RSA PRIVATE KEY" key_of_der t b.

Definition load_simple_certificate (t : FILETYPE) (b : bytes) : exn + X509 :=
  decode "CERTIFICATE" certificate_of_der t b.

Lemma load_simple_certificate_error t b e :
  load_simple_certificate t b = inl e -> exists msg, e = CryptoError msg.
Proof.
  unfold load_simple_certificate, decode, certificate_of_der.
  repeat (match goal with
          | |- context [match ?x with _ => _ end] => destruct x
          end; try discriminate);
    intros [= <-]; eauto.
Qed.

Lemma key_of_der_private b k :
  key_of_der b = inr k -> pk_initialized k = true /\ pk_only_public k = false.
Proof.
  unfold key_of_der. destruct (p_key b) as [[k' [|? ?]]|]; try discriminate.
  intros [= <-]. split; reflexivity.
Qed.

Lemma load_simple_key_private t b k :
  load_simple_key t b = inr k ->
  pk_initialized k = true /\ pk_only_public k = false.
Proof.
  unfold load_simple_key, decode. destruct t.
  - destruct (strip_armour _ b); [apply key_of_der_private | discriminate].
  - apply key_of_der_private.
Qed.

#[export] Instance platform : Platform := {|
  dump_certificate t c := encode "CERTIFICATE" t (der_of_certificate c);
  load_certificate := load_simple_certificate;
  dump_privatekey t k := encode "RSA PRIVATE KEY" t (ser_key k);
  load_privatekey := load_simple_key;
  abspath p := p;
  load_certificate_error := load_simple_certificate_error;
  load_privatekey_private := load_simple_key_private |}.

End SimplePlatform.
(** * Scenarios

    Concrete states on the concrete platform, on which the model is run. *)

Module Scenario.
Import SimplePlatform.

Definition cert_path : string := "/etc/synapse/example.org.tls.crt".
Definition key_path : string := "/etc/synapse/example.org.tls.key".

Definition config : ConfigDict :=
  MkConfigDict None (Some cert_path) (Some key_path) (Some 1%positive)
               None None (Some "example.org"%string).

Definition blank : TlsConfig :=
  MkTlsConfig false "" 0 [] 0 "" "" 1%positive 1%positive false None None None.

(** A fresh deployment: no files, an empty configured fingerprint list. *)
Definition fresh : state :=
  MkState ∅ 1700000000123456 7 [] {[ 1%positive := [] ]} blank
          (String.prefix "/etc/synapse/").

Definition configured : state := final_state (read_config config fresh).
Definition generated : state := final_state (generate_files config configured).
Definition loaded : state := final_state (read_certificate_from_disk generated).

Definition generated_key : PKey := fresh_key configured.
Definition own_certificate : X509 :=
  generated_certificate "example.org" 1700000000 generated_key.

Definition own_file : file :=
  File true (dump_certificate FILETYPE_PEM own_certificate).

(** A certificate issued by somebody else, expiring 29.9 days after
    2023-11-14 22:13:20 UTC. *)
Definition issued_certificate : X509 :=
  MkX509 (MkTbs 77 (Some 1690000000) (Some (1700000000 + 2583360))
                [("CN", "example.org")]%string [("CN", "Example CA")]%string
                (Some (public_half generated_key)))
         (Some (MkSignature "sha256" 99
                  (MkTbs 77 (Some 1690000000) (Some (1700000000 + 2583360))
                         [("CN", "example.org")]%string
                         [("CN", "Example CA")]%string
                         (Some (public_half generated_key))))).

Definition issued_file : file :=
  File true (dump_certificate FILETYPE_PEM issued_certificate).

Definition with_cert_file (f : file) (clock : Z) : state :=
  MkState (<[cert_path := f]> (st_files generated)) clock
          (st_entropy generated) (st_log generated) (st_heap generated)
          (st_self generated) (st_writable generated).

(** The issued certificate on disk, 29.9 days before it expires. *)
Definition expiring : state := with_cert_file issued_file 1700000000000000.


Definition unreadable : state :=
  with_cert_file (File false (content issued_file)) 1700000000000000.
Definition garbage_file : file := File true (bytes_of_str "not a certificate").
Definition garbage : state := with_cert_file garbage_file 1700000000000000.

(** After [loaded]: the certificate on disk is replaced by the issued one
    and the key file no longer holds a key; then a reload is attempted. *)
Definition replaced : state :=
  MkState (<[key_path := File true (bytes_of_str "not a key")]>
             (<[cert_path := issued_file]> (st_files loaded)))
          (st_clock loaded) (st_entropy loaded) (st_log loaded)
          (st_heap loaded) (st_self loaded) (st_writable loaded).
Definition failed_reload : state :=
  final_state (read_certificate_from_disk replaced).

(** A configured list that already names a load balancer's certificate. *)
Definition balancer_entry : pydict :=
  fingerprint_entry "q83vASNFZ4mrze8BI0VniavN7wEjRWeJq83vASNFZ4k".

End Scenario.

(** * TlsConfig.default_config

    [os.path.join] of two components, the [%] operator on a template with a
    mapping (as far as [%(name)s] and [%%] go), and the template itself. *)

Definition os_path_join (a b : string) : string :=
  match b with
  | String "/" _ => b
  | _ =>
      if bool_decide (a = EmptyString) then (a ++ b)%string
      else match last (list_ascii_of_string a) with
           | Some "/"%char => (a ++ b)%string
           | _ => (a ++ "/" ++ b)%string
           end
  end.

Inductive format_state :=
| InText
| AfterPercent
| InName (name : string)
| AfterName (name : string).

(** [template % mapping]: [%(name)s] is replaced by [mapping[name]] (a
    [KeyError] if there is none), [%%] by a percent sign; a template that
    ends inside a conversion is a [ValueError]. Other conversions are not
    part of this model and are refused. *)
Fixpoint format_chars (cs : list ascii) (st : format_state)
    (mapping : list (string * string)) : exn + string :=
  match cs with
  | [] =>
      match st with
      | InText => inr EmptyString
      | _ => inl (ValueError "incomplete format")
      end
  | c :: cs' =>
      match st with
      | InText =>
          if Ascii.eqb c "%" then format_chars cs' AfterPercent mapping
          else rest ← format_chars cs' InText mapping; mret (String c rest)
      | AfterPercent =>
          if Ascii.eqb c "%"
          then rest ← format_chars cs' InText mapping; mret (String c rest)
          else if Ascii.eqb c "("
          then format_chars cs' (InName EmptyString) mapping
          else inl (ValueError "unsupported format character")
      | InName name =>
          if Ascii.eqb c ")" then format_chars cs' (AfterName name) mapping
          else format_chars cs' (InName (name ++ String c EmptyString)) mapping
      | AfterName name =>
          if Ascii.eqb c "s"
          then match List.find (fun kv => String.eqb (fst kv) name) mapping with
               | Some kv =>
                   rest ← format_chars cs' InText mapping;
                   mret (snd kv ++ rest)%string
               | None => inl (KeyError name)
               end
          else inl (ValueError "unsupported format character")
      end
  end.

Definition format_mapping (template : string) (mapping : list (string * string))
  : exn + string :=
  format_chars (list_ascii_of_string template) InText mapping.

Definition dq : string := String (ascii_of_nat 34) EmptyString.
Definition newline : string := String (ascii_of_nat 10) EmptyString.

(** The template of lines 130-185, line by line. *)
Definition default_config_template : string :=
  String.concat newline
    ["        # PEM encoded X509 certificate for TLS.";
     "        # You can replace the self-signed certificate that synapse";
     "        # autogenerates on launch with your own SSL certificate + key pair";
     "        # if you like.  Any required intermediary certificates can be";
     "        # appended after the primary certificate in hierarchical order.";
     ("        tls_certificate_path: " ++ dq ++ "%(tls_certificate_path)s" ++ dq);
     "";
     "        # PEM encoded private key for TLS";
     ("        tls_private_key_path: " ++ dq ++ "%(tls_private_key_path)s" ++ dq);
     "";
     "        # Don't bind to the https port";
     "        no_tls: False";
     "";
     "        # List of allowed TLS fingerprints for this server to publish along";
     "        # with the signing keys for this server. Other matrix servers that";
     "        # make HTTPS requests to this server will check that the TLS";
     "        # certificates returned by this server match one of the fingerprints.";
     "        #";
     "        # Synapse automatically adds the fingerprint of its own certificate";
     "        # to the list. So if federation traffic is handled directly by synapse";
     "        # then no modification to the list is required.";
     "        #";
     "        # If synapse is run behind a load balancer that handles the TLS then it";
     "        # will be necessary to add the fingerprints of the certificates used by";
     "        # the loadbalancers to this list if they are different to the one";
     "        # synapse is using.";
     "        #";
     "        # Homeservers are permitted to cache the list of TLS fingerprints";
     ("        # returned in the key responses up to the " ++ dq ++ "valid_until_ts" ++ dq ++ " returned in");
     "        # key. It may be necessary to publish the fingerprints of a new";
     ("        # certificate and wait until the " ++ dq ++ "valid_until_ts" ++ dq ++ " of the previous key");
     "        # responses have passed before deploying it.";
     "        #";
     "        # You can calculate a fingerprint from a given TLS listener via:";
     "        # openssl s_client -connect $host:$port < /dev/null 2> /dev/null |";
     "        #   openssl x509 -outform DER | openssl sha256 -binary | base64 | tr -d '='";
     "        # or by checking matrix.org/federationtester/api/report?server_name=$host";
     "        #";
     "        tls_fingerprints: []";
     ("        # tls_fingerprints: [{" ++ dq ++ "sha256" ++ dq ++ ": " ++ dq ++ "<base64_encoded_sha256_fingerprint>" ++ dq ++ "}]");
     "";
     "        ## Support for ACME certificate auto-provisioning.";
     "        # acme:";
     "        #    enabled: false";
     "        ##   ACME path.";
     "        ##   If you only want to test, use the staging url:";
     "        ##   https://acme-staging.api.letsencrypt.org/directory";
     "        #    url: 'https://acme-v01.api.letsencrypt.org/directory'";
     "        ##   Port number (to listen for the HTTP-01 challenge).";
     "        ##   Using port 80 requires utilising something like authbind, or proxying to it.";
     "        #    port: 8449";
     "        ##   Hosts to bind to.";
     "        #    bind_addresses: ['127.0.0.1']";
     "        ##   How many days remaining on a certificate before it is renewed.";
     "        #    reprovision_threshold: 30";
     "        "]%string.

(** The paths of lines 123-126. *)
Definition default_certificate_path (config_dir_path server_name : string)
  : string :=
  (os_path_join config_dir_path server_name ++ ".tls.crt")%string.
Definition default_private_key_path (config_dir_path server_name : string)
  : string :=
  (os_path_join config_dir_path server_name ++ ".tls.key")%string.

(** [TlsConfig.default_config]. Of [locals()] the string-valued names are
    kept; the template refers to two of them. *)
Definition default_config (config_dir_path server_name : string)
  : exn + string :=
  let base_key_name := os_path_join config_dir_path server_name in
  let tls_certificate_path := (base_key_name ++ ".tls.crt")%string in
  let tls_private_key_path := (base_key_name ++ ".tls.key")%string in
  format_mapping default_config_template
    [("config_dir_path", config_dir_path); ("server_name", server_name);
     ("base_key_name", base_key_name);
     ("tls_certificate_path", tls_certificate_path);
     ("tls_private_key_path", tls_private_key_path)]%string.

(** The first occurrence of [marker] in [s]: the text before it and the
    text after it. *)
Fixpoint split_at (marker s : string) : option (string * string) :=
  if String.prefix marker s
  then Some (EmptyString,
             String.substring (String.length marker)
               (String.length s - String.length marker) s)
  else match s with
       | EmptyString => None
       | String c s' =>
           match split_at marker s' with
           | Some (a, b) => Some (String c a, b)
           | None => None
           end
       end.

(** The fixed text of the template: before the certificate path, between
    the two paths, and after the key path. *)
Definition template_parts : string * string * string :=
  Eval vm_compute in
    match split_at "%(tls_certificate_path)s" default_config_template with
    | Some (before, rest) =>
        match split_at "%(tls_private_key_path)s" rest with
        | Some (between, after) => (before, between, after)
        | None => (EmptyString, EmptyString, EmptyString)
        end
    | None => (EmptyString, EmptyString, EmptyString)
    end.

(** * synapse.custom: the domain whitelist kept in redis

    The redis server as its keyspace and whether it can be reached; the
    hash commands the module uses; and the module's three functions. *)

Module Whitelist.

Inductive redis_value :=
| RHash (fields : gmap string bytes)
| RString (value : bytes).

Record redis := MkRedis {
  reachable : bool;
  keyspace : gmap string redis_value }.

Inductive redis_error :=
| ConnectionError
| ResponseError (msg : string).

(** A command gives a reply or an error, and the server's new state. *)
Definition command (A : Type) : Type := redis -> (redis_error + A) * redis.

Definition wrongtype : redis_error :=
  ResponseError "WRONGTYPE Operation against a key holding the wrong kind of value".

(** The hash at a key: a key that does not exist reads as the empty hash. *)
Definition hash_at (name : string) (r : redis) : redis_error + gmap string bytes :=
  if negb (reachable r) then inl ConnectionError
  else match keyspace r !! name with
       | None => inr ∅
       | Some (RHash h) => inr h
       | Some (RString _) => inl wrongtype
       end.

(** A key whose hash has lost its last field is removed. *)
Definition store_hash (name : string) (h : gmap string bytes) (r : redis) : redis :=
  MkRedis (reachable r)
          (if decide (h = ∅) then delete name (keyspace r)
           else <[name := RHash h]> (keyspace r)).

(** HSET: the number of fields added. *)
Definition hset (name key : string) (value : bytes) : command Z := fun r =>
  match hash_at name r with
  | inl e => (inl e, r)
  | inr h => (inr (match h !! key with Some _ => 0 | None => 1 end),
              store_hash name (<[key := value]> h) r)
  end.

(** HGET *)
Definition hget (name key : string) : command (option bytes) := fun r =>
  match hash_at name r with
  | inl e => (inl e, r)
  | inr h => (inr (h !! key), r)
  end.

(** HDEL: the number of fields removed. *)
Definition hdel (name key : string) : command Z := fun r =>
  match hash_at name r with
  | inl e => (inl e, r)
  | inr h =>
      match h !! key with
      | Some _ => (inr 1, store_hash name (delete key h) r)
      | None => (inr 0, r)
      end
  end.

(** HEXISTS *)
Definition hexists (name key : string) : command bool := fun r =>
  match hash_at name r with
  | inl e => (inl e, r)
  | inr h => (inr (bool_decide (is_Some (h !! key))), r)
  end.

Definition bind {A B} (m : command A) (f : A -> command B) : command B :=
  fun r => match m r with
           | (inl e, r') => (inl e, r')
           | (inr a, r') => f a r'
           end.

Definition _CONFIG_WHITELIST_DOMAINS : string := "domain_white_list".

(** How redis-py sends the integer 1. *)
Definition one : bytes := bytes_of_str "1".

(** [bool(x)] of a reply that is [None] or bytes. *)
Definition truthy (reply : option bytes) : bool :=
  match reply with
  | Some (_ :: _) => true
  | _ => false
  end.

(** [add_whitelist_domain] *)
Definition add_whitelist_domain (domain : string) : command bool :=
  bind (hset _CONFIG_WHITELIST_DOMAINS domain one) (fun _ =>
  bind (hget _CONFIG_WHITELIST_DOMAINS domain) (fun reply r =>
  (inr (truthy reply), r))).

(** [del_whitelist_domain] *)
Definition del_whitelist_domain (domain : string) : command bool :=
  bind (hdel _CONFIG_WHITELIST_DOMAINS domain) (fun removed r =>
  (inr (negb (removed =? 0)), r)).

(** [is_host_listed]: [except Exception as err: raise err]. *)
Definition is_host_listed (host : string) : command bool := fun r =>
  match hexists _CONFIG_WHITELIST_DOMAINS host r with
  | (inr valid_domain, r') => (inr valid_domain, r')
  | (inl err, r') => (inl err, r')
  end.

(** A host is listed when the whitelist hash has a field of its name. *)
Definition listed (host : string) (r : redis) : Prop :=
  exists h v, keyspace r !! _CONFIG_WHITELIST_DOMAINS = Some (RHash h)
              /\ h !! host = Some v.

(** The server can be reached and the whitelist key, if it exists, holds a
    hash that is not empty (redis keeps no empty hash). *)
Definition serving (r : redis) : Prop :=
  reachable r = true
  /\ match keyspace r !! _CONFIG_WHITELIST_DOMAINS with
     | None => True
     | Some (RHash h) => h <> ∅
     | Some (RString _) => False
     end.

(** Some servers to run the functions on. *)
Definition empty_server : redis := MkRedis true ∅.
Definition unreachable_server : redis := MkRedis false ∅.
Definition other_server : redis :=
  MkRedis true {[ _CONFIG_WHITELIST_DOMAINS := RString (bytes_of_str "x") ]}.
Definition matrix_server : redis :=
  MkRedis true
    {[ _CONFIG_WHITELIST_DOMAINS := RHash {[ "matrix.org"%string := one ]} ]}.

End Whitelist.

(** Further states for the scenarios. *)

Module Scenario2.
Import SimplePlatform Scenario.

(** Two days after [expiring], with the same files. *)
Definition expiring_later : state :=
  with_cert_file issued_file (1700000000000000 + 2 * 86400000000).

(** A deployment with TLS switched off whose key file has been removed. *)
Definition config_no_tls : ConfigDict :=
  MkConfigDict None (Some cert_path) (Some key_path) (Some 1%positive)
               (Some true) None (Some "example.org"%string).
Definition tls_off : state :=
  final_state (generate_files config_no_tls
                 (final_state (read_config config_no_tls fresh))).
Definition tls_off_keyless : state :=
  MkState (delete key_path (st_files tls_off)) (st_clock tls_off)
          (st_entropy tls_off) (st_log tls_off) (st_heap tls_off)
          (st_self tls_off) (st_writable tls_off).

Definition config_same_path : ConfigDict :=
  MkConfigDict None (Some key_path) (Some key_path) (Some 1%positive)
               None None (Some "example.org"%string).
Definition config_empty : ConfigDict :=
  MkConfigDict None None None None None None None.

(** A deployment where nothing may be written, and one where only the
    certificate may not. *)
Definition read_only : state := with_writable (fun _ => false) configured.

(** A deployment whose configured list names the load balancer. *)
Definition behind_balancer : state :=
  with_heap (<[1%positive := [balancer_entry]]> (st_heap generated)) generated.

End Scenario2.

(** * Properties *)

(** ** sha256 *)

Example sha256_empty :
  hexdigest (SHA256.digest [])
  = "e3b0c44298fc1c149afbf4c8996fb92427ae41e4649b934ca495991b7852b855"%string.
Proof. vm_compute. reflexivity. Qed.

Example sha256_abc :
  hexdigest (SHA256.digest (bytes_of_str "abc"))
  = "ba7816bf8f01cfea414140de5dae2223b00361a396177a9cb410ff61f20015ad"%string.
Proof. vm_compute. reflexivity. Qed.

Example sha256_two_blocks :
  hexdigest (SHA256.digest (bytes_of_str
    "abcdbcdecdefdefgefghfghighijhijkijkljklmklmnlmnomnopnopq"))
  = "248d6a61d20638b8e5c026930c3e6039a33ce45964ff2167f6ecedd419db06c1"%string.
Proof. vm_compute. reflexivity. Qed.

(** * encode_base64 *)

Example encode_base64_rfc4648 :
  map encode_base64
      (map bytes_of_str ["f"; "fo"; "foo"; "foob"; "fooba"; "foobar"]%string)
  = ["Zg"; "Zm8"; "Zm9v"; "Zm9vYg"; "Zm9vYmE"; "Zm9vYmFy"]%string.
Proof. vm_compute. reflexivity. Qed.

Lemma b64_char_not_pad n : b64_char n <> b64_pad.
Proof.
  unfold b64_char.
  assert (Hlt : (Z.to_nat (n mod 64) < 64)%nat).
  { pose proof (Z.mod_pos_bound n 64). lia. }
  remember (Z.to_nat (n mod 64)) as k eqn:Hk. clear Hk.
  do 64 (destruct k as [|k]; [vm_compute; discriminate|]).
  lia.
Qed.

Lemma rstrip_cons c x s : x <> c -> rstrip c (String x s) = String x (rstrip c s).
Proof.
  intros Hx. simpl. destruct (rstrip c s); [|reflexivity].
  destruct (Ascii.eqb_spec x c); [contradiction | reflexivity].
Qed.

Lemma encode_base64_nil : encode_base64 [] = EmptyString.
Proof. reflexivity. Qed.

Lemma encode_base64_one a :
  encode_base64 [a]
  = String (b64_char (byte_to_Z a * 65536 / 262144))
      (String (b64_char (byte_to_Z a * 65536 / 4096)) EmptyString).
Proof.
  unfold encode_base64. cbn [b64encode].
  rewrite !rstrip_cons by apply b64_char_not_pad. reflexivity.
Qed.

Lemma encode_base64_two a b :
  let n := byte_to_Z a * 65536 + byte_to_Z b * 256 in
  encode_base64 [a; b]
  = String (b64_char (n / 262144)) (String (b64_char (n / 4096))
      (String (b64_char (n / 64)) EmptyString)).
Proof.
  unfold encode_base64. cbn [b64encode].
  rewrite !rstrip_cons by apply b64_char_not_pad. reflexivity.
Qed.

Lemma encode_base64_three a b c rest :
  let n := byte_to_Z a * 65536 + byte_to_Z b * 256 + byte_to_Z c in
  encode_base64 (a :: b :: c :: rest)
  = String (b64_char (n / 262144)) (String (b64_char (n / 4096))
      (String (b64_char (n / 64)) (String (b64_char n) (encode_base64 rest)))).
Proof.
  unfold encode_base64. cbn [b64encode].
  rewrite !rstrip_cons by apply b64_char_not_pad. reflexivity.
Qed.

Lemma encode_base64_unpadded_steps bs :
  unpadded (length bs) (encode_base64 bs)
  /\ (forall a, unpadded (S (length bs)) (encode_base64 (a :: bs)))
  /\ (forall a b, unpadded (S (S (length bs))) (encode_base64 (a :: b :: bs))).
Proof.
  induction bs as [|c bs (IH0 & IH1 & IH2)].
  - split; [|split]; intros.
    + split; [constructor | reflexivity].
    + rewrite encode_base64_one. split; [|reflexivity].
      repeat constructor; apply b64_char_not_pad.
    + rewrite encode_base64_two. split; [|reflexivity].
      repeat constructor; apply b64_char_not_pad.
  - split; [apply IH1 | split; [intros a; apply IH2 |]].
    intros a b. rewrite encode_base64_three. destruct IH0 as [Hall Hlen].
    split.
    + cbn [list_ascii_of_string].
      repeat (constructor; [apply b64_char_not_pad|]). exact Hall.
    + cbn [String.length length].
      replace (S (S (S (length bs))) mod 3)%nat with (length bs mod 3)%nat.
      * lia.
      * replace (S (S (S (length bs)))) with (length bs + 1 * 3)%nat by lia.
        symmetry. apply Nat.Div0.mod_add.
Qed.

Lemma encode_base64_unpadded bs : unpadded (length bs) (encode_base64 bs).
Proof. apply encode_base64_unpadded_steps. Qed.

Lemma b64encode_padding_steps bs :
  b64encode bs = (encode_base64 bs ++ b64_padding (length bs))%string
  /\ (forall a, b64encode (a :: bs)
                = (encode_base64 (a :: bs) ++ b64_padding (S (length bs)))%string)
  /\ (forall a b, b64encode (a :: b :: bs)
                  = (encode_base64 (a :: b :: bs)
                     ++ b64_padding (S (S (length bs))))%string).
Proof.
  induction bs as [|c bs (IH0 & IH1 & IH2)].
  - split; [|split]; intros.
    + reflexivity.
    + rewrite encode_base64_one. reflexivity.
    + rewrite encode_base64_two. reflexivity.
  - split; [apply IH1 | split; [intros a; apply IH2 |]].
    intros a b. rewrite encode_base64_three. cbn [b64encode String.append].
    rewrite IH0. do 4 f_equal. unfold b64_padding. cbn [length].
    replace (S (S (S (length bs))) mod 3)%nat with (length bs mod 3)%nat;
      [reflexivity|].
    replace (S (S (S (length bs)))) with (length bs + 1 * 3)%nat by lia.
    symmetry. apply Nat.Div0.mod_add.
Qed.

Lemma b64encode_padding bs :
  b64encode bs = (encode_base64 bs ++ b64_padding (length bs))%string.
Proof. apply b64encode_padding_steps. Qed.

(** The encoding loses nothing: it can be read back digit by digit. *)

Lemma byte_to_Z_bound b : 0 <= byte_to_Z b < 256.
Proof.
  unfold byte_to_Z. pose proof (Byte.to_N_bounded b). lia.
Qed.

Lemma byte_to_Z_inj a b : byte_to_Z a = byte_to_Z b -> a = b.
Proof.
  unfold byte_to_Z. intros Heq. apply N2Z.inj in Heq.
  pose proof (Byte.of_to_N a) as Ha. pose proof (Byte.of_to_N b) as Hb.
  rewrite Heq in Ha. congruence.
Qed.

Lemma b64_value_nth k :
  (k < 64)%nat ->
  b64_value (match String.get k b64_alphabet with
             | Some c => c
             | None => b64_pad
             end) = Z.of_nat k.
Proof.
  intros Hk.
  do 64 (destruct k as [|k]; [vm_compute; reflexivity|]).
  lia.
Qed.

Lemma b64_value_char n : b64_value (b64_char n) = n mod 64.
Proof.
  pose proof (Z.mod_pos_bound n 64 ltac:(lia)) as Hb.
  unfold b64_char. rewrite b64_value_nth by lia. lia.
Qed.

Lemma b64_char_mod x y : x mod 64 = y mod 64 -> b64_char x = b64_char y.
Proof. unfold b64_char. intros ->. reflexivity. Qed.

Lemma b64_digits n :
  0 <= n < 16777216 ->
  n = 262144 * ((n / 262144) mod 64) + 4096 * ((n / 4096) mod 64)
      + 64 * ((n / 64) mod 64) + n mod 64.
Proof. intros Hn. Z.to_euclidean_division_equations. lia. Qed.

Lemma b64_group_inj n n' :
  0 <= n < 16777216 -> 0 <= n' < 16777216 ->
  b64_char (n / 262144) = b64_char (n' / 262144) ->
  b64_char (n / 4096) = b64_char (n' / 4096) ->
  b64_char (n / 64) = b64_char (n' / 64) ->
  b64_char n = b64_char n' ->
  n = n'.
Proof.
  intros Hn Hn' H3 H2 H1 H0.
  apply (f_equal b64_value) in H3, H2, H1, H0.
  rewrite !b64_value_char in H3, H2, H1, H0.
  pose proof (b64_digits n Hn) as Hd. pose proof (b64_digits n' Hn') as Hd'.
  congruence.
Qed.

Lemma b64encode_inj_steps bs :
  let P xs := forall ys, length xs = length ys ->
                         b64encode xs = b64encode ys -> xs = ys in
  P bs /\ (forall a, P (a :: bs)) /\ (forall a b, P (a :: b :: bs)).
Proof.
  cbn zeta. induction bs as [|c bs (IH0 & IH1 & IH2)].
  - split; [|split].
    + intros [|y ys] Hl He; [reflexivity | discriminate].
    + intros a [|a' [|y ys]] Hl He; try discriminate.
      cbn [b64encode] in He. injection He as H3 H2.
      pose proof (byte_to_Z_bound a). pose proof (byte_to_Z_bound a').
      assert (Hn : byte_to_Z a * 65536 = byte_to_Z a' * 65536).
      { apply b64_group_inj; try lia; try assumption;
          apply b64_char_mod; Z.to_euclidean_division_equations; lia. }
      f_equal. apply byte_to_Z_inj. lia.
    + intros a b [|a' [|b' [|y ys]]] Hl He; try discriminate.
      cbn [b64encode] in He. injection He as H3 H2 H1.
      pose proof (byte_to_Z_bound a). pose proof (byte_to_Z_bound a').
      pose proof (byte_to_Z_bound b). pose proof (byte_to_Z_bound b').
      assert (Hn : byte_to_Z a * 65536 + byte_to_Z b * 256
                   = byte_to_Z a' * 65536 + byte_to_Z b' * 256).
      { apply b64_group_inj; try lia; try assumption;
          apply b64_char_mod; Z.to_euclidean_division_equations; lia. }
      f_equal; [|f_equal]; apply byte_to_Z_inj; lia.
  - split; [apply IH1 | split; [intros a; apply IH2|]].
    intros a b [|a' [|b' [|c' ys]]] Hl He; try discriminate.
    cbn [b64encode] in He. injection He as H3 H2 H1 H0 Hrest.
    pose proof (byte_to_Z_bound a). pose proof (byte_to_Z_bound a').
    pose proof (byte_to_Z_bound b). pose proof (byte_to_Z_bound b').
    pose proof (byte_to_Z_bound c). pose proof (byte_to_Z_bound c').
    assert (Hn : byte_to_Z a * 65536 + byte_to_Z b * 256 + byte_to_Z c
                 = byte_to_Z a' * 65536 + byte_to_Z b' * 256 + byte_to_Z c').
    { apply b64_group_inj; try lia; assumption. }
    f_equal; [|f_equal; [|f_equal]]; try (apply byte_to_Z_inj; lia).
    apply IH0; [|exact Hrest]. cbn [length] in Hl. lia.
Qed.

Lemma encode_base64_inj xs ys :
  length xs = length ys -> encode_base64 xs = encode_base64 ys -> xs = ys.
Proof.
  intros Hl He. apply (b64encode_inj_steps xs); [exact Hl|].
  rewrite (b64encode_padding xs), (b64encode_padding ys), Hl, He.
  reflexivity.
Qed.

(** * sha256 *)

Lemma be_bytes_length n z : length (be_bytes n z) = n.
Proof. induction n; simpl; congruence. Qed.

(** The padding of FIPS 180-4, 5.1.1: the message, the byte 0x80, the
    least number of zero bytes, and the length in bits on eight bytes, in
    all a whole number of 64-byte blocks. *)
Lemma sha256_pad_shape msg :
  exists zeros,
    SHA256.pad msg
    = msg ++ [x80] ++ repeat x00 zeros
          ++ be_bytes 8 (8 * Z.of_nat (length msg))
    /\ (zeros < 64)%nat
    /\ (length (SHA256.pad msg) mod 64 = 0)%nat.
Proof.
  exists (Z.to_nat ((55 - Z.of_nat (length msg)) mod 64)).
  split; [reflexivity|].
  pose proof (Z.mod_pos_bound (55 - Z.of_nat (length msg)) 64 ltac:(lia)) as Hb.
  pose proof (Z.div_mod (55 - Z.of_nat (length msg)) 64 ltac:(lia)) as Hq.
  split; [lia|].
  unfold SHA256.pad. cbn zeta.
  rewrite !length_app, repeat_length, be_bytes_length. cbn [length].
  set (z := (55 - Z.of_nat (length msg)) mod 64) in *.
  set (q := (55 - Z.of_nat (length msg)) / 64) in *.
  replace (length msg + (1 + (Z.to_nat z + 8)))%nat
    with (Z.to_nat (1 - q) * 64)%nat by lia.
  apply Nat.Div0.mod_mul.
Qed.

(** The digest chains the compression function over the blocks of the
    padded message, from the initial hash value (FIPS 180-4, 6.2.2). *)
Lemma sha256_absorb_fold n st data :
  SHA256.absorb n st data
  = fold_left SHA256.compress (SHA256.blocks n data) st.
Proof.
  revert st data. induction n as [|n IH]; intros st data; [reflexivity|].
  cbn [SHA256.absorb SHA256.blocks fold_left]. apply IH.
Qed.

Lemma sha256_digest_length msg : length (SHA256.digest msg) = 32%nat.
Proof.
  unfold SHA256.digest, SHA256.digest_of.
  rewrite !length_app, !be_bytes_length. reflexivity.
Qed.

(** * datetime *)

Example ordinal_of_unix_epoch : ymd2ord 1970 1 1 = unix_epoch_ordinal.
Proof. reflexivity. Qed.

Example ord2ymd_leap_day : ord2ymd (ymd2ord 2024 2 29) = (2024, 2, 29).
Proof. vm_compute. reflexivity. Qed.

Example ord2ymd_year_end : ord2ymd (ymd2ord 2100 12 31) = (2100, 12, 31).
Proof. vm_compute. reflexivity. Qed.

Example generalizedtime_epoch :
  str_of_bytes (generalizedtime 0) = "19700101000000Z"%string.
Proof. vm_compute. reflexivity. Qed.

Example generalizedtime_2023 :
  str_of_bytes (generalizedtime 1700000000) = "20231114221320Z"%string.
Proof. vm_compute. reflexivity. Qed.

Example strptime_roundtrip :
  strptime_YmdHMSZ (str_of_bytes (generalizedtime 1700000000))
  = inr (datetime_of_posix_us (1700000000 * us_per_second)).
Proof. vm_compute. reflexivity. Qed.

Example strptime_rejects_february_30 :
  strptime_YmdHMSZ "20300230000000Z"
  = inl (ValueError "time data does not match format").
Proof. vm_compute. reflexivity. Qed.

(** One microsecond short of a day is zero days; one microsecond past
    expiry is minus one day. *)
Example timedelta_days_examples :
  days (datetime_sub (Datetime 2030 1 2 0 0 0 0) (Datetime 2030 1 1 0 0 0 1)) = 0
  /\ days (datetime_sub (Datetime 2030 1 1 0 0 0 0) (Datetime 2030 1 1 0 0 0 1)) = -1.
Proof. split; reflexivity. Qed.

Lemma all_from_spec n z0 P z :
  all_from n z0 P = true -> z0 <= z < z0 + Z.of_nat n -> P z = true.
Proof.
  revert z0. induction n as [|k IH]; intros z0 Hall Hz; [lia|].
  cbn [all_from] in Hall. apply andb_true_iff in Hall as [Hk Hall].
  destruct (Z.eq_dec z z0) as [-> | Hne]; [exact Hk|].
  apply (IH (z0 + 1)); [exact Hall | lia].
Qed.

Lemma cycle_checked :
  all_from (Z.to_nat days_per_cycle) 0 cycle_day_ok = true.
Proof. vm_cast_no_check (eq_refl true). Qed.

Lemma cycle_day r : 0 <= r < days_per_cycle -> cycle_day_ok r = true.
Proof.
  intros Hr. apply (all_from_spec _ 0 _ _ cycle_checked).
  rewrite Z2Nat.id by (vm_compute; discriminate). lia.
Qed.

Lemma is_leap_shift y k : is_leap (y + 400 * k) = is_leap y.
Proof.
  unfold is_leap.
  replace (y + 400 * k) with (y + (100 * k) * 4) at 1 by lia.
  replace (y + 400 * k) with (y + (4 * k) * 100) at 1 by lia.
  replace (y + 400 * k) with (y + k * 400) by lia.
  rewrite !Z.mod_add by lia. reflexivity.
Qed.

Lemma days_in_month_shift y k m :
  days_in_month (y + 400 * k) m = days_in_month y m.
Proof. unfold days_in_month. rewrite is_leap_shift. reflexivity. Qed.

Lemma days_before_month_shift y k m :
  days_before_month (y + 400 * k) m = days_before_month y m.
Proof.
  unfold days_before_month. induction (Z.to_nat (m - 1)) as [|j IH].
  - reflexivity.
  - cbn [days_before_month_aux]. rewrite IH, days_in_month_shift. reflexivity.
Qed.

Lemma days_before_year_shift y k :
  days_before_year (y + 400 * k) = days_before_year y + days_per_cycle * k.
Proof.
  unfold days_before_year, days_per_cycle. cbn zeta.
  replace (y + 400 * k - 1) with (y - 1 + (100 * k) * 4) at 2 by lia.
  replace (y + 400 * k - 1) with (y - 1 + (4 * k) * 100) at 2 by lia.
  replace (y + 400 * k - 1) with (y - 1 + k * 400) at 2 by lia.
  rewrite !Z.div_add by lia. lia.
Qed.

Lemma ymd2ord_shift y k m d :
  ymd2ord (y + 400 * k) m d = ymd2ord y m d + days_per_cycle * k.
Proof.
  unfold ymd2ord. rewrite days_before_year_shift, days_before_month_shift. lia.
Qed.

Lemma ord2ymd_cycle n :
  ord2ymd n
  = let '(y, m, d) := ord2ymd ((n - 1) mod days_per_cycle + 1) in
    (y + 400 * ((n - 1) / days_per_cycle), m, d).
Proof.
  unfold days_per_cycle.
  pose proof (Z.mod_pos_bound (n - 1) 146097 ltac:(lia)) as Hr.
  unfold ord2ymd. cbv zeta.
  replace ((n - 1) mod 146097 + 1 - 1) with ((n - 1) mod 146097) by lia.
  rewrite (Z.mod_small ((n - 1) mod 146097) 146097) by exact Hr.
  rewrite (Z.div_small ((n - 1) mod 146097) 146097) by exact Hr.
  set (r := (n - 1) mod 146097). set (q := (n - 1) / 146097).
  destruct ((r mod 36524 mod 1461 / 365 =? 4) || (r / 36524 =? 4)).
  - f_equal. f_equal. lia.
  - destruct (r mod 36524 mod 1461 mod 365 <? _); f_equal; f_equal; lia.
Qed.

(** [ord2ymd] inverts [ymd2ord] on every ordinal, and yields a date of the
    calendar. *)
Lemma ord2ymd_spec n :
  let '(y, m, d) := ord2ymd n in
  ymd2ord y m d = n
  /\ 1 <= m <= 12 /\ 1 <= d <= days_in_month y m
  /\ (1 <= n <= 3652059 -> 1 <= y <= 9999).
Proof.
  rewrite ord2ymd_cycle.
  pose proof (Z.mod_pos_bound (n - 1) days_per_cycle ltac:(reflexivity)) as Hr.
  pose proof (Z.div_mod (n - 1) days_per_cycle ltac:(discriminate)) as Hn.
  pose proof (cycle_day _ Hr) as Hok. unfold cycle_day_ok in Hok.
  set (r := (n - 1) mod days_per_cycle) in *.
  set (q := (n - 1) / days_per_cycle) in *.
  destruct (ord2ymd (r + 1)) as [[y m] d].
  rewrite !andb_true_iff, orb_true_iff in Hok.
  destruct Hok as (((((((H1 & H2) & H3) & H4) & H5) & H6) & H7) & H8).
  apply Z.eqb_eq in H1. apply Z.leb_le in H2, H3, H5, H6, H7, H8.
  rewrite ymd2ord_shift, days_in_month_shift, H1.
  split; [lia|]. split; [lia|]. split; [lia|].
  intros Hrange. unfold days_per_cycle in *.
  destruct H4 as [H4 | H4]; apply Z.leb_le in H4; lia.
Qed.

Lemma timeline_of_posix t :
  timeline_us (datetime_of_posix_us t) = t + unix_epoch_ordinal * us_per_day.
Proof.
  unfold datetime_of_posix_us, timeline_us, toordinal.
  pose proof (ord2ymd_spec (unix_epoch_ordinal + t / us_per_day)) as Hspec.
  destruct (ord2ymd (unix_epoch_ordinal + t / us_per_day)) as [[y m] d].
  destruct Hspec as (Hord & _). cbn [year month day hour minute second microsecond].
  rewrite Hord. unfold us_per_day, us_per_second, unix_epoch_ordinal.
  pose proof (Z.div_mod t (86400 * 1000000) ltac:(lia)).
  pose proof (Z.mod_pos_bound t (86400 * 1000000) ltac:(lia)).
  set (r := t mod (86400 * 1000000)) in *.
  set (q := t / (86400 * 1000000)) in *.
  clearbody r q. clear Hord.
  pose proof (Z.div_mod r 1000000 ltac:(lia)).
  pose proof (Z.mod_pos_bound r 1000000 ltac:(lia)).
  set (secs := r / 1000000) in *. set (us := r mod 1000000) in *.
  clearbody secs us.
  assert (Hs : secs mod 60 + secs / 60 mod 60 * 60 + secs / 3600 * 3600 = secs).
  { pose proof (Z.div_mod secs 60 ltac:(lia)).
    pose proof (Z.div_mod (secs / 60) 60 ltac:(lia)).
    replace (secs / 3600) with (secs / 60 / 60)
      by (rewrite Z.div_div by lia; reflexivity).
    lia. }
  lia.
Qed.











Lemma timedelta_days_floor a b :
  days (datetime_sub a b) = (timeline_us a - timeline_us b) / us_per_day.
Proof.
  unfold datetime_sub, timedelta_new, timeline_us, us_per_day, us_per_second.
  cbn [days].
  set (D := toordinal a - toordinal b).
  set (S1 := second a + minute a * 60 + hour a * 3600).
  set (S2 := second b + minute b * 60 + hour b * 3600).
  set (U := microsecond a - microsecond b).
  replace (toordinal a * (86400 * 1000000) + S1 * 1000000 + microsecond a
           - (toordinal b * (86400 * 1000000) + S2 * 1000000 + microsecond b))
    with (U + (S1 - S2 + D * 86400) * 1000000) by (unfold D, U; lia).
  replace (86400 * 1000000) with (1000000 * 86400) by lia.
  rewrite <- Z.div_div by lia.
  rewrite Z.div_add by lia.
  replace (U / 1000000 + (S1 - S2 + D * 86400))
    with (S1 - S2 + U / 1000000 + D * 86400) by lia.
  rewrite Z.div_add by lia. lia.
Qed.


Arguments SHA256.digest : simpl never.
Arguments can_open_wb : simpl never.
Arguments encode_base64 : simpl never.

Section TlsConfigProperties.
Context `{Platform}.

(** ** is_disk_cert_valid *)

Ltac run_M :=
  unfold mbind, M_bind, mret, M_ret, get_self, os_path_exists,
    try_log_reraise, read_whole_file, lift, raise, utcnow,
    logger_exception, modify in *; cbn beta iota in *.

Lemma is_disk_cert_valid_absent s allow :
  st_files s !! tls_certificate_file (st_self s) = None ->
  is_disk_cert_valid allow s = Return None s.
Proof.
  intros Hnone. unfold is_disk_cert_valid. run_M. rewrite Hnone.
  rewrite bool_decide_eq_false_2; [reflexivity | intros [? ?]; discriminate].
Qed.

Lemma is_disk_cert_valid_unreadable s allow f :
  st_files s !! tls_certificate_file (st_self s) = Some f ->
  readable f = false ->
  is_disk_cert_valid allow s
  = Raise (IOError (tls_certificate_file (st_self s)))
          (with_log (st_log s
             ++ [read_failure_record
                   (IOError (tls_certificate_file (st_self s)))]) s).
Proof.
  intros Hf Hr. unfold is_disk_cert_valid. run_M. rewrite Hf.
  rewrite bool_decide_eq_true_2 by eauto. cbn. rewrite Hf, Hr. reflexivity.
Qed.

Lemma is_disk_cert_valid_unparsable s allow f e :
  st_files s !! tls_certificate_file (st_self s) = Some f ->
  readable f = true ->
  load_certificate FILETYPE_PEM (content f) = inl e ->
  is_disk_cert_valid allow s
  = Raise e (with_log (st_log s ++ [parse_failure_record e]) s).
Proof.
  intros Hf Hr He. unfold is_disk_cert_valid. run_M. rewrite Hf.
  rewrite bool_decide_eq_true_2 by eauto. cbn. rewrite Hf, Hr, He. reflexivity.
Qed.

Lemma is_disk_cert_valid_parsed s allow f c :
  st_files s !! tls_certificate_file (st_self s) = Some f ->
  readable f = true ->
  load_certificate FILETYPE_PEM (content f) = inr c ->
  is_disk_cert_valid allow s
  = if negb allow && X509Name_eqb (get_subject c) (get_issuer c)
    then Raise self_signed_error s
    else match expiry_of c with
         | inl e => Raise e s
         | inr expires_on =>
             Return (Some (days (datetime_sub expires_on
                                   (datetime_of_posix_us (st_clock s))))) s
         end.
Proof.
  intros Hf Hr Hc. unfold is_disk_cert_valid, expiry_of. run_M. rewrite Hf.
  rewrite bool_decide_eq_true_2 by eauto. cbn. rewrite Hf, Hr, Hc.
  destruct allow; cbn.
  - destruct (get_notAfter c) as [b|]; [|reflexivity].
    destruct (decode_ascii b) as [e|str]; [reflexivity|]. cbn.
    destruct (strptime_YmdHMSZ str); reflexivity.
  - destruct (X509Name_eqb _ _); [reflexivity|].
    destruct (get_notAfter c) as [b|]; [|reflexivity].
    destruct (decode_ascii b) as [e|str]; [reflexivity|]. cbn.
    destruct (strptime_YmdHMSZ str); reflexivity.
Qed.








(** C9. When the certificate file exists but cannot be read, or is read but
    does not parse, [is_disk_cert_valid] logs the failure and re-raises the
    exception it caught: the outcome is that very exception, no value is
    returned, and the only change to the state is the added log record. *)
Theorem is_disk_cert_valid_reraises (s : state) (allow : bool) (f : file) :
  st_files s !! tls_certificate_file (st_self s) = Some f ->
  (readable f = false ->
   is_disk_cert_valid allow s
   = Raise (IOError (tls_certificate_file (st_self s)))
       (with_log (st_log s
          ++ [read_failure_record
                (IOError (tls_certificate_file (st_self s)))]) s))
  /\ (forall e,
        readable f = true ->
        load_certificate FILETYPE_PEM (content f) = inl e ->
        is_disk_cert_valid allow s
        = Raise e (with_log (st_log s ++ [parse_failure_record e]) s)).
Proof.
  intros Hf. split.
  - intros Hr. apply (is_disk_cert_valid_unreadable s allow f Hf Hr).
  - intros e Hr He. apply (is_disk_cert_valid_unparsable s allow f e Hf Hr He).
Qed.

(** ** The fingerprint step *)

Lemma each_sha256_inr fingerprints values :
  each_sha256 fingerprints = inr values ->
  forall v, v ∈ values <-> exists f, f ∈ fingerprints /\ carries v f.
Proof.
  revert values. induction fingerprints as [|f rest IH]; intros values Hv v.
  - inversion Hv; subst. split.
    + intros Hin. inversion Hin.
    + intros (f & Hin & _). inversion Hin.
  - cbn in Hv. unfold dict_getitem in Hv.
    destruct (f !! "sha256"%string) as [x|] eqn:Hx; [|discriminate].
    cbn in Hv. destruct (each_sha256 rest) as [e|vs]; [discriminate|].
    cbn in Hv. inversion Hv; subst. specialize (IH vs eq_refl v).
    rewrite elem_of_cons, IH. split.
    + intros [-> | (g & Hin & Hg)].
      * exists f. split; [left | exact Hx].
      * exists g. split; [right; exact Hin | exact Hg].
    + intros (g & Hin & Hg). apply elem_of_cons in Hin as [-> | Hin].
      * left. unfold carries in Hg. congruence.
      * right. eauto.
Qed.

Lemma each_sha256_total fingerprints :
  Forall (fun f => is_Some (f !! "sha256"%string)) fingerprints ->
  exists values, each_sha256 fingerprints = inr values.
Proof.
  induction 1 as [|f rest [x Hx] _ [vs IH]].
  - exists []. reflexivity.
  - exists (x :: vs). cbn. unfold dict_getitem. rewrite Hx. cbn.
    rewrite IH. reflexivity.
Qed.

Lemma each_sha256_inl fingerprints e :
  each_sha256 fingerprints = inl e ->
  e = KeyError "sha256"
  /\ exists f, f ∈ fingerprints /\ f !! "sha256"%string = None.
Proof.
  induction fingerprints as [|f rest IH]; [discriminate|].
  cbn. unfold dict_getitem.
  destruct (f !! "sha256"%string) as [x|] eqn:Hx; cbn.
  - destruct (each_sha256 rest) as [e'|vs]; [|discriminate].
    cbn. intros [= <-]. destruct (IH eq_refl) as [-> (g & Hin & Hg)].
    split; [reflexivity|]. exists g. split; [right; exact Hin | exact Hg].
  - intros [= <-]. split; [reflexivity|]. exists f. split; [left | exact Hx].
Qed.

Lemma each_sha256_app xs ys vs ws :
  each_sha256 xs = inr vs -> each_sha256 ys = inr ws ->
  each_sha256 (xs ++ ys) = inr (vs ++ ws).
Proof.
  revert vs. induction xs as [|f rest IH]; intros vs Hx Hy.
  - inversion Hx. exact Hy.
  - cbn in *. destruct (dict_getitem f "sha256") as [e|x]; [discriminate|].
    cbn in *. destruct (each_sha256 rest) as [e|vs']; [discriminate|].
    cbn in Hx. inversion Hx; subst. rewrite (IH vs' eq_refl Hy). reflexivity.
Qed.

Lemma fingerprint_entry_carries fp : carries fp (fingerprint_entry fp).
Proof. apply lookup_singleton_eq. Qed.

Lemma reconcile_cases configured cert values :
  each_sha256 configured = inr values ->
  reconcile configured cert
  = inr (if bool_decide (sha256_fingerprint_of cert ∈ values)
         then configured
         else configured ++ [fingerprint_entry (sha256_fingerprint_of cert)]).
Proof.
  intros Hv. unfold reconcile. rewrite Hv.
  unfold mbind, result_bind, mret, result_ret.
  generalize (sha256_fingerprint_of cert). intros fp.
  destruct (decide (fp ∈ values)) as [Hin|Hout].
  - rewrite bool_decide_eq_false_2.
    + rewrite bool_decide_eq_true_2 by exact Hin. reflexivity.
    + intros Hn. apply Hn, elem_of_list_to_set. exact Hin.
  - rewrite bool_decide_eq_true_2.
    + rewrite bool_decide_eq_false_2 by exact Hout. reflexivity.
    + intros Hn. apply Hout. apply elem_of_list_to_set in Hn. exact Hn.
Qed.

(** On a configured list whose entries all have a ["sha256"] item,
    [reconcile] returns the list with the certificate's own fingerprint entry
    appended at the end exactly when no configured entry carries that
    fingerprint, and the list itself otherwise. *)
Lemma reconcile_appends (configured : list pydict) (cert : X509) :
  Forall (fun f => is_Some (f !! "sha256"%string)) configured ->
  let own := sha256_fingerprint_of cert in
  let carried := exists f, f ∈ configured /\ carries own f in
  exists published,
    reconcile configured cert = inr published
    /\ (published = configured ++ [fingerprint_entry own] <-> ~ carried)
    /\ (published = configured <-> carried)
    /\ configured `prefix_of` published
    /\ (exists f, f ∈ published /\ carries own f).
Proof.
  intros Hwf own carried.
  destruct (each_sha256_total configured Hwf) as [values Hv].
  pose proof (each_sha256_inr configured values Hv own) as Hmem.
  rewrite (reconcile_cases configured cert values Hv). fold own.
  destruct (decide (own ∈ values)) as [Hin|Hout].
  - rewrite bool_decide_eq_true_2 by exact Hin.
    exists configured. split; [reflexivity|].
    assert (Hc : carried) by (apply Hmem; exact Hin).
    split; [|split; [|split]].
    + split; [|tauto]. intros Heq. exfalso.
      apply (f_equal (@length _)) in Heq. rewrite length_app in Heq.
      cbn in Heq. lia.
    + tauto.
    + reflexivity.
    + exact Hc.
  - rewrite bool_decide_eq_false_2 by exact Hout.
    exists (configured ++ [fingerprint_entry own]). split; [reflexivity|].
    assert (Hc : ~ carried) by (intros Hc; apply Hout, Hmem; exact Hc).
    split; [|split; [|split]].
    + tauto.
    + split; [|tauto]. intros Heq. exfalso.
      apply (f_equal (@length _)) in Heq. rewrite length_app in Heq.
      cbn in Heq. lia.
    + apply prefix_app_r. reflexivity.
    + exists (fingerprint_entry own). split.
      * apply elem_of_app. right. apply list_elem_of_singleton. reflexivity.
      * apply fingerprint_entry_carries.
Qed.

(** C5. [reconcile] is idempotent: reconciling its own result with the same
    certificate gives that result again, so no second entry is added. *)
Theorem reconcile_idempotent (configured : list pydict) (cert : X509) :
  reconcile configured cert ≫= (fun published => reconcile published cert)
  = reconcile configured cert.
Proof.
  destruct (each_sha256 configured) as [e|values] eqn:Hv.
  - assert (Hr : reconcile configured cert = inl e)
      by (unfold reconcile; rewrite Hv; reflexivity).
    rewrite Hr. reflexivity.
  - rewrite (reconcile_cases configured cert values Hv).
    change (inr ?x ≫= ?f) with (f x). cbn beta.
    destruct (decide (sha256_fingerprint_of cert ∈ values)) as [Hin|Hout].
    + rewrite bool_decide_eq_true_2 by exact Hin.
      rewrite (reconcile_cases configured cert values Hv).
      rewrite bool_decide_eq_true_2 by exact Hin. reflexivity.
    + rewrite bool_decide_eq_false_2 by exact Hout.
      assert (Hw : each_sha256 [fingerprint_entry (sha256_fingerprint_of cert)]
                   = inr [sha256_fingerprint_of cert]).
      { cbn. unfold dict_getitem.
        rewrite (fingerprint_entry_carries (sha256_fingerprint_of cert)).
        reflexivity. }
      rewrite (reconcile_cases _ cert _ (each_sha256_app _ _ _ _ Hv Hw)).
      rewrite bool_decide_eq_true_2; [reflexivity|].
      apply elem_of_app. right. apply list_elem_of_singleton. reflexivity.
Qed.

(** C6. The fingerprint is the unpadded base64 encoding of the SHA-256 digest
    of the certificate's DER encoding. The encoding: the digest has 32
    bytes, the standard base64 encoding of it is the fingerprint followed
    by one padding character, and the fingerprint itself has 43 characters,
    none of them the padding character; it loses nothing, two certificates
    having the same fingerprint exactly when their DER encodings have the
    same digest. The digest: the DER bytes are padded as FIPS 180-4
    prescribes (the byte 0x80, fewer than 64 zero bytes, the length in bits
    on eight bytes, to a whole number of 64-byte blocks), the compression
    function is chained over the blocks from the standard's initial hash
    value, and the function agrees with the standard's test vectors. The
    fingerprint is a function of the DER bytes alone: two certificates with
    the same DER encoding have the same fingerprint. *)
Theorem sha256_fingerprint_unpadded_base64 (cert : X509) :
  let der := dump_certificate FILETYPE_ASN1 cert in
  let digest := SHA256.digest der in
  let fp := sha256_fingerprint_of cert in
  fp = rstrip b64_pad (b64encode digest)
  /\ length digest = 32%nat
  /\ b64encode digest = (fp ++ String b64_pad EmptyString)%string
  /\ String.length fp = 43%nat
  /\ Forall (fun c => c <> b64_pad) (list_ascii_of_string fp)
  /\ (forall cert',
        dump_certificate FILETYPE_ASN1 cert' = der ->
        sha256_fingerprint_of cert' = fp)
  /\ (forall cert',
        sha256_fingerprint_of cert' = fp
        <-> SHA256.digest (dump_certificate FILETYPE_ASN1 cert') = digest)
  /\ (exists zeros,
        SHA256.pad der
        = der ++ [x80] ++ repeat x00 zeros
              ++ be_bytes 8 (8 * Z.of_nat (length der))
        /\ (zeros < 64)%nat
        /\ (length (SHA256.pad der) mod 64 = 0)%nat)
  /\ digest
     = SHA256.digest_of
         (fold_left SHA256.compress
            (SHA256.blocks (length (SHA256.pad der) / 64) (SHA256.pad der))
            SHA256.initial_state)
  /\ SHA256.initial_words
     = [0x6a09e667; 0xbb67ae85; 0x3c6ef372; 0xa54ff53a;
        0x510e527f; 0x9b05688c; 0x1f83d9ab; 0x5be0cd19]
  /\ hexdigest (SHA256.digest [])
     = "e3b0c44298fc1c149afbf4c8996fb92427ae41e4649b934ca495991b7852b855"%string
  /\ hexdigest (SHA256.digest (bytes_of_str "abc"))
     = "ba7816bf8f01cfea414140de5dae2223b00361a396177a9cb410ff61f20015ad"%string
  /\ hexdigest (SHA256.digest (bytes_of_str
       "abcdbcdecdefdefgefghfghighijhijkijkljklmklmnlmnomnopnopq"))
     = "248d6a61d20638b8e5c026930c3e6039a33ce45964ff2167f6ecedd419db06c1"%string.
Proof.
  intros der digest fp.
  assert (Hlen : length digest = 32%nat) by apply sha256_digest_length.
  split; [reflexivity|]. split; [exact Hlen|]. split.
  { unfold fp, sha256_fingerprint_of. fold der. fold digest.
    rewrite (b64encode_padding digest) at 1. rewrite Hlen. reflexivity. }
  split.
  { destruct (encode_base64_unpadded digest) as [_ Hl]. rewrite Hlen in Hl.
    unfold fp, sha256_fingerprint_of. fold der. fold digest.
    cbn in Hl. lia. }
  split.
  { destruct (encode_base64_unpadded digest) as [Hall _]. exact Hall. }
  split.
  { intros cert' Hder. unfold fp, sha256_fingerprint_of. rewrite Hder.
    reflexivity. }
  split.
  { intros cert'. unfold fp, sha256_fingerprint_of. fold der. fold digest.
    split.
    - apply encode_base64_inj. rewrite Hlen. apply sha256_digest_length.
    - intros ->. reflexivity. }
  split; [apply sha256_pad_shape|]. split.
  { unfold digest, SHA256.digest. cbn zeta.
    rewrite sha256_absorb_fold. reflexivity. }
  split; [vm_compute; reflexivity|].
  split; [exact sha256_empty|]. split; [exact sha256_abc|].
  exact sha256_two_blocks.
Qed.

(** ** generate_files *)

Lemma generate_files_blocks config :
  generate_files config
  = (tls_certificate_path ←
       config_getitem "tls_certificate_path" (c_tls_certificate_path config);
     tls_private_key_path ←
       config_getitem "tls_private_key_path" (c_tls_private_key_path config);
     tls_private_key ← ensure_private_key tls_private_key_path;
     ensure_certificate config tls_certificate_path tls_private_key).
Proof. reflexivity. Qed.

Ltac run_files :=
  unfold ensure_private_key, ensure_certificate, path_exists, open_wb,
    file_write, generate_key, gmtime_adj_notBefore, gmtime_adj_notAfter,
    time_now, config_getitem;
  run_M.

Lemma set_subject_CN_ok value c :
  common_name_ok value = true ->
  set_subject_CN value c
  = inr (with_tbs
           (fun t => MkTbs (serial_number t) (not_before t) (not_after t)
                           (name_set "CN" value (subject t)) (issuer t)
                           (pubkey t)) c).
Proof.
  unfold common_name_ok, set_subject_CN. intros Hok.
  apply andb_true_iff in Hok as [Hlo Hhi].
  apply Nat.leb_le in Hlo. apply Nat.leb_le in Hhi.
  destruct (Nat.eqb_spec (String.length value) 0) as [Hz|_]; [lia|].
  destruct (Nat.ltb_spec ub_common_name (String.length value)) as [Hl|_];
    [lia | reflexivity].
Qed.

Lemma set_subject_CN_refused value c :
  common_name_ok value = false ->
  exists msg, set_subject_CN value c = inl (CryptoError msg).
Proof.
  unfold common_name_ok, set_subject_CN. intros Hbad.
  destruct (Nat.eqb_spec (String.length value) 0) as [Hz|Hnz]; [eauto|].
  destruct (Nat.ltb_spec ub_common_name (String.length value)) as [Hl|Hle];
    [eauto|].
  exfalso. apply andb_false_iff in Hbad as [Hlo | Hhi].
  - apply Nat.leb_gt in Hlo. lia.
  - apply Nat.leb_gt in Hhi. lia.
Qed.

Lemma ensure_private_key_absent kp s :
  st_files s !! kp = None ->
  can_open_wb s kp = true ->
  ensure_private_key kp s
  = Return (fresh_key s)
      (MkState (<[kp := File true (dump_privatekey FILETYPE_PEM (fresh_key s))]>
                  (st_files s))
               (st_clock s) (N.succ (st_entropy s)) (st_log s) (st_heap s)
               (st_self s) (st_writable s)).
Proof.
  intros Hk Hw. destruct s as [fs clk ent lg hp slf wr]. cbn in Hk.
  run_files. cbn [st_files]. rewrite Hk.
  rewrite bool_decide_eq_false_2 by (intros [? ?]; discriminate).
  cbn [negb]. rewrite Hw. cbn. rewrite lookup_insert_eq. cbn.
  rewrite insert_insert_eq, Hk. reflexivity.
Qed.

Lemma ensure_private_key_refused kp s :
  st_files s !! kp = None ->
  can_open_wb s kp = false ->
  ensure_private_key kp s = Raise (IOError kp) s.
Proof.
  intros Hk Hw. run_files. rewrite Hk.
  rewrite bool_decide_eq_false_2 by (intros [? ?]; discriminate).
  cbn [negb]. rewrite Hw. reflexivity.
Qed.

Lemma ensure_private_key_present kp s f :
  st_files s !! kp = Some f ->
  ensure_private_key kp s
  = if readable f
    then match load_privatekey FILETYPE_PEM (content f) with
         | inr k => Return k s
         | inl e => Raise e s
         end
    else Raise (IOError kp) s.
Proof.
  intros Hk. run_files. rewrite Hk.
  rewrite bool_decide_eq_true_2 by eauto. cbn. rewrite Hk.
  destruct (readable f); [|reflexivity].
  destruct (load_privatekey FILETYPE_PEM (content f)); reflexivity.
Qed.

Lemma ensure_certificate_present config cp k s f :
  st_files s !! cp = Some f ->
  ensure_certificate config cp k s = Return tt s.
Proof.
  intros Hc. run_files. rewrite Hc.
  rewrite bool_decide_eq_true_2 by eauto. reflexivity.
Qed.

(** The certificate block once [open] has succeeded: the path holds an
    empty file. *)
Lemma ensure_certificate_opened config cp k s :
  st_files s !! cp = None ->
  can_open_wb s cp = true ->
  ensure_certificate config cp k s
  = (let cert := X509_new in
     server_name ← config_getitem "server_name" (c_server_name config);
     cert ← lift (set_subject_CN server_name cert);
     let cert := set_serial_number 1000 cert in
     cert ← gmtime_adj_notBefore 0 cert;
     cert ← gmtime_adj_notAfter (10 * 365 * 24 * 60 * 60) cert;
     let cert := set_issuer (get_subject cert) cert in
     let cert := set_pubkey k cert in
     cert ← lift (sign k "sha256" cert);
     let cert_pem := dump_certificate FILETYPE_PEM cert in
     file_write cp cert_pem)
      (with_files (<[cp := File true []]> (st_files s)) s).
Proof.
  intros Hc Hw. unfold ensure_certificate, path_exists, open_wb.
  unfold mbind at 1 2, M_bind, os_path_exists. cbn beta iota. rewrite Hc.
  rewrite bool_decide_eq_false_2 by (intros [? ?]; discriminate).
  cbn [negb]. rewrite Hw, Hc. reflexivity.
Qed.

Lemma ensure_certificate_absent config cp k s name :
  st_files s !! cp = None ->
  can_open_wb s cp = true ->
  c_server_name config = Some name ->
  common_name_ok name = true ->
  pk_initialized k = true ->
  pk_only_public k = false ->
  ensure_certificate config cp k s
  = Return tt
      (MkState
         (<[cp := File true
                    (dump_certificate FILETYPE_PEM
                       (generated_certificate name
                          (st_clock s / us_per_second) k))]> (st_files s))
         (st_clock s) (st_entropy s) (st_log s) (st_heap s) (st_self s)
         (st_writable s)).
Proof.
  intros Hc Hw Hname Hok Hinit Hpriv.
  rewrite (ensure_certificate_opened config cp k s Hc Hw).
  destruct s as [fs clk ent lg hp slf wr]. cbn in Hc.
  run_files. cbn. rewrite Hname. cbn.
  rewrite (set_subject_CN_ok name X509_new Hok). cbn.
  unfold sign. rewrite Hinit, Hpriv. cbn.
  rewrite bool_decide_eq_true_2 by (unfold known_digests; set_solver).
  cbn. rewrite lookup_insert_eq. cbn. rewrite insert_insert_eq.
  reflexivity.
Qed.

Lemma ensure_certificate_refused config cp k s :
  st_files s !! cp = None ->
  can_open_wb s cp = false ->
  ensure_certificate config cp k s = Raise (IOError cp) s.
Proof.
  intros Hc Hw. run_files. rewrite Hc.
  rewrite bool_decide_eq_false_2 by (intros [? ?]; discriminate).
  cbn [negb]. rewrite Hw. reflexivity.
Qed.

Lemma ensure_certificate_unnamed config cp k s :
  st_files s !! cp = None ->
  can_open_wb s cp = true ->
  c_server_name config = None ->
  ensure_certificate config cp k s
  = Raise (KeyError "server_name")
      (MkState (<[cp := File true []]> (st_files s))
               (st_clock s) (st_entropy s) (st_log s) (st_heap s) (st_self s)
               (st_writable s)).
Proof.
  intros Hc Hw Hname.
  rewrite (ensure_certificate_opened config cp k s Hc Hw).
  run_files. rewrite Hname. reflexivity.
Qed.

Lemma ensure_certificate_bad_name config cp k s name :
  st_files s !! cp = None ->
  can_open_wb s cp = true ->
  c_server_name config = Some name ->
  common_name_ok name = false ->
  exists msg,
    ensure_certificate config cp k s
    = Raise (CryptoError msg)
        (MkState (<[cp := File true []]> (st_files s))
                 (st_clock s) (st_entropy s) (st_log s) (st_heap s) (st_self s)
                 (st_writable s)).
Proof.
  intros Hc Hw Hname Hbad.
  destruct (set_subject_CN_refused name X509_new Hbad) as [msg Hmsg].
  exists msg. rewrite (ensure_certificate_opened config cp k s Hc Hw).
  run_files. rewrite Hname. cbn. rewrite Hmsg. reflexivity.
Qed.

Lemma generate_files_configured config cp kp s :
  c_tls_certificate_path config = Some cp ->
  c_tls_private_key_path config = Some kp ->
  generate_files config s
  = match ensure_private_key kp s with
    | Return k s1 => ensure_certificate config cp k s1
    | Raise e s1 => Raise e s1
    end.
Proof.
  intros Hcp Hkp. rewrite generate_files_blocks.
  unfold config_getitem. rewrite Hcp, Hkp. reflexivity.
Qed.

Lemma generate_files_unconfigured config s :
  c_tls_certificate_path config = None
  \/ c_tls_private_key_path config = None ->
  exists e, generate_files config s = Raise e s.
Proof.
  rewrite generate_files_blocks. unfold config_getitem.
  destruct (c_tls_certificate_path config); [|eexists; reflexivity].
  intros [Hn | ->]; [discriminate | eexists; reflexivity].
Qed.

Lemma key_available_usable s kp k :
  key_available s kp k -> pk_initialized k = true /\ pk_only_public k = false.
Proof.
  intros [(_ & _ & ->) | (f & _ & _ & Hload)].
  - split; reflexivity.
  - apply (load_privatekey_private _ _ _ Hload).
Qed.

(** With the key at hand, the key block returns it; it leaves the clock
    alone, and every path but the key path as it was. *)
Lemma ensure_private_key_available s kp k :
  key_available s kp k ->
  exists s1,
    ensure_private_key kp s = Return k s1
    /\ st_clock s1 = st_clock s
    /\ st_writable s1 = st_writable s
    /\ (forall p, p <> kp -> st_files s1 !! p = st_files s !! p)
    /\ (exists fk, st_files s1 !! kp = Some fk
         /\ (st_files s !! kp = None
              -> fk = File true (dump_privatekey FILETYPE_PEM k))
         /\ (forall f, st_files s !! kp = Some f
              -> fk = f /\ load_privatekey FILETYPE_PEM (content f) = inr k)).
Proof.
  intros [(Hk & Hw & ->) | (f & Hk & Hr & Hload)].
  - eexists. split; [apply (ensure_private_key_absent kp s Hk Hw)|].
    cbn. split; [reflexivity|]. split; [reflexivity|]. split.
    + intros p Hp. apply lookup_insert_ne. congruence.
    + eexists. split; [apply lookup_insert_eq|]. split; [reflexivity|].
      intros f Hf. congruence.
  - exists s. rewrite (ensure_private_key_present kp s f Hk), Hr, Hload.
    split; [reflexivity|]. split; [reflexivity|]. split; [reflexivity|].
    split; [reflexivity|].
    exists f. split; [exact Hk|]. split; [congruence|].
    intros f' Hf'. split; congruence.
Qed.

Lemma can_open_wb_writable s s1 p :
  st_writable s1 = st_writable s -> can_open_wb s1 p = can_open_wb s p.
Proof. unfold can_open_wb. intros ->. reflexivity. Qed.

Lemma generate_files_new_certificate config s cp kp name k :
  c_tls_certificate_path config = Some cp ->
  c_tls_private_key_path config = Some kp ->
  c_server_name config = Some name ->
  common_name_ok name = true ->
  st_files s !! cp = None ->
  can_open_wb s cp = true ->
  cp <> kp ->
  key_available s kp k ->
  exists s1,
    ensure_private_key kp s = Return k s1
    /\ generate_files config s
       = Return tt
           (MkState
              (<[cp := File true
                         (dump_certificate FILETYPE_PEM
                            (generated_certificate name
                               (st_clock s / us_per_second) k))]>
                 (st_files s1))
              (st_clock s1) (st_entropy s1) (st_log s1) (st_heap s1)
              (st_self s1) (st_writable s1)).
Proof.
  intros Hcp Hkp Hname Hok Hc Hw Hne Hkey.
  destruct (ensure_private_key_available s kp k Hkey)
    as (s1 & Hrun & Hclk & Hwr & Hframe & _).
  destruct (key_available_usable s kp k Hkey) as [Hinit Hpriv].
  exists s1. split; [exact Hrun|].
  rewrite (generate_files_configured config cp kp s Hcp Hkp), Hrun.
  assert (Hc1 : st_files s1 !! cp = None) by (rewrite Hframe; auto).
  assert (Hw1 : can_open_wb s1 cp = true)
    by (rewrite (can_open_wb_writable s s1 cp Hwr); exact Hw).
  rewrite (ensure_certificate_absent config cp k s1 name Hc1 Hw1 Hname Hok
             Hinit Hpriv).
  rewrite Hclk. reflexivity.
Qed.



Lemma ensure_private_key_frame kp s :
  let s1 := final_state (ensure_private_key kp s) in
  (forall p f, st_files s !! p = Some f -> st_files s1 !! p = Some f)
  /\ (is_Some (st_files s !! kp) -> s1 = s).
Proof.
  destruct (st_files s !! kp) as [fk|] eqn:Hk.
  - rewrite (ensure_private_key_present kp s fk Hk).
    assert (Hs : final_state
                   (if readable fk
                    then match load_privatekey FILETYPE_PEM (content fk) with
                         | inr k => Return k s
                         | inl e => Raise e s
                         end
                    else Raise (IOError kp) s) = s).
    { destruct (readable fk); [|reflexivity].
      destruct (load_privatekey _ _); reflexivity. }
    cbn zeta. rewrite Hs. split; auto.
  - destruct (can_open_wb s kp) eqn:Hw.
    + rewrite (ensure_private_key_absent kp s Hk Hw). cbn. split.
      * intros p f Hp. rewrite lookup_insert_ne; [exact Hp | congruence].
      * intros [? ?]; discriminate.
    + rewrite (ensure_private_key_refused kp s Hk Hw). cbn. split; auto.
Qed.

(** Once the certificate path has been opened, the block changes nothing
    but the file at that path, whatever its outcome. *)
Lemma ensure_certificate_opened_outcome config cp k s :
  st_files s !! cp = None ->
  can_open_wb s cp = true ->
  exists data,
    final_state (ensure_certificate config cp k s)
    = with_files (<[cp := File true data]> (st_files s)) s.
Proof.
  intros Hc Hw.
  destruct (c_server_name config) as [name|] eqn:Hname.
  2:{ rewrite (ensure_certificate_unnamed config cp k s Hc Hw Hname).
      eexists. reflexivity. }
  destruct (common_name_ok name) eqn:Hok.
  2:{ destruct (ensure_certificate_bad_name config cp k s name Hc Hw Hname Hok)
        as [msg ->]. eexists. reflexivity. }
  rewrite (ensure_certificate_opened config cp k s Hc Hw).
  destruct s as [fs clk ent lg hp slf wr]. cbn in Hc.
  run_files. cbn. rewrite Hname. cbn.
  rewrite (set_subject_CN_ok name X509_new Hok). cbn.
  destruct (sign k "sha256" _) as [e|c]; cbn.
  - eexists. reflexivity.
  - rewrite lookup_insert_eq. cbn. rewrite insert_insert_eq.
    eexists. reflexivity.
Qed.

Lemma ensure_certificate_frame config cp k s :
  let s1 := final_state (ensure_certificate config cp k s) in
  (forall p f, st_files s !! p = Some f -> st_files s1 !! p = Some f)
  /\ st_entropy s1 = st_entropy s
  /\ (is_Some (st_files s !! cp) -> s1 = s).
Proof.
  destruct (st_files s !! cp) as [fc|] eqn:Hc.
  - rewrite (ensure_certificate_present config cp k s fc Hc). cbn. auto.
  - destruct (can_open_wb s cp) eqn:Hw.
    + destruct (ensure_certificate_opened_outcome config cp k s Hc Hw)
        as [data Hfinal].
      cbn zeta. rewrite Hfinal. cbn. split; [|split; [reflexivity|]].
      * intros p f Hp. rewrite lookup_insert_ne; [exact Hp | congruence].
      * intros [? ?]; discriminate.
    + rewrite (ensure_certificate_refused config cp k s Hc Hw). cbn.
      split; [auto | split; [reflexivity | auto]].
Qed.


(** C7. [generate_files] never overwrites an existing file: every file
    present before the call is present with the same contents after it,
    whether the call returns or raises. When the key path exists no key is
    generated (the random source is left untouched: the key is read from the
    file), and when both paths exist nothing is written at all. *)
Theorem generate_files_never_overwrites (config : ConfigDict) (s : state) :
  let s' := final_state (generate_files config s) in
  (forall p f, st_files s !! p = Some f -> st_files s' !! p = Some f)
  /\ (forall kp,
        c_tls_private_key_path config = Some kp ->
        is_Some (st_files s !! kp) ->
        st_entropy s' = st_entropy s)
  /\ (forall kp cp,
        c_tls_private_key_path config = Some kp ->
        c_tls_certificate_path config = Some cp ->
        is_Some (st_files s !! kp) ->
        is_Some (st_files s !! cp) ->
        st_files s' = st_files s).
Proof.
  cbn zeta.
  destruct (c_tls_certificate_path config) as [cp|] eqn:Hcp.
  2:{ destruct (generate_files_unconfigured config s (or_introl Hcp)) as [e ->].
      cbn. split; [auto | split; [auto | intros; discriminate]]. }
  destruct (c_tls_private_key_path config) as [kp|] eqn:Hkp.
  2:{ destruct (generate_files_unconfigured config s (or_intror Hkp)) as [e ->].
      cbn. split; [auto | split; intros; discriminate]. }
  rewrite (generate_files_configured config cp kp s Hcp Hkp).
  pose proof (ensure_private_key_frame kp s) as [Hkf Hks]. cbn zeta in *.
  destruct (ensure_private_key kp s) as [k s1|e s1] eqn:Hrun; cbn in Hkf, Hks.
  - pose proof (ensure_certificate_frame config cp k s1) as (Hcf & Hce & Hcs).
    cbn zeta in *. split; [|split].
    + intros p f Hp. apply Hcf, Hkf, Hp.
    + intros kp' [= <-] Hex. rewrite Hce, (Hks Hex). reflexivity.
    + intros kp' cp' [= <-] [= <-] Hexk Hexc.
      rewrite (Hks Hexk) in *. rewrite (Hcs Hexc). reflexivity.
  - cbn. split; [exact Hkf | split].
    + intros kp' [= <-] Hex. rewrite (Hks Hex). reflexivity.
    + intros kp' cp' [= <-] [= <-] Hexk _. rewrite (Hks Hexk). reflexivity.
Qed.


(** ** read_config and read_certificate_from_disk *)

Lemma read_certificate_from_disk_halves s :
  read_certificate_from_disk s
  = match load_certificate_and_key s with
    | Return _ s1 => publish_fingerprints s1
    | Raise e s1 => Raise e s1
    end.
Proof.
  destruct s as [fs clk ent lg hp slf].
  unfold read_certificate_from_disk, load_certificate_and_key,
    publish_fingerprints, read_tls_certificate, read_tls_private_key,
    read_file, set_attrs.
  run_M. cbn.
  destruct (bool_decide (is_Some (fs !! tls_certificate_file slf))); cbn;
    [|reflexivity].
  destruct (fs !! tls_certificate_file slf) as [fc|]; cbn; [|reflexivity].
  destruct (readable fc); cbn; [|reflexivity].
  destruct (load_certificate FILETYPE_PEM (content fc)) as [e|c]; cbn;
    [reflexivity|].
  destruct (no_tls slf); cbn; [reflexivity|].
  destruct (bool_decide (is_Some (fs !! tls_private_key_file slf))); cbn;
    [|reflexivity].
  destruct (fs !! tls_private_key_file slf) as [fk|]; cbn; [|reflexivity].
  destruct (readable fk); cbn; [|reflexivity].
  destruct (load_privatekey FILETYPE_PEM (content fk)) as [e|k]; cbn;
    reflexivity.
Qed.

Ltac run_heap :=
  unfold list_copy, list_append, heap_list, set_attrs;
  run_M.

Lemma fresh_loc_unused (h : gmap loc (list pydict)) : h !! fresh (dom h) = None.
Proof. apply not_elem_of_dom, is_fresh. Qed.

Lemma fresh_loc_ne (h : gmap loc (list pydict)) l xs :
  h !! l = Some xs -> fresh (dom h) <> l.
Proof. intros Hl Heq. rewrite <- Heq, fresh_loc_unused in Hl. discriminate. Qed.

Lemma read_config_returns config s0 s l configured :
  c_tls_fingerprints config = Some l ->
  st_heap s0 !! l = Some configured ->
  read_config config s0 = Return tt s ->
  configured_fingerprints s = Some configured
  /\ published s = Some configured
  /\ tls_fingerprints (st_self s) <> _original_tls_fingerprints (st_self s)
  /\ tls_certificate (st_self s) = None.
Proof.
  intros Hl Hheap. unfold read_config, abspath_of, config_getitem.
  rewrite Hl. run_heap.
  destruct (c_tls_certificate_path config); [|discriminate].
  destruct (c_tls_private_key_path config); [|discriminate].
  destruct s0 as [fs clk ent lg hp slf]. cbn in *. rewrite Hheap. cbn.
  intros [= <-]. unfold configured_fingerprints, published. cbn.
  pose proof (fresh_loc_ne hp l configured Hheap) as Hne.
  rewrite lookup_insert_ne by exact Hne. rewrite lookup_insert_eq.
  auto.
Qed.

Lemma load_certificate_and_key_outcome s :
  let o := load_certificate_and_key s in
  st_heap (final_state o) = st_heap s
  /\ _original_tls_fingerprints (st_self (final_state o))
     = _original_tls_fingerprints (st_self s)
  /\ tls_fingerprints (st_self (final_state o)) = tls_fingerprints (st_self s)
  /\ (forall s', o = Return tt s' -> is_Some (tls_certificate (st_self s'))).
Proof.
  destruct s as [fs clk ent lg hp slf].
  unfold load_certificate_and_key, read_tls_certificate, read_tls_private_key,
    read_file, set_attrs. run_M. cbn.
  destruct (bool_decide (is_Some (fs !! tls_certificate_file slf))); cbn;
    [|repeat split; intros; discriminate].
  destruct (fs !! tls_certificate_file slf) as [fc|]; cbn;
    [|repeat split; intros; discriminate].
  destruct (readable fc); cbn; [|repeat split; intros; discriminate].
  destruct (load_certificate FILETYPE_PEM (content fc)) as [e|c]; cbn;
    [repeat split; intros; discriminate|].
  destruct (no_tls slf); cbn; [repeat split; intros s' [= <-]; cbn; eauto|].
  destruct (bool_decide (is_Some (fs !! tls_private_key_file slf))); cbn;
    [|repeat split; intros; discriminate].
  destruct (fs !! tls_private_key_file slf) as [fk|]; cbn;
    [|repeat split; intros; discriminate].
  destruct (readable fk); cbn; [|repeat split; intros; discriminate].
  destruct (load_privatekey FILETYPE_PEM (content fk)) as [e|k]; cbn;
    [repeat split; intros; discriminate|].
  repeat split; intros s' [= <-]; cbn; eauto.
Qed.

Lemma publish_fingerprints_outcome s configured c :
  configured_fingerprints s = Some configured ->
  tls_certificate (st_self s) = Some c ->
  let o := publish_fingerprints s in
  configured_fingerprints (final_state o) = Some configured
  /\ tls_certificate (st_self (final_state o)) = Some c
  /\ match reconcile configured c with
     | inr result => o = Return tt (final_state o)
                     /\ published (final_state o) = Some result
     | inl e => o = Raise e (final_state o)
                /\ published (final_state o) = Some configured
     end.
Proof.
  destruct s as [fs clk ent lg hp slf].
  unfold configured_fingerprints, published. cbn. intros Hconf Hcert.
  pose proof (fresh_loc_ne hp _ configured Hconf) as Hne.
  unfold publish_fingerprints, reconcile. run_heap. cbn.
  rewrite Hconf. cbn. rewrite Hcert. cbn. rewrite lookup_insert_eq. cbn.
  destruct (each_sha256 configured) as [e|values]; cbn.
  { rewrite lookup_insert_ne by exact Hne. rewrite lookup_insert_eq. auto. }
  destruct (bool_decide (sha256_fingerprint_of c ∉ list_to_set values)); cbn.
  - rewrite lookup_insert_eq. cbn. rewrite insert_insert_eq.
    rewrite lookup_insert_ne by exact Hne. rewrite lookup_insert_eq. auto.
  - rewrite lookup_insert_ne by exact Hne. rewrite lookup_insert_eq. auto.
Qed.

Lemma reconcile_result configured c result :
  reconcile configured c = inr result ->
  result = configured
  \/ result = configured ++ [fingerprint_entry (sha256_fingerprint_of c)].
Proof.
  destruct (each_sha256 configured) as [e|values] eqn:Hv.
  - unfold reconcile. rewrite Hv. discriminate.
  - rewrite (reconcile_cases configured c values Hv).
    destruct (bool_decide _); intros [= <-]; auto.
Qed.

Lemma read_certificate_from_disk_outcome s configured :
  configured_fingerprints s = Some configured ->
  let o := read_certificate_from_disk s in
  configured_fingerprints (final_state o) = Some configured
  /\ (((exists e, o = Raise e (final_state o))
       /\ published (final_state o) = published s)
      \/ exists c,
           tls_certificate (st_self (final_state o)) = Some c
           /\ match reconcile configured c with
              | inr result => o = Return tt (final_state o)
                              /\ published (final_state o) = Some result
              | inl e => o = Raise e (final_state o)
                         /\ published (final_state o) = Some configured
              end).
Proof.
  intros Hconf. cbn zeta. rewrite read_certificate_from_disk_halves.
  pose proof (load_certificate_and_key_outcome s) as (Hheap & Horig & Hpub & Hcert).
  cbn zeta in *.
  destruct (load_certificate_and_key s) as [[] s1|e s1]; cbn in *.
  - destruct (Hcert s1 eq_refl) as [c Hc].
    assert (Hconf1 : configured_fingerprints s1 = Some configured).
    { unfold configured_fingerprints in *. rewrite Hheap, Horig. exact Hconf. }
    destruct (publish_fingerprints_outcome s1 configured c Hconf1 Hc)
      as (H1 & H2 & H3).
    split; [exact H1|]. right. exists c. split; [exact H2 | exact H3].
  - split.
    + unfold configured_fingerprints in *. rewrite Hheap, Horig. exact Hconf.
    + left. split; [eauto|]. unfold published. rewrite Hheap, Hpub.
      reflexivity.
Qed.

Lemma runs_at_most_own configured s :
  runs configured s -> at_most_own configured s.
Proof.
  induction 1 as [config l s0 s Hl Hheap Hrun | s s' _ IH Hstep].
  - destruct (read_config_returns config s0 s l configured Hl Hheap Hrun)
      as (Hc & Hp & _).
    split; [exact Hc|]. exists []. rewrite app_nil_r.
    split; [exact Hp|]. split; [cbn; lia|]. intros f Hf. inversion Hf.
  - destruct IH as (Hconf & extra & Hpub & Hlen & Hown).
    destruct Hstep as [s | s files clock entropy log].
    + destruct (read_certificate_from_disk_outcome s configured Hconf)
        as (Hconf' & [[_ Hsame] | (c & _ & Hrec)]).
      * split; [exact Hconf'|]. exists extra. rewrite Hsame. auto.
      * split; [exact Hconf'|].
        destruct (reconcile configured c) as [e|result] eqn:Hr.
        -- exists []. rewrite app_nil_r. destruct Hrec as [_ Hp].
           split; [exact Hp|]. split; [cbn; lia|]. intros f Hf. inversion Hf.
        -- destruct Hrec as [_ Hp].
           destruct (reconcile_result configured c result Hr) as [-> | ->].
           ++ exists []. rewrite app_nil_r.
              split; [exact Hp|]. split; [cbn; lia|]. intros f Hf. inversion Hf.
           ++ exists [fingerprint_entry (sha256_fingerprint_of c)].
              split; [exact Hp|]. split; [cbn; lia|].
              intros f Hf. apply list_elem_of_singleton in Hf. eauto.
    + split; [exact Hconf|]. exists extra. auto.
Qed.

(** C10, amended. After [read_config] and any sequence of calls of
    [read_certificate_from_disk] -- returning or raising, with the world
    changing in between -- the configured list is intact and the published
    list is the configured list followed by at most one entry, a
    certificate's fingerprint entry: fingerprints never accumulate. After
    every call that returns, the published list is [reconcile] of the
    configured list and the certificate now held, so the extra entry, if
    any, is the fingerprint of the currently loaded certificate. *)
Theorem reload_never_accumulates (configured : list pydict) (s : state) :
  runs configured s ->
  (configured_fingerprints s = Some configured
   /\ exists extra,
        published s = Some (configured ++ extra)
        /\ (length extra <= 1)%nat
        /\ forall f, f ∈ extra ->
             exists c, f = fingerprint_entry (sha256_fingerprint_of c))
  /\ (forall s',
        read_certificate_from_disk s = Return tt s' ->
        exists c result,
          tls_certificate (st_self s') = Some c
          /\ reconcile configured c = inr result
          /\ published s' = Some result
          /\ publishes_current configured s').
Proof.
  intros Hruns. pose proof (runs_at_most_own configured s Hruns) as Hinv.
  split; [exact Hinv|]. destruct Hinv as [Hconf _].
  intros s' Hret.
  destruct (read_certificate_from_disk_outcome s configured Hconf)
    as (_ & [[[e He] _] | (c & Hc & Hrec)]); cbn zeta in *.
  - rewrite Hret in He. discriminate.
  - rewrite Hret in *. cbn in *.
    destruct (reconcile configured c) as [e|result] eqn:Hr.
    + destruct Hrec as [Hraise _]. discriminate.
    + destruct Hrec as [_ Hp]. exists c, result.
      split; [exact Hc|]. split; [exact Hr|]. split; [exact Hp|].
      intros c' Hc'. assert (c' = c) by congruence. subst c'. rewrite Hp.
      destruct (reconcile_result configured c result Hr) as [-> | ->]; auto.
Qed.

End TlsConfigProperties.

(** * The properties on the scenarios *)

Section Scenarios.
Import SimplePlatform Scenario.

(** A fresh deployment: [generate_files] creates both files, the
    certificate is valid for just under 3650 days, and loading it publishes
    exactly its fingerprint. *)
Example fresh_deployment_runs :
  generate_files config configured = Return tt generated
  /\ is_disk_cert_valid true generated = Return (Some 3649) generated
  /\ read_certificate_from_disk generated = Return tt loaded.
Proof. split; [|split]; vm_compute; reflexivity. Qed.

Example fresh_deployment_roundtrip :
  (content <$> st_files generated !! cert_path)
    ≫= (fun pem => Some (load_certificate FILETYPE_PEM pem))
  = Some (inr own_certificate)
  /\ (content <$> st_files generated !! key_path)
       ≫= (fun pem => Some (load_privatekey FILETYPE_PEM pem))
     = Some (inr generated_key).
Proof. split; vm_compute; reflexivity. Qed.

(** The reload after the key file was spoilt raises from [load_privatekey]. *)
Example failed_reload_raises :
  read_certificate_from_disk replaced
  = Raise (CryptoError "no start line") failed_reload.
Proof. vm_compute. reflexivity. Qed.




Lemma is_disk_cert_valid_reraises_witness :
  (exists s', is_disk_cert_valid true unreadable = Raise (IOError cert_path) s'
              /\ length (st_log s') = S (length (st_log unreadable)))
  /\ (exists s', is_disk_cert_valid true garbage
                 = Raise (CryptoError "no start line") s'
                 /\ length (st_log s') = S (length (st_log garbage))).
Proof.
  split.
  - eexists. split.
    + apply (proj1 (is_disk_cert_valid_reraises (H := platform) unreadable true
                      (File false (content issued_file))
                      ltac:(vm_compute; reflexivity))).
      reflexivity.
    + reflexivity.
  - eexists. split.
    + apply (proj2 (is_disk_cert_valid_reraises (H := platform) garbage true garbage_file
                      ltac:(vm_compute; reflexivity))
                   (CryptoError "no start line") eq_refl).
      vm_compute. reflexivity.
    + reflexivity.
Defined.

Lemma sha256_fingerprint_unpadded_base64_witness :
  sha256_fingerprint_of own_certificate
  = "r7xG+ffimhT9ZnCf9IgPDyr7BPpW7ZnfRbZ8KKuuTkA"%string
  /\ hexdigest (SHA256.digest (dump_certificate FILETYPE_ASN1 own_certificate))
     = "afbc46f9f7e29a14fd66709ff4880f0f2afb04fa56ed99df45b67c28abae4e40"%string
  /\ String.length (sha256_fingerprint_of own_certificate) = 43%nat
  /\ sha256_fingerprint_of
       (generated_certificate "example.org" 1700000000 generated_key)
     = sha256_fingerprint_of own_certificate
  /\ sha256_fingerprint_of issued_certificate
     <> sha256_fingerprint_of own_certificate.
Proof.
  destruct (sha256_fingerprint_unpadded_base64 (H := platform) own_certificate)
    as (_ & _ & _ & Hlen & _ & Hdet & Hiff & _).
  split; [vm_compute; reflexivity|]. split; [vm_compute; reflexivity|].
  split; [exact Hlen|]. split; [apply Hdet; reflexivity|].
  intros Heq. apply Hiff in Heq. vm_compute in Heq. discriminate.
Defined.

Lemma generate_files_never_overwrites_witness :
  st_files (final_state (generate_files config expiring)) !! cert_path
  = Some issued_file
  /\ st_entropy (final_state (generate_files config expiring))
     = st_entropy expiring
  /\ st_files (final_state (generate_files config expiring))
     = st_files expiring.
Proof.
  destruct (generate_files_never_overwrites (H := platform) config expiring)
    as (Hframe & Hent & Hsame).
  split; [|split].
  - apply Hframe. vm_compute. reflexivity.
  - apply (Hent key_path eq_refl). eexists. vm_compute. reflexivity.
  - apply (Hsame key_path cert_path eq_refl eq_refl);
      eexists; vm_compute; reflexivity.
Defined.


Lemma generated_world_step :
  generated
  = MkState (st_files generated) (st_clock generated) (st_entropy generated)
            (st_log generated) (st_heap configured) (st_self configured)
            (st_writable generated).
Proof. vm_compute. reflexivity. Qed.

Lemma runs_generated : runs [] generated.
Proof.
  apply (runs_step [] configured).
  - apply (runs_configured [] config 1%positive fresh configured).
    + reflexivity.
    + vm_compute. reflexivity.
    + vm_compute. reflexivity.
  - rewrite generated_world_step. apply step_world.
Qed.

Lemma runs_loaded : runs [] loaded.
Proof. apply (runs_step [] generated); [apply runs_generated | apply step_reload]. Qed.

Lemma runs_failed_reload : runs [] failed_reload.
Proof.
  apply (runs_step [] replaced).
  - apply (runs_step [] loaded); [apply runs_loaded|].
    apply step_world.
  - apply step_reload.
Qed.

Lemma reload_never_accumulates_witness :
  published loaded
  = Some [fingerprint_entry (sha256_fingerprint_of own_certificate)]
  /\ exists extra, published failed_reload = Some extra
                   /\ (length extra <= 1)%nat.
Proof.
  split.
  - destruct (proj2 (reload_never_accumulates (H := platform) [] generated
                       runs_generated)
                    loaded ltac:(vm_compute; reflexivity))
      as (c & result & Hc & Hrec & Hpub & _).
    rewrite Hpub. f_equal.
    assert (Hown : c = own_certificate).
    { vm_compute in Hc. injection Hc as <-. vm_compute. reflexivity. }
    subst c. vm_compute in Hrec. injection Hrec as <-. vm_compute. reflexivity.
  - destruct (proj1 (reload_never_accumulates (H := platform) [] failed_reload
                       runs_failed_reload))
      as (_ & extra & Hpub & Hlen & _).
    exists extra. split; [exact Hpub | exact Hlen].
Defined.

(** C10 as stated fails: a reload that raises while loading the private key
    (line 108) has already replaced [tls_certificate] (line 105) but has not
    rebuilt the list, so the published list still holds the fingerprint of
    the previous certificate and not that of the certificate now held. *)
Lemma reload_publishes_current_counterexample :
  runs [] failed_reload
  /\ tls_certificate (st_self failed_reload) = Some issued_certificate
  /\ first_published_sha256 failed_reload
     = Some (sha256_fingerprint_of own_certificate)
  /\ sha256_fingerprint_of own_certificate
     <> sha256_fingerprint_of issued_certificate
  /\ ~ publishes_current [] failed_reload
  /\ ~ (forall configured s,
          runs configured s -> publishes_current configured s).
Proof.
  assert (Hcert : tls_certificate (st_self failed_reload)
                  = Some issued_certificate) by (vm_compute; reflexivity).
  assert (Hfp : first_published_sha256 failed_reload
                = Some (sha256_fingerprint_of own_certificate))
    by (vm_compute; reflexivity).
  assert (Hne : sha256_fingerprint_of own_certificate
                <> sha256_fingerprint_of issued_certificate)
    by (intros Heq; vm_compute in Heq; discriminate).
  assert (Hnot : ~ publishes_current [] failed_reload).
  { intros Hclaim. revert Hfp Hne.
    generalize (sha256_fingerprint_of own_certificate).
    destruct (Hclaim issued_certificate Hcert) as [Hpub | Hpub];
      unfold first_published_sha256; rewrite Hpub;
      generalize (sha256_fingerprint_of issued_certificate);
      intros theirs ours Hfp Hne.
    - discriminate.
    - cbn in Hfp. rewrite (fingerprint_entry_carries theirs) in Hfp.
      congruence. }
  split; [apply runs_failed_reload|]. split; [exact Hcert|].
  split; [exact Hfp|]. split; [exact Hne|]. split; [exact Hnot|].
  intros Hall. apply Hnot. apply Hall. apply runs_failed_reload.
Qed.

End Scenarios.

(** * Further properties of TlsConfig *)

Section MoreTlsConfigProperties.
Context `{Platform}.

(** ** is_disk_cert_valid *)

(** X1. [is_disk_cert_valid] only reads: whatever its outcome, the files, the
    clock, the random source, the Python lists and the instance are as
    before. When it returns the whole state is unchanged; when it raises, at
    most one ERROR record has been added to the log. *)
Theorem is_disk_cert_valid_read_only (s : state) (allow : bool) :
  let o := is_disk_cert_valid allow s in
  st_files (final_state o) = st_files s
  /\ st_clock (final_state o) = st_clock s
  /\ st_entropy (final_state o) = st_entropy s
  /\ st_heap (final_state o) = st_heap s
  /\ st_self (final_state o) = st_self s
  /\ (forall v s', o = Return v s' -> s' = s)
  /\ (st_log (final_state o) = st_log s
      \/ exists r, st_log (final_state o) = st_log s ++ [r]
                   /\ log_level r = "ERROR"%string).
Proof.
  cbn zeta.
  destruct (st_files s !! tls_certificate_file (st_self s)) as [f|] eqn:Hf.
  2:{ rewrite (is_disk_cert_valid_absent s allow Hf). cbn.
      repeat split; auto. intros v s' [= _ <-]. reflexivity. }
  destruct (readable f) eqn:Hr.
  2:{ rewrite (is_disk_cert_valid_unreadable s allow f Hf Hr). cbn.
      repeat split; try discriminate. right. eexists. split; reflexivity. }
  destruct (load_certificate FILETYPE_PEM (content f)) as [e|c] eqn:Hc.
  { rewrite (is_disk_cert_valid_unparsable s allow f e Hf Hr Hc). cbn.
    repeat split; try discriminate. right. eexists. split; reflexivity. }
  rewrite (is_disk_cert_valid_parsed s allow f c Hf Hr Hc).
  destruct (negb allow && X509Name_eqb (get_subject c) (get_issuer c)).
  { cbn. repeat split; auto; discriminate. }
  destruct (expiry_of c) as [e|d]; cbn.
  - repeat split; auto; discriminate.
  - repeat split; auto. intros v s' [= _ <-]. reflexivity.
Qed.

Lemma is_disk_cert_valid_some s allow d s' :
  is_disk_cert_valid allow s = Return (Some d) s' ->
  exists f c e,
    st_files s !! tls_certificate_file (st_self s) = Some f
    /\ load_certificate FILETYPE_PEM (content f) = inr c
    /\ expiry_of c = inr e
    /\ d = (timeline_us e - (st_clock s + unix_epoch_ordinal * us_per_day))
           / us_per_day.
Proof.
  intros Hrun.
  destruct (st_files s !! tls_certificate_file (st_self s)) as [f|] eqn:Hf.
  2:{ rewrite (is_disk_cert_valid_absent s allow Hf) in Hrun. discriminate. }
  destruct (readable f) eqn:Hr.
  2:{ rewrite (is_disk_cert_valid_unreadable s allow f Hf Hr) in Hrun.
      discriminate. }
  destruct (load_certificate FILETYPE_PEM (content f)) as [e|c] eqn:Hc.
  { rewrite (is_disk_cert_valid_unparsable s allow f e Hf Hr Hc) in Hrun.
    discriminate. }
  rewrite (is_disk_cert_valid_parsed s allow f c Hf Hr Hc) in Hrun.
  destruct (negb allow && X509Name_eqb (get_subject c) (get_issuer c));
    [discriminate|].
  destruct (expiry_of c) as [e|e] eqn:He; [discriminate|].
  rewrite timedelta_days_floor, timeline_of_posix in Hrun.
  exists f, c, e.
  split; [reflexivity|]. split; [exact Hc|]. split; [exact He|].
  congruence.
Qed.

(** X2. For the same certificate file, the days remaining can only go down
    as the clock advances, and go down by exactly [k] when it advances by
    [k] whole days. *)
Theorem days_remaining_over_time (s1 s2 : state) (allow : bool) (d1 d2 : Z) :
  st_files s1 = st_files s2 ->
  tls_certificate_file (st_self s1) = tls_certificate_file (st_self s2) ->
  is_disk_cert_valid allow s1 = Return (Some d1) s1 ->
  is_disk_cert_valid allow s2 = Return (Some d2) s2 ->
  (st_clock s1 <= st_clock s2 -> d2 <= d1)
  /\ (forall k, st_clock s2 = st_clock s1 + k * us_per_day -> d2 = d1 - k).
Proof.
  intros Hfiles Hpath H1 H2.
  destruct (is_disk_cert_valid_some s1 allow d1 s1 H1)
    as (f1 & c1 & e1 & Hf1 & Hc1 & He1 & ->).
  destruct (is_disk_cert_valid_some s2 allow d2 s2 H2)
    as (f2 & c2 & e2 & Hf2 & Hc2 & He2 & ->).
  rewrite Hfiles, Hpath, Hf2 in Hf1. injection Hf1 as <-.
  rewrite Hc2 in Hc1. injection Hc1 as <-.
  rewrite He2 in He1. injection He1 as <-.
  assert (Hd : 0 < us_per_day) by (vm_compute; reflexivity).
  split.
  - intros Hle. apply Z.div_le_mono; lia.
  - intros k ->.
    replace (timeline_us e2
             - (st_clock s1 + k * us_per_day + unix_epoch_ordinal * us_per_day))
      with (timeline_us e2 - (st_clock s1 + unix_epoch_ordinal * us_per_day)
            + (- k) * us_per_day) by lia.
    rewrite Z.div_add by lia. lia.
Qed.

Lemma ensure_private_key_instance kp s :
  let s1 := final_state (ensure_private_key kp s) in
  st_clock s1 = st_clock s /\ st_log s1 = st_log s
  /\ st_heap s1 = st_heap s /\ st_self s1 = st_self s.
Proof.
  destruct (st_files s !! kp) as [fk|] eqn:Hk.
  - destruct (ensure_private_key_frame kp s) as [_ Hsame]. cbn zeta in *.
    rewrite Hsame by eauto. auto.
  - destruct (can_open_wb s kp) eqn:Hw.
    + rewrite (ensure_private_key_absent kp s Hk Hw). cbn. auto.
    + rewrite (ensure_private_key_refused kp s Hk Hw). cbn. auto.
Qed.


(** ** read_config *)

Ltac run_tls :=
  unfold load_certificate_and_key, publish_fingerprints, read_tls_certificate,
    read_tls_private_key, read_file, read_config, abspath_of, config_getitem,
    list_copy, list_append, heap_list, set_attrs, get_self, os_path_exists,
    read_whole_file, lift, raise, modify, mbind, M_bind, mret, M_ret in *;
  cbn beta iota in *.

(** X4. [read_config] needs the two paths and the fingerprint list, and
    nothing else: a missing certificate or key path is a [TypeError] (from
    [os.path.abspath(None)], also when [no_tls] is set), a missing
    ["tls_fingerprints"] a [KeyError]. Otherwise it returns: the files are
    the absolute paths, the published list is a new list object with the
    configured items, the configured list is the config's own object, no
    certificate or key is held yet, and no file is touched. *)
Theorem read_config_outcomes (config : ConfigDict) (s : state) :
  (c_tls_certificate_path config = None ->
   exists msg s', read_config config s = Raise (TypeError msg) s')
  /\ (forall cp,
        c_tls_certificate_path config = Some cp ->
        c_tls_private_key_path config = None ->
        exists msg s', read_config config s = Raise (TypeError msg) s')
  /\ (forall cp kp,
        c_tls_certificate_path config = Some cp ->
        c_tls_private_key_path config = Some kp ->
        c_tls_fingerprints config = None ->
        exists s', read_config config s = Raise (KeyError "tls_fingerprints") s')
  /\ (forall cp kp l configured,
        c_tls_certificate_path config = Some cp ->
        c_tls_private_key_path config = Some kp ->
        c_tls_fingerprints config = Some l ->
        st_heap s !! l = Some configured ->
        exists s',
          read_config config s = Return tt s'
          /\ tls_certificate_file (st_self s') = abspath cp
          /\ tls_private_key_file (st_self s') = abspath kp
          /\ _original_tls_fingerprints (st_self s') = l
          /\ st_heap s !! tls_fingerprints (st_self s') = None
          /\ published s' = Some configured
          /\ configured_fingerprints s' = Some configured
          /\ tls_certificate (st_self s') = None
          /\ tls_private_key (st_self s') = None
          /\ no_tls (st_self s') = default false (c_no_tls config)
          /\ st_files s' = st_files s).
Proof.
  destruct s as [fs clk ent lg hp slf].
  split; [|split; [|split]].
  - intros Hcp. run_tls. rewrite Hcp. eexists. eexists. reflexivity.
  - intros cp Hcp Hkp. run_tls. rewrite Hcp, Hkp. eexists. eexists. reflexivity.
  - intros cp kp Hcp Hkp Hl. run_tls. rewrite Hcp, Hkp, Hl.
    eexists. reflexivity.
  - intros cp kp l configured Hcp Hkp Hl Hheap. cbn in Hheap.
    run_tls. rewrite Hcp, Hkp, Hl. cbn. rewrite Hheap. cbn.
    eexists. split; [reflexivity|].
    unfold published, configured_fingerprints. cbn.
    pose proof (fresh_loc_ne hp l configured Hheap) as Hne.
    rewrite lookup_insert_eq, lookup_insert_ne by exact Hne.
    repeat split; auto. apply fresh_loc_unused.
Qed.

(** ** read_certificate_from_disk *)

Lemma read_tls_certificate_cases p s :
  read_tls_certificate p s
  = match st_files s !! p with
    | None => Raise (ConfigError
                ("Error accessing file (config for " ++ "tls_certificate" ++ ")")) s
    | Some f =>
        if readable f
        then match load_certificate FILETYPE_PEM (content f) with
             | inr c => Return c s
             | inl e => Raise e s
             end
        else Raise (IOError p) s
    end.
Proof.
  run_tls. destruct (st_files s !! p) as [f|] eqn:Hf.
  - rewrite bool_decide_eq_true_2 by eauto. cbn. rewrite Hf.
    destruct (readable f); [|reflexivity].
    destruct (load_certificate FILETYPE_PEM (content f)); reflexivity.
  - rewrite bool_decide_eq_false_2 by (intros [? ?]; discriminate).
    reflexivity.
Qed.

Lemma read_tls_private_key_cases p s :
  read_tls_private_key p s
  = match st_files s !! p with
    | None => Raise (ConfigError
                ("Error accessing file (config for " ++ "tls_private_key" ++ ")")) s
    | Some f =>
        if readable f
        then match load_privatekey FILETYPE_PEM (content f) with
             | inr k => Return k s
             | inl e => Raise e s
             end
        else Raise (IOError p) s
    end.
Proof.
  run_tls. destruct (st_files s !! p) as [f|] eqn:Hf.
  - rewrite bool_decide_eq_true_2 by eauto. cbn. rewrite Hf.
    destruct (readable f); [|reflexivity].
    destruct (load_privatekey FILETYPE_PEM (content f)); reflexivity.
  - rewrite bool_decide_eq_false_2 by (intros [? ?]; discriminate).
    reflexivity.
Qed.

Lemma load_certificate_and_key_cases s :
  load_certificate_and_key s
  = match read_tls_certificate (tls_certificate_file (st_self s)) s with
    | Raise e _ => Raise e s
    | Return c _ =>
        if no_tls (st_self s) then Return tt (holding c s)
        else
          match read_tls_private_key (tls_private_key_file (st_self s))
                  (holding c s) with
          | Raise e _ => Raise e (holding c s)
          | Return k _ =>
              Return tt (with_self (set_tls_private_key (Some k)
                                      (st_self (holding c s))) (holding c s))
          end
    end.
Proof.
  destruct s as [fs clk ent lg hp slf]. unfold holding. run_tls. cbn.
  destruct (fs !! tls_certificate_file slf) as [fc|] eqn:Hfc.
  2:{ rewrite bool_decide_eq_false_2 by (intros [? ?]; discriminate).
      reflexivity. }
  rewrite bool_decide_eq_true_2 by eauto. cbn. rewrite Hfc.
  destruct (readable fc); [|reflexivity].
  destruct (load_certificate FILETYPE_PEM (content fc)) as [e|c]; cbn;
    [reflexivity|].
  destruct (no_tls slf); cbn; [reflexivity|].
  destruct (fs !! tls_private_key_file slf) as [fk|] eqn:Hfk.
  2:{ rewrite bool_decide_eq_false_2 by (intros [? ?]; discriminate).
      reflexivity. }
  rewrite bool_decide_eq_true_2 by eauto. cbn. rewrite Hfk.
  destruct (readable fk); [|reflexivity].
  destruct (load_privatekey FILETYPE_PEM (content fk)); reflexivity.
Qed.

Lemma publish_fingerprints_cases s :
  publish_fingerprints s
  = match st_heap s !! _original_tls_fingerprints (st_self s) with
    | None => Raise (TypeError "object is not iterable") s
    | Some configured =>
        let l' := fresh (dom (st_heap s)) in
        let rebuilt xs :=
          MkState (st_files s) (st_clock s) (st_entropy s) (st_log s)
                  (<[l' := xs]> (st_heap s))
                  (set_tls_fingerprints l' (st_self s)) (st_writable s) in
        match tls_certificate (st_self s) with
        | None => Raise (TypeError "cert must be an X509 instance")
                        (rebuilt configured)
        | Some c =>
            match reconcile configured c with
            | inl e => Raise e (rebuilt configured)
            | inr result => Return tt (rebuilt result)
            end
        end
    end.
Proof.
  destruct s as [fs clk ent lg hp slf]. run_tls. cbn.
  destruct (hp !! _original_tls_fingerprints slf) as [configured|];
    [|reflexivity].
  cbn. destruct (tls_certificate slf) as [c|]; [|reflexivity].
  cbn. rewrite lookup_insert_eq. cbn. unfold reconcile.
  destruct (each_sha256 configured) as [e|values]; [reflexivity|].
  cbn. destruct (bool_decide _); cbn; [|reflexivity].
  rewrite lookup_insert_eq. cbn. rewrite insert_insert_eq. reflexivity.
Qed.

(** X5. [read_certificate_from_disk] changes nothing outside the instance:
    whatever its outcome, the files, the clock, the random source and the
    log are as before, and every Python list that existed before the call
    still has the same items -- the configured list and any list published
    earlier are never appended to; the new list is a new object. The paths
    and [no_tls] of the instance stay as well. *)
Theorem reload_leaves_world (s : state) :
  let s' := final_state (read_certificate_from_disk s) in
  st_files s' = st_files s
  /\ st_clock s' = st_clock s
  /\ st_entropy s' = st_entropy s
  /\ st_log s' = st_log s
  /\ (forall l xs, st_heap s !! l = Some xs -> st_heap s' !! l = Some xs)
  /\ tls_certificate_file (st_self s') = tls_certificate_file (st_self s)
  /\ tls_private_key_file (st_self s') = tls_private_key_file (st_self s)
  /\ no_tls (st_self s') = no_tls (st_self s)
  /\ _original_tls_fingerprints (st_self s')
     = _original_tls_fingerprints (st_self s).
Proof.
  cbn zeta. rewrite read_certificate_from_disk_halves.
  assert (Hload : let s1 := final_state (load_certificate_and_key s) in
            st_files s1 = st_files s /\ st_clock s1 = st_clock s
            /\ st_entropy s1 = st_entropy s /\ st_log s1 = st_log s
            /\ st_heap s1 = st_heap s
            /\ tls_certificate_file (st_self s1) = tls_certificate_file (st_self s)
            /\ tls_private_key_file (st_self s1) = tls_private_key_file (st_self s)
            /\ no_tls (st_self s1) = no_tls (st_self s)
            /\ _original_tls_fingerprints (st_self s1)
               = _original_tls_fingerprints (st_self s)).
  { rewrite load_certificate_and_key_cases.
    destruct (read_tls_certificate _ s) as [c ?|e ?];
      [|cbn; repeat split; reflexivity].
    destruct (no_tls (st_self s)) eqn:Hno;
      [destruct s; cbn in *; repeat split; auto|].
    destruct (read_tls_private_key _ (holding c s));
      destruct s; cbn in *; repeat split; auto. }
  cbn zeta in Hload.
  destruct (load_certificate_and_key s) as [[] s1|e s1]; cbn in Hload;
    [|cbn; destruct Hload as (-> & -> & -> & -> & -> & -> & -> & -> & ->);
      repeat split; auto].
  destruct Hload as (Hf & Hc & He & Hl & Hh & H1 & H2 & H3 & H4).
  rewrite publish_fingerprints_cases.
  destruct (st_heap s1 !! _original_tls_fingerprints (st_self s1))
    as [configured|].
  2:{ cbn. rewrite Hh. repeat split; auto. }
  assert (Hkeep : forall ys l xs,
             st_heap s !! l = Some xs ->
             <[fresh (dom (st_heap s1)) := ys]> (st_heap s1) !! l = Some xs).
  { intros ys l xs Hl'. rewrite Hh. rewrite lookup_insert_ne; [exact Hl'|].
    apply (fresh_loc_ne _ _ _ Hl'). }
  cbn zeta.
  destruct (tls_certificate (st_self s1)) as [c|];
    [destruct (reconcile configured c)|]; cbn; repeat split; auto.
Qed.

(** X6. When the certificate cannot be loaded -- its file is missing or
    unreadable, or its contents do not parse -- [read_certificate_from_disk]
    raises and the state is exactly as before: the certificate, key and
    list held so far all stay. A parse failure raises what
    [load_certificate] raised. *)
Theorem reload_without_certificate (s : state) :
  (st_files s !! tls_certificate_file (st_self s) = None ->
   exists e, read_certificate_from_disk s = Raise e s)
  /\ (forall f,
        st_files s !! tls_certificate_file (st_self s) = Some f ->
        readable f = false ->
        exists e, read_certificate_from_disk s = Raise e s)
  /\ (forall f e,
        st_files s !! tls_certificate_file (st_self s) = Some f ->
        readable f = true ->
        load_certificate FILETYPE_PEM (content f) = inl e ->
        read_certificate_from_disk s = Raise e s).
Proof.
  split; [|split].
  - intros Hf. rewrite read_certificate_from_disk_halves,
      load_certificate_and_key_cases, read_tls_certificate_cases, Hf.
    eexists. reflexivity.
  - intros f Hf Hr. rewrite read_certificate_from_disk_halves,
      load_certificate_and_key_cases, read_tls_certificate_cases, Hf, Hr.
    eexists. reflexivity.
  - intros f e Hf Hr He. rewrite read_certificate_from_disk_halves,
      load_certificate_and_key_cases, read_tls_certificate_cases, Hf, Hr, He.
    reflexivity.
Qed.

(** X7. When the certificate loads but the private key does not (with
    [no_tls] unset: the key file is missing or unreadable, or does not
    parse), [read_certificate_from_disk] raises after it has replaced
    [tls_certificate]: the instance then holds the new certificate together
    with the old private key and the old published list. *)
Theorem reload_without_key (s : state) (fc : file) (c : X509) :
  st_files s !! tls_certificate_file (st_self s) = Some fc ->
  readable fc = true ->
  load_certificate FILETYPE_PEM (content fc) = inr c ->
  no_tls (st_self s) = false ->
  (st_files s !! tls_private_key_file (st_self s) = None
   \/ exists fk, st_files s !! tls_private_key_file (st_self s) = Some fk
                 /\ (readable fk = false
                     \/ exists e, load_privatekey FILETYPE_PEM (content fk)
                                  = inl e)) ->
  exists e s',
    read_certificate_from_disk s = Raise e s'
    /\ tls_certificate (st_self s') = Some c
    /\ tls_private_key (st_self s') = tls_private_key (st_self s)
    /\ tls_fingerprints (st_self s') = tls_fingerprints (st_self s)
    /\ published s' = published s.
Proof.
  intros Hfc Hr Hc Hno Hkey.
  rewrite read_certificate_from_disk_halves, load_certificate_and_key_cases,
    read_tls_certificate_cases, Hfc, Hr, Hc, Hno, read_tls_private_key_cases.
  assert (Hraise : exists e,
             match st_files (holding c s) !! tls_private_key_file (st_self s) with
             | Some f =>
                 if readable f
                 then match load_privatekey FILETYPE_PEM (content f) with
                      | inl e => Raise e (holding c s)
                      | inr k => Return k (holding c s)
                      end
                 else Raise (IOError (tls_private_key_file (st_self s)))
                            (holding c s)
             | None =>
                 Raise (ConfigError
                          ("Error accessing file (config for "
                           ++ "tls_private_key" ++ ")")) (holding c s)
             end = Raise e (holding c s)).
  { change (st_files (holding c s)) with (st_files s).
    destruct Hkey as [-> | (fk & -> & [-> | [e ->]])].
    - eexists. reflexivity.
    - eexists. reflexivity.
    - destruct (readable fk); eexists; reflexivity. }
  destruct Hraise as [e ->]. exists e, (holding c s).
  split; [reflexivity|]. destruct s as [fs clk ent lg hp slf]. cbn. auto.
Qed.

Lemma read_certificate_from_disk_returns s fc c configured result :
  st_files s !! tls_certificate_file (st_self s) = Some fc ->
  readable fc = true ->
  load_certificate FILETYPE_PEM (content fc) = inr c ->
  (no_tls (st_self s) = true
   \/ exists fk k,
        st_files s !! tls_private_key_file (st_self s) = Some fk
        /\ readable fk = true
        /\ load_privatekey FILETYPE_PEM (content fk) = inr k) ->
  configured_fingerprints s = Some configured ->
  reconcile configured c = inr result ->
  exists s',
    read_certificate_from_disk s = Return tt s'
    /\ tls_certificate (st_self s') = Some c
    /\ published s' = Some result
    /\ (no_tls (st_self s) = true ->
        tls_private_key (st_self s') = tls_private_key (st_self s))
    /\ (no_tls (st_self s) = false ->
        forall fk k,
          st_files s !! tls_private_key_file (st_self s) = Some fk ->
          load_privatekey FILETYPE_PEM (content fk) = inr k ->
          tls_private_key (st_self s') = Some k).
Proof.
  intros Hfc Hr Hc Hkey Hconf Hrec.
  rewrite read_certificate_from_disk_halves, load_certificate_and_key_cases,
    read_tls_certificate_cases, Hfc, Hr, Hc.
  destruct s as [fs clk ent lg hp slf].
  unfold configured_fingerprints in Hconf. cbn in *.
  destruct (no_tls slf) eqn:Hno.
  - rewrite publish_fingerprints_cases. unfold holding. cbn.
    rewrite Hconf, Hrec. eexists. split; [reflexivity|].
    unfold published. cbn. rewrite lookup_insert_eq.
    repeat split; auto. discriminate.
  - destruct Hkey as [Hkey | (fk & k & Hfk & Hrk & Hk)]; [discriminate|].
    rewrite read_tls_private_key_cases. unfold holding. cbn.
    rewrite Hfk, Hrk, Hk. rewrite publish_fingerprints_cases. cbn.
    rewrite Hconf, Hrec. eexists. split; [reflexivity|].
    unfold published. cbn. rewrite lookup_insert_eq.
    repeat split; auto; [discriminate|].
    intros _ fk' k' Hfk' Hk'. congruence.
Qed.

(** C4. When [read_certificate_from_disk] gets to its fingerprint step and
    returns -- the certificate file loads, the key loads or [no_tls] is
    set, and every configured entry has a ["sha256"] item -- the list it
    publishes is the configured list with the fingerprint entry of the
    certificate it has just loaded appended at the end exactly when no
    configured entry carries that fingerprint, and the configured list
    itself otherwise. The configured entries keep their places, the
    configured list object is left as it was, and the published list always
    holds an entry carrying the fingerprint of the certificate the instance
    now holds. *)
Theorem reload_appends_own_fingerprint
    (s : state) (fc : file) (c : X509) (configured : list pydict) :
  st_files s !! tls_certificate_file (st_self s) = Some fc ->
  readable fc = true ->
  load_certificate FILETYPE_PEM (content fc) = inr c ->
  (no_tls (st_self s) = true
   \/ exists fk k,
        st_files s !! tls_private_key_file (st_self s) = Some fk
        /\ readable fk = true
        /\ load_privatekey FILETYPE_PEM (content fk) = inr k) ->
  configured_fingerprints s = Some configured ->
  Forall (fun f => is_Some (f !! "sha256"%string)) configured ->
  let own := sha256_fingerprint_of c in
  let carried := exists f, f ∈ configured /\ carries own f in
  exists s' result,
    read_certificate_from_disk s = Return tt s'
    /\ tls_certificate (st_self s') = Some c
    /\ published s' = Some result
    /\ configured_fingerprints s' = Some configured
    /\ (result = configured ++ [fingerprint_entry own] <-> ~ carried)
    /\ (result = configured <-> carried)
    /\ configured `prefix_of` result
    /\ (exists f, f ∈ result /\ carries own f).
Proof.
  intros Hfc Hr Hc Hkey Hconf Hwf own carried.
  destruct (reconcile_appends configured c Hwf)
    as (result & Hrec & Happ & Hsame & Hpre & Hown).
  destruct (read_certificate_from_disk_returns s fc c configured result
              Hfc Hr Hc Hkey Hconf Hrec) as (s' & Hrun & Hcert & Hpub & _).
  pose proof (read_certificate_from_disk_outcome s configured Hconf)
    as [Hkept _].
  cbn zeta in Hkept. rewrite Hrun in Hkept. cbn [final_state] in Hkept.
  exists s', result. split; [exact Hrun|]. split; [exact Hcert|].
  split; [exact Hpub|]. split; [exact Hkept|]. split; [exact Happ|].
  split; [exact Hsame|]. split; [exact Hpre | exact Hown].
Qed.

(** X8. With [no_tls] set, [read_certificate_from_disk] never looks at the
    private key: whatever the key path holds, it returns once the
    certificate loads (and the configured entries all have a ["sha256"]
    item), leaves [tls_private_key] as it was, and still publishes the
    certificate's fingerprint. *)
Theorem reload_without_tls (s : state) (fc : file) (c : X509)
    (configured : list pydict) :
  no_tls (st_self s) = true ->
  st_files s !! tls_certificate_file (st_self s) = Some fc ->
  readable fc = true ->
  load_certificate FILETYPE_PEM (content fc) = inr c ->
  configured_fingerprints s = Some configured ->
  Forall (fun f => is_Some (f !! "sha256"%string)) configured ->
  exists s' result,
    read_certificate_from_disk s = Return tt s'
    /\ tls_certificate (st_self s') = Some c
    /\ tls_private_key (st_self s') = tls_private_key (st_self s)
    /\ published s' = Some result
    /\ exists f, f ∈ result /\ carries (sha256_fingerprint_of c) f.
Proof.
  intros Hno Hfc Hr Hc Hconf Hwf.
  destruct (each_sha256_total configured Hwf) as [values Hv].
  pose proof (reconcile_cases configured c values Hv) as Hrec.
  destruct (read_certificate_from_disk_returns s fc c configured _
              Hfc Hr Hc (or_introl Hno) Hconf Hrec)
    as (s' & Hrun & Hcert & Hpub & Hkey & _).
  exists s'. eexists. split; [exact Hrun|]. split; [exact Hcert|].
  split; [exact (Hkey Hno)|]. split; [exact Hpub|].
  destruct (decide (sha256_fingerprint_of c ∈ values)) as [Hin|Hout].
  - rewrite bool_decide_eq_true_2 by exact Hin.
    apply (each_sha256_inr configured values Hv). exact Hin.
  - rewrite bool_decide_eq_false_2 by exact Hout.
    exists (fingerprint_entry (sha256_fingerprint_of c)). split.
    + apply elem_of_app. right. apply list_elem_of_singleton. reflexivity.
    + apply fingerprint_entry_carries.
Qed.

Lemma each_sha256_inr_all fingerprints values :
  each_sha256 fingerprints = inr values ->
  Forall (fun f => is_Some (f !! "sha256"%string)) fingerprints.
Proof.
  revert values. induction fingerprints as [|f rest IH]; intros values Hv.
  - constructor.
  - cbn in Hv. unfold dict_getitem in Hv.
    destruct (f !! "sha256"%string) as [x|] eqn:Hx; [|discriminate].
    cbn in Hv. destruct (each_sha256 rest) as [e|vs]; [discriminate|].
    constructor; [eauto | apply (IH vs eq_refl)].
Qed.

(** X9. The fingerprint step fails only on an entry without a ["sha256"]
    item, and then with [KeyError("sha256")]: [reconcile] raises exactly
    when some configured entry lacks that item. *)
Theorem reconcile_key_error (configured : list pydict) (cert : X509) :
  (forall e, reconcile configured cert = inl e -> e = KeyError "sha256")
  /\ ((exists e, reconcile configured cert = inl e)
      <-> exists f, f ∈ configured /\ f !! "sha256"%string = None).
Proof.
  assert (Hshape : forall e, reconcile configured cert = inl e ->
                     each_sha256 configured = inl e).
  { intros e. unfold reconcile.
    destruct (each_sha256 configured) as [e'|values]; [intros [= <-]; reflexivity|].
    cbn. destruct (bool_decide _); discriminate. }
  split.
  - intros e He. apply (each_sha256_inl configured e (Hshape e He)).
  - split.
    + intros [e He]. apply (each_sha256_inl configured e (Hshape e He)).
    + intros (f & Hin & Hf).
      destruct (each_sha256 configured) as [e|values] eqn:Hv.
      * exists e. unfold reconcile. rewrite Hv. reflexivity.
      * exfalso.
        pose proof (each_sha256_inr_all configured values Hv) as Hall.
        rewrite Forall_forall in Hall.
        destruct (Hall f Hin) as [x Hx]. congruence.
Qed.

(** ** generate_files *)

Ltac run_gen :=
  unfold ensure_private_key, ensure_certificate, path_exists, open_wb,
    file_write, generate_key, gmtime_adj_notBefore, gmtime_adj_notAfter,
    time_now, config_getitem, get_self, os_path_exists, read_whole_file,
    lift, raise, modify, mbind, M_bind, mret, M_ret in *;
  cbn beta iota in *.

Lemma ensure_certificate_outcome config cp k s :
  let o := ensure_certificate config cp k s in
  st_clock (final_state o) = st_clock s
  /\ st_log (final_state o) = st_log s
  /\ st_heap (final_state o) = st_heap s
  /\ st_self (final_state o) = st_self s
  /\ (forall s', o = Return tt s' -> is_Some (st_files s' !! cp)).
Proof.
  destruct (st_files s !! cp) as [fc|] eqn:Hc.
  - rewrite (ensure_certificate_present config cp k s fc Hc). cbn.
    repeat split; auto. intros s' [= <-]. eauto.
  - destruct (can_open_wb s cp) eqn:Hw.
    + destruct (ensure_certificate_opened_outcome config cp k s Hc Hw)
        as [data Hfinal].
      cbn zeta. rewrite Hfinal. cbn.
      split; [reflexivity|]. split; [reflexivity|]. split; [reflexivity|].
      split; [reflexivity|].
      intros s' Hret. rewrite Hret in Hfinal. cbn in Hfinal. subst s'.
      cbn. rewrite lookup_insert_eq. eauto.
    + rewrite (ensure_certificate_refused config cp k s Hc Hw). cbn.
      repeat split; auto. discriminate.
Qed.

Lemma ensure_private_key_returns kp s k s1 :
  ensure_private_key kp s = Return k s1 -> is_Some (st_files s1 !! kp).
Proof.
  destruct (st_files s !! kp) as [fk|] eqn:Hk.
  - rewrite (ensure_private_key_present kp s fk Hk).
    destruct (readable fk); [|discriminate].
    destruct (load_privatekey _ _); [discriminate|].
    intros [= _ <-]. eauto.
  - destruct (can_open_wb s kp) eqn:Hw.
    + rewrite (ensure_private_key_absent kp s Hk Hw). intros [= _ <-]. cbn.
      rewrite lookup_insert_eq. eauto.
    + rewrite (ensure_private_key_refused kp s Hk Hw). discriminate.
Qed.

(** X10. [generate_files] touches nothing but files and the random source:
    whatever its outcome, the clock, the log, the Python lists and the
    instance it is called on are as before. *)
Theorem generate_files_leaves_instance (config : ConfigDict) (s : state) :
  let s' := final_state (generate_files config s) in
  st_clock s' = st_clock s /\ st_log s' = st_log s
  /\ st_heap s' = st_heap s /\ st_self s' = st_self s.
Proof.
  cbn zeta.
  destruct (c_tls_certificate_path config) as [cp|] eqn:Hcp.
  2:{ destruct (generate_files_unconfigured config s (or_introl Hcp)) as [e ->].
      cbn. auto. }
  destruct (c_tls_private_key_path config) as [kp|] eqn:Hkp.
  2:{ destruct (generate_files_unconfigured config s (or_intror Hkp)) as [e ->].
      cbn. auto. }
  rewrite (generate_files_configured config cp kp s Hcp Hkp).
  pose proof (ensure_private_key_instance kp s) as (H1 & H2 & H3 & H4).
  cbn zeta in *.
  destruct (ensure_private_key kp s) as [k s1|e s1]; cbn in *; [|auto].
  pose proof (ensure_certificate_outcome config cp k s1) as (G1 & G2 & G3 & G4 & _).
  cbn zeta in *. rewrite G1, G2, G3, G4. auto.
Qed.

(** X11. After a call of [generate_files] that returns, both configured
    paths exist; a second call with the same config then writes nothing and
    generates no key, whether it returns or raises. *)
Theorem generate_files_twice (config : ConfigDict) (s s1 : state) :
  generate_files config s = Return tt s1 ->
  (exists cp kp,
     c_tls_certificate_path config = Some cp
     /\ c_tls_private_key_path config = Some kp
     /\ is_Some (st_files s1 !! cp)
     /\ is_Some (st_files s1 !! kp))
  /\ st_files (final_state (generate_files config s1)) = st_files s1
  /\ st_entropy (final_state (generate_files config s1)) = st_entropy s1.
Proof.
  intros Hrun.
  destruct (c_tls_certificate_path config) as [cp|] eqn:Hcp.
  2:{ destruct (generate_files_unconfigured config s (or_introl Hcp)) as [e He].
      congruence. }
  destruct (c_tls_private_key_path config) as [kp|] eqn:Hkp.
  2:{ destruct (generate_files_unconfigured config s (or_intror Hkp)) as [e He].
      congruence. }
  rewrite (generate_files_configured config cp kp s Hcp Hkp) in Hrun.
  destruct (ensure_private_key kp s) as [k s0|e s0] eqn:Hkrun; [|discriminate].
  pose proof (ensure_private_key_returns kp s k s0 Hkrun) as [fk Hfk].
  pose proof (ensure_certificate_outcome config cp k s0) as (_ & _ & _ & _ & Hex).
  pose proof (ensure_certificate_frame config cp k s0) as (Hframe & _ & _).
  cbn zeta in *. rewrite Hrun in *. cbn in Hframe.
  assert (Hc1 : is_Some (st_files s1 !! cp)) by (apply Hex; reflexivity).
  assert (Hk1 : is_Some (st_files s1 !! kp)) by (rewrite (Hframe kp fk Hfk); eauto).
  split; [exists cp, kp; auto|].
  rewrite (generate_files_configured config cp kp s1 Hcp Hkp).
  pose proof (ensure_private_key_frame kp s1) as [_ Hks]. cbn zeta in Hks.
  specialize (Hks Hk1).
  destruct (ensure_private_key kp s1) as [k' s2|e s2]; cbn in Hks; subst s2.
  - pose proof (ensure_certificate_frame config cp k' s1) as (_ & _ & Hcs).
    cbn zeta in Hcs. rewrite (Hcs Hc1). auto.
  - cbn. auto.
Qed.


(** X13. When the certificate path and the key path are one and the same
    missing file, [generate_files] either raises the [OSError] of [open]
    with nothing changed -- when the file cannot be opened for writing --
    or returns having written the private key there and no certificate:
    the second block finds that the path now exists. *)
Theorem generate_files_same_path
    (config : ConfigDict) (s : state) (p : string) :
  c_tls_certificate_path config = Some p ->
  c_tls_private_key_path config = Some p ->
  st_files s !! p = None ->
  generate_files config s
  = if can_open_wb s p
    then Return tt
           (MkState
              (<[p := File true (dump_privatekey FILETYPE_PEM (fresh_key s))]>
                 (st_files s))
              (st_clock s) (N.succ (st_entropy s)) (st_log s) (st_heap s)
              (st_self s) (st_writable s))
    else Raise (IOError p) s.
Proof.
  intros Hcp Hkp Hp.
  rewrite (generate_files_configured config p p s Hcp Hkp).
  destruct (can_open_wb s p) eqn:Hw.
  - rewrite (ensure_private_key_absent p s Hp Hw).
    apply (ensure_certificate_present config p (fresh_key s) _
             (File true (dump_privatekey FILETYPE_PEM (fresh_key s)))).
    apply lookup_insert_eq.
  - rewrite (ensure_private_key_refused p s Hp Hw). reflexivity.
Qed.





End MoreTlsConfigProperties.

(** * default_config *)

(** The template is the text of the source, to the byte: its SHA-256 is the
    one of lines 130-185 of tls.py. *)
Example default_config_template_digest :
  hexdigest (SHA256.digest (bytes_of_str default_config_template))
  = "636d644d6d7b5628a5832f19bfba5236e30ae09c94426c79234cce33ad8ccea1"%string.
Proof. vm_compute. reflexivity. Qed.

Example os_path_join_examples :
  map (fun ab => os_path_join (fst ab) (snd ab))
      [("/etc/synapse", "example.org"); ("/etc/synapse/", "example.org");
       ("", "example.org"); ("/etc/synapse", "/srv/example.org")]%string
  = ["/etc/synapse/example.org"; "/etc/synapse/example.org"; "example.org";
     "/srv/example.org"]%string.
Proof. vm_compute. reflexivity. Qed.

Lemma append_suffix_differs (base : string) :
  (base ++ ".tls.crt")%string <> (base ++ ".tls.key")%string.
Proof.
  induction base as [|c base IH]; cbn.
  - discriminate.
  - intros [= Heq]. exact (IH Heq).
Qed.

Lemma default_paths_differ d n :
  default_certificate_path d n <> default_private_key_path d n.
Proof. apply append_suffix_differs. Qed.

(** X16. [default_config] never raises. The text it returns is the
    template with its two placeholders -- and nothing else -- replaced by
    the certificate path and the key path, which are [os.path.join] of the
    directory and the server name followed by ".tls.crt" and ".tls.key",
    and are therefore always two different paths. *)
Theorem default_config_renders (config_dir_path server_name : string) :
  let '(before, between, after) := template_parts in
  let cert_path := default_certificate_path config_dir_path server_name in
  let key_path := default_private_key_path config_dir_path server_name in
  default_config config_dir_path server_name
  = inr (before ++ cert_path ++ between ++ key_path ++ after)%string
  /\ default_config_template
     = (before ++ "%(tls_certificate_path)s" ++ between
        ++ "%(tls_private_key_path)s" ++ after)%string
  /\ cert_path <> key_path.
Proof.
  split; [|split].
  - unfold default_config.
    change (os_path_join config_dir_path server_name ++ ".tls.crt")%string
      with (default_certificate_path config_dir_path server_name).
    change (os_path_join config_dir_path server_name ++ ".tls.key")%string
      with (default_private_key_path config_dir_path server_name).
    generalize (default_certificate_path config_dir_path server_name).
    generalize (default_private_key_path config_dir_path server_name).
    generalize (os_path_join config_dir_path server_name).
    intros base key_path cert_path. vm_compute. reflexivity.
  - vm_compute. reflexivity.
  - apply default_paths_differ.
Qed.

Section DefaultPaths.
Context `{Platform}.

(** X17. With the paths [default_config] derives, on a file system that has
    neither file but lets both be created, and with a server name that is
    accepted as a commonName, [generate_files] returns having created
    exactly those two files: the PEM of a freshly generated key and the PEM
    of the certificate generated for the server name with it. Every other
    path is as it was. *)
Theorem generate_files_default_paths
    (config : ConfigDict) (s : state) (dir server name : string) :
  let cert_path := default_certificate_path dir server in
  let key_path := default_private_key_path dir server in
  c_tls_certificate_path config = Some cert_path ->
  c_tls_private_key_path config = Some key_path ->
  c_server_name config = Some name ->
  common_name_ok name = true ->
  st_files s !! cert_path = None ->
  st_files s !! key_path = None ->
  can_open_wb s cert_path = true ->
  can_open_wb s key_path = true ->
  exists s',
    generate_files config s = Return tt s'
    /\ st_files s' !! key_path
       = Some (File true (dump_privatekey FILETYPE_PEM (fresh_key s)))
    /\ st_files s' !! cert_path
       = Some (File true
                 (dump_certificate FILETYPE_PEM
                    (generated_certificate name (st_clock s / us_per_second)
                       (fresh_key s))))
    /\ (forall p, p <> cert_path -> p <> key_path ->
        st_files s' !! p = st_files s !! p).
Proof.
  intros cert_path key_path Hcp Hkp Hname Hok Hc Hk Hwc Hwk.
  pose proof (default_paths_differ dir server) as Hne.
  fold cert_path key_path in Hne.
  destruct (generate_files_new_certificate config s cert_path key_path name
              (fresh_key s) Hcp Hkp Hname Hok Hc Hwc Hne
              (or_introl (conj Hk (conj Hwk eq_refl)))) as (s1 & Hkrun & Hrun).
  rewrite (ensure_private_key_absent key_path s Hk Hwk) in Hkrun.
  injection Hkrun as <-.
  eexists. split; [exact Hrun|]. cbn. split; [|split].
  - rewrite lookup_insert_ne by exact Hne. apply lookup_insert_eq.
  - apply lookup_insert_eq.
  - intros p Hp1 Hp2. rewrite !lookup_insert_ne by congruence. reflexivity.
Qed.

End DefaultPaths.

(** * The domain whitelist *)

Section WhitelistProperties.
Import Whitelist.

Lemma hash_at_serving r :
  serving r ->
  exists h,
    hash_at _CONFIG_WHITELIST_DOMAINS r = inr h
    /\ (forall host, listed host r <-> is_Some (h !! host))
    /\ store_hash _CONFIG_WHITELIST_DOMAINS h r = r.
Proof.
  destruct r as [up ks]. unfold serving, hash_at, listed, store_hash. cbn.
  intros [-> Hks]. cbn.
  destruct (ks !! _CONFIG_WHITELIST_DOMAINS) as [[h|v]|] eqn:Hk;
    [|contradiction|].
  - exists h. split; [reflexivity|]. split.
    + intros host. split.
      * intros (h' & v & [= <-] & Hv). eauto.
      * intros [v Hv]. eauto.
    + rewrite decide_False by exact Hks. f_equal. apply insert_id. exact Hk.
  - exists ∅. split; [reflexivity|]. split.
    + intros host. rewrite lookup_empty. split.
      * intros (h' & v & Hh & _). discriminate.
      * intros [v Hv]. discriminate.
    + rewrite decide_True by reflexivity. f_equal. apply delete_id. exact Hk.
Qed.

Lemma store_hash_serving h r :
  reachable r = true ->
  serving (store_hash _CONFIG_WHITELIST_DOMAINS h r)
  /\ (forall host, listed host (store_hash _CONFIG_WHITELIST_DOMAINS h r)
                   <-> is_Some (h !! host))
  /\ hash_at _CONFIG_WHITELIST_DOMAINS
       (store_hash _CONFIG_WHITELIST_DOMAINS h r) = inr h.
Proof.
  destruct r as [up ks]. cbn. intros ->.
  unfold serving, listed, store_hash, hash_at. cbn.
  destruct (decide (h = ∅)) as [-> | Hne].
  - rewrite lookup_delete_eq. split; [auto|]. split; [|reflexivity].
    intros host. rewrite lookup_empty. split.
    + intros (h' & v & Hh & _). discriminate.
    + intros [v Hv]. discriminate.
  - rewrite lookup_insert_eq. split; [auto|]. split; [|reflexivity].
    intros host. split.
    + intros (h' & v & [= <-] & Hv). eauto.
    + intros [v Hv]. eauto.
Qed.

(** X18. On a server that can be reached, [add_whitelist_domain] answers
    [True] and the domain is listed from then on ([is_host_listed] answers
    [True]); no other host changes its status, and adding the domain again
    changes nothing. *)
Theorem add_whitelist_domain_lists (domain : string) (r : redis) :
  serving r ->
  exists r',
    add_whitelist_domain domain r = (inr true, r')
    /\ serving r'
    /\ listed domain r'
    /\ is_host_listed domain r' = (inr true, r')
    /\ (forall host, host <> domain -> (listed host r' <-> listed host r))
    /\ add_whitelist_domain domain r' = (inr true, r').
Proof.
  intros Hs. destruct (hash_at_serving r Hs) as (h & Hh & Hl & _).
  assert (Hup : reachable r = true) by apply Hs.
  set (h' := <[domain := one]> h).
  destruct (store_hash_serving h' r Hup) as (Hs' & Hl' & Hh').
  exists (store_hash _CONFIG_WHITELIST_DOMAINS h' r).
  assert (Hadd : forall r0 h0,
             hash_at _CONFIG_WHITELIST_DOMAINS r0 = inr h0 ->
             hash_at _CONFIG_WHITELIST_DOMAINS
               (store_hash _CONFIG_WHITELIST_DOMAINS (<[domain := one]> h0) r0)
             = inr (<[domain := one]> h0) ->
             add_whitelist_domain domain r0
             = (inr true,
                store_hash _CONFIG_WHITELIST_DOMAINS (<[domain := one]> h0) r0)).
  { intros r0 h0 H0 H1. unfold add_whitelist_domain, bind, hset, hget.
    rewrite H0, H1, lookup_insert_eq. reflexivity. }
  split; [apply (Hadd r h Hh Hh')|]. split; [exact Hs'|].
  split; [apply Hl'; unfold h'; rewrite lookup_insert_eq; eauto|].
  split.
  - unfold is_host_listed, hexists. rewrite Hh'. unfold h'.
    rewrite lookup_insert_eq, bool_decide_eq_true_2 by eauto. reflexivity.
  - split.
    + intros host Hne. rewrite Hl', Hl. unfold h'.
      rewrite lookup_insert_ne by congruence. reflexivity.
    + destruct (hash_at_serving _ Hs') as (h2 & Hh2 & _ & Hid).
      assert (h2 = h') by congruence. subst h2.
      assert (Hsame : <[domain := one]> h' = h')
        by (unfold h'; apply insert_insert_eq).
      rewrite (Hadd _ h' Hh'); rewrite Hsame; [|rewrite Hid; exact Hh'].
      rewrite Hid. reflexivity.
Qed.

(** X19. On a server that can be reached, [del_whitelist_domain] answers
    whether the domain was listed; afterwards it is not listed, and no
    other host changes its status. *)
Theorem del_whitelist_domain_unlists (domain : string) (r : redis) :
  serving r ->
  exists answer r',
    del_whitelist_domain domain r = (inr answer, r')
    /\ (answer = true <-> listed domain r)
    /\ serving r'
    /\ ~ listed domain r'
    /\ is_host_listed domain r' = (inr false, r')
    /\ (forall host, host <> domain -> (listed host r' <-> listed host r)).
Proof.
  intros Hs. destruct (hash_at_serving r Hs) as (h & Hh & Hl & Hid).
  assert (Hup : reachable r = true) by apply Hs.
  unfold del_whitelist_domain, bind, hdel. rewrite Hh.
  destruct (h !! domain) as [v|] eqn:Hd.
  - destruct (store_hash_serving (delete domain h) r Hup) as (Hs' & Hl' & Hh').
    exists true. eexists. split; [reflexivity|].
    split; [split; [intros _; apply Hl; eauto | reflexivity]|].
    split; [exact Hs'|].
    split; [rewrite Hl', lookup_delete_eq; intros [? ?]; discriminate|].
    split.
    + unfold is_host_listed, hexists. rewrite Hh', lookup_delete_eq.
      rewrite bool_decide_eq_false_2 by (intros [? ?]; discriminate).
      reflexivity.
    + intros host Hne. rewrite Hl', Hl, lookup_delete_ne by congruence.
      reflexivity.
  - exists false, r. split; [reflexivity|].
    assert (Hnot : ~ listed domain r)
      by (rewrite Hl, Hd; intros [? ?]; discriminate).
    split; [split; [discriminate | contradiction]|].
    split; [exact Hs|]. split; [exact Hnot|]. split.
    + unfold is_host_listed, hexists. rewrite Hh, Hd.
      rewrite bool_decide_eq_false_2 by (intros [? ?]; discriminate).
      reflexivity.
    + tauto.
Qed.

(** X20. Adding a domain that was not listed and deleting it again gives
    back the very server state there was before. *)
Theorem add_then_del_restores (domain : string) (r : redis) :
  serving r ->
  ~ listed domain r ->
  exists r1,
    add_whitelist_domain domain r = (inr true, r1)
    /\ del_whitelist_domain domain r1 = (inr true, r).
Proof.
  intros Hs Hnot. destruct (hash_at_serving r Hs) as (h & Hh & Hl & Hid).
  assert (Hup : reachable r = true) by apply Hs.
  assert (Hd : h !! domain = None).
  { destruct (h !! domain) eqn:Hd; [|reflexivity].
    exfalso. apply Hnot, Hl. eauto. }
  destruct (store_hash_serving (<[domain := one]> h) r Hup) as (_ & _ & Hh').
  exists (store_hash _CONFIG_WHITELIST_DOMAINS (<[domain := one]> h) r).
  split.
  - unfold add_whitelist_domain, bind, hset, hget.
    rewrite Hh, Hh', lookup_insert_eq. reflexivity.
  - unfold del_whitelist_domain, bind, hdel.
    rewrite Hh', lookup_insert_eq. cbn. f_equal.
    rewrite delete_insert_id by exact Hd.
    rewrite <- Hid at 2. destruct r as [up ks]. unfold store_hash. cbn.
    f_equal. destruct (decide (<[domain := _]> h = ∅)) as [He|_].
    { destruct (insert_non_empty _ _ _ He). }
    destruct (decide (h = ∅)) as [Hh0|Hh0].
    + rewrite delete_insert_eq. reflexivity.
    + rewrite insert_insert_eq. reflexivity.
Qed.

(** X21. When the server cannot be reached, each of the three functions
    raises the connection error and leaves the server as it is -- in
    [is_host_listed] the [except] clause raises the error it caught; when
    the whitelist key holds something other than a hash, each raises the
    server's error reply, again without changing anything. *)
Theorem whitelist_errors (name : string) (r : redis) :
  (reachable r = false ->
   add_whitelist_domain name r = (inl ConnectionError, r)
   /\ del_whitelist_domain name r = (inl ConnectionError, r)
   /\ is_host_listed name r = (inl ConnectionError, r))
  /\ (forall v,
        reachable r = true ->
        keyspace r !! _CONFIG_WHITELIST_DOMAINS = Some (RString v) ->
        add_whitelist_domain name r = (inl wrongtype, r)
        /\ del_whitelist_domain name r = (inl wrongtype, r)
        /\ is_host_listed name r = (inl wrongtype, r)).
Proof.
  split.
  - intros Hdown.
    unfold add_whitelist_domain, del_whitelist_domain, is_host_listed, bind,
      hset, hdel, hexists, hash_at. rewrite Hdown. cbn. auto.
  - intros v Hup Hv.
    unfold add_whitelist_domain, del_whitelist_domain, is_host_listed, bind,
      hset, hdel, hexists, hash_at. rewrite Hup, Hv. cbn. auto.
Qed.

End WhitelistProperties.

(** * The further properties on the scenarios *)

Section MoreScenarios.
Import SimplePlatform Scenario Scenario2 Whitelist.

Lemma days_remaining_over_time_witness :
  is_disk_cert_valid true expiring = Return (Some 29) expiring
  /\ is_disk_cert_valid true expiring_later = Return (Some 27) expiring_later
  /\ 27 <= 29
  /\ 27 = 29 - 2.
Proof.
  assert (H1 : is_disk_cert_valid true expiring = Return (Some 29) expiring)
    by (vm_compute; reflexivity).
  assert (H2 : is_disk_cert_valid true expiring_later
               = Return (Some 27) expiring_later)
    by (vm_compute; reflexivity).
  destruct (days_remaining_over_time (H := platform) expiring expiring_later
              true 29 27
              ltac:(vm_compute; reflexivity) ltac:(vm_compute; reflexivity)
              H1 H2) as [Hle Hk].
  split; [exact H1|]. split; [exact H2|]. split.
  - apply Hle. vm_compute. discriminate.
  - apply (Hk 2). vm_compute. reflexivity.
Defined.


Lemma read_config_outcomes_witness :
  (exists s', read_config config fresh = Return tt s'
              /\ tls_certificate_file (st_self s') = cert_path
              /\ published s' = Some []
              /\ st_files s' = st_files fresh)
  /\ (exists msg s', read_config config_empty fresh = Raise (TypeError msg) s').
Proof.
  destruct (read_config_outcomes (H := platform) config fresh)
    as (_ & _ & _ & Hret).
  destruct (Hret cert_path key_path 1%positive [] eq_refl eq_refl eq_refl
                 ltac:(vm_compute; reflexivity))
    as (s' & Hrun & Hcf & _ & _ & _ & Hpub & _ & _ & _ & _ & Hfiles).
  split.
  - exists s'. split; [exact Hrun|]. split; [exact Hcf|].
    split; [exact Hpub | exact Hfiles].
  - apply (proj1 (read_config_outcomes (H := platform) config_empty fresh)).
    reflexivity.
Defined.

Lemma reload_without_certificate_witness :
  (exists e, read_certificate_from_disk configured = Raise e configured)
  /\ (exists e, read_certificate_from_disk unreadable = Raise e unreadable)
  /\ read_certificate_from_disk garbage
     = Raise (CryptoError "no start line") garbage.
Proof.
  split; [|split].
  - apply (proj1 (reload_without_certificate (H := platform) configured)).
    vm_compute. reflexivity.
  - apply (proj1 (proj2 (reload_without_certificate (H := platform) unreadable))
             (File false (content issued_file))).
    + vm_compute. reflexivity.
    + reflexivity.
  - apply (proj2 (proj2 (reload_without_certificate (H := platform) garbage))
             garbage_file).
    + vm_compute. reflexivity.
    + reflexivity.
    + vm_compute. reflexivity.
Defined.

Lemma reload_without_key_witness :
  tls_certificate (st_self failed_reload) = Some issued_certificate
  /\ tls_private_key (st_self failed_reload) = Some generated_key
  /\ published failed_reload = published loaded.
Proof.
  destruct (reload_without_key (H := platform) replaced issued_file
              issued_certificate
              ltac:(vm_compute; reflexivity) eq_refl
              ltac:(vm_compute; reflexivity)
              ltac:(vm_compute; reflexivity)
              ltac:(right; exists (File true (bytes_of_str "not a key"));
                    split; [vm_compute; reflexivity|];
                    right; eexists; vm_compute; reflexivity))
    as (e & s' & Hrun & Hcert & Hkey & _ & Hpub).
  unfold failed_reload. rewrite Hrun. cbn [final_state].
  split; [exact Hcert|]. split.
  - rewrite Hkey. vm_compute. reflexivity.
  - rewrite Hpub. vm_compute. reflexivity.
Defined.

Lemma reload_without_tls_witness :
  st_files tls_off_keyless !! key_path = None
  /\ exists s',
       read_certificate_from_disk tls_off_keyless = Return tt s'
       /\ tls_certificate (st_self s') = Some own_certificate
       /\ tls_private_key (st_self s') = None.
Proof.
  destruct (reload_without_tls (H := platform) tls_off_keyless own_file
              own_certificate []
              ltac:(vm_compute; reflexivity)
              ltac:(vm_compute; reflexivity) eq_refl
              ltac:(vm_compute; reflexivity)
              ltac:(vm_compute; reflexivity)
              ltac:(constructor))
    as (s' & result & Hrun & Hcert & Hkey & _).
  split; [vm_compute; reflexivity|].
  exists s'. split; [exact Hrun|]. split; [exact Hcert|].
  rewrite Hkey. vm_compute. reflexivity.
Defined.

Lemma reconcile_key_error_witness :
  reconcile [balancer_entry; ∅] own_certificate = inl (KeyError "sha256").
Proof.
  destruct (reconcile_key_error (H := platform) [balancer_entry; ∅]
              own_certificate) as [Hkey Hiff].
  destruct (proj2 Hiff) as [e He].
  - exists ∅. split; [|apply lookup_empty].
    apply list_elem_of_further, list_elem_of_here.
  - rewrite He. f_equal. exact (Hkey e He).
Defined.

Lemma generate_files_twice_witness :
  st_files (final_state (generate_files config generated)) = st_files generated
  /\ st_entropy (final_state (generate_files config generated))
     = st_entropy generated.
Proof.
  destruct (generate_files_twice (H := platform) config configured generated
              ltac:(vm_compute; reflexivity)) as (_ & Hfiles & Hentropy).
  split; [exact Hfiles | exact Hentropy].
Defined.


Lemma generate_files_same_path_witness :
  (exists s',
     generate_files config_same_path configured = Return tt s'
     /\ st_files s' !! key_path
        = Some (File true (dump_privatekey FILETYPE_PEM generated_key)))
  /\ generate_files config_same_path read_only
     = Raise (IOError key_path) read_only.
Proof.
  pose proof (generate_files_same_path (H := platform) config_same_path
                configured key_path eq_refl eq_refl
                ltac:(vm_compute; reflexivity)) as Hrun.
  pose proof (generate_files_same_path (H := platform) config_same_path
                read_only key_path eq_refl eq_refl
                ltac:(vm_compute; reflexivity)) as Hraise.
  assert (Hw : can_open_wb configured key_path = true)
    by (vm_compute; reflexivity).
  assert (Hno : can_open_wb read_only key_path = false)
    by (vm_compute; reflexivity).
  rewrite Hw in Hrun. rewrite Hno in Hraise. split; [|exact Hraise].
  eexists. split; [exact Hrun|]. cbn [st_files]. apply lookup_insert_eq.
Defined.



Lemma generate_files_default_paths_witness :
  exists s',
    generate_files config configured = Return tt s'
    /\ st_files s' !! key_path
       = Some (File true (dump_privatekey FILETYPE_PEM generated_key))
    /\ st_files s' !! "/etc/synapse/homeserver.yaml"%string = None.
Proof.
  destruct (generate_files_default_paths (H := platform) config configured
              "/etc/synapse" "example.org" "example.org"
              ltac:(vm_compute; reflexivity) ltac:(vm_compute; reflexivity)
              eq_refl ltac:(vm_compute; reflexivity)
              ltac:(vm_compute; reflexivity) ltac:(vm_compute; reflexivity)
              ltac:(vm_compute; reflexivity) ltac:(vm_compute; reflexivity))
    as (s' & Hrun & Hkey & _ & Hrest).
  exists s'. split; [exact Hrun|]. split; [exact Hkey|].
  rewrite Hrest.
  - vm_compute. reflexivity.
  - intros Heq. vm_compute in Heq. discriminate.
  - intros Heq. vm_compute in Heq. discriminate.
Defined.



Lemma reload_appends_own_fingerprint_witness :
  exists s',
    read_certificate_from_disk behind_balancer = Return tt s'
    /\ tls_certificate (st_self s') = Some own_certificate
    /\ published s'
       = Some [balancer_entry;
               fingerprint_entry (sha256_fingerprint_of own_certificate)]
    /\ configured_fingerprints s' = Some [balancer_entry].
Proof.
  destruct (reload_appends_own_fingerprint (H := platform) behind_balancer
              own_file own_certificate [balancer_entry]
              ltac:(vm_compute; reflexivity) eq_refl
              ltac:(vm_compute; reflexivity)
              ltac:(right; exists (File true (dump_privatekey FILETYPE_PEM
                                               generated_key)), generated_key;
                    split; [|split]; vm_compute; reflexivity)
              ltac:(vm_compute; reflexivity))
    as (s' & result & Hrun & Hcert & Hpub & Hkept & Happ & _).
  - repeat constructor.
    exists "q83vASNFZ4mrze8BI0VniavN7wEjRWeJq83vASNFZ4k"%string.
    apply lookup_singleton_eq.
  - exists s'. split; [exact Hrun|]. split; [exact Hcert|].
    split; [|exact Hkept]. rewrite Hpub. f_equal. apply Happ.
    intros (f & Hin & Hf). apply list_elem_of_singleton in Hin. subst f.
    pose proof (fingerprint_entry_carries
                  "q83vASNFZ4mrze8BI0VniavN7wEjRWeJq83vASNFZ4k") as Hb.
    unfold carries, balancer_entry in *. rewrite Hb in Hf.
    vm_compute in Hf. discriminate.
Defined.



Lemma serving_empty_server : serving empty_server.
Proof. split; [reflexivity | vm_compute; exact I]. Qed.

Lemma serving_matrix_server : serving matrix_server.
Proof.
  split; [reflexivity|]. unfold matrix_server. cbn [keyspace].
  rewrite lookup_singleton_eq. apply insert_non_empty.
Qed.

Lemma add_whitelist_domain_lists_witness :
  exists r',
    add_whitelist_domain "matrix.org" empty_server = (inr true, r')
    /\ is_host_listed "matrix.org" r' = (inr true, r')
    /\ (listed "example.org" r' <-> listed "example.org" empty_server).
Proof.
  destruct (add_whitelist_domain_lists "matrix.org" empty_server
              serving_empty_server)
    as (r' & Hadd & _ & _ & Hlisted & Hothers & _).
  exists r'. split; [exact Hadd|]. split; [exact Hlisted|].
  apply Hothers. intros Heq. vm_compute in Heq. discriminate.
Defined.

Lemma del_whitelist_domain_unlists_witness :
  exists r',
    del_whitelist_domain "matrix.org" matrix_server = (inr true, r')
    /\ ~ listed "matrix.org" r'
    /\ is_host_listed "matrix.org" r' = (inr false, r').
Proof.
  destruct (del_whitelist_domain_unlists "matrix.org" matrix_server
              serving_matrix_server)
    as (answer & r' & Hdel & Hanswer & _ & Hnot & Hhost & _).
  assert (Htrue : answer = true).
  { apply Hanswer. exists {[ "matrix.org"%string := one ]}, one.
    split; apply lookup_singleton_eq. }
  subst answer. exists r'. split; [exact Hdel|]. split; [exact Hnot | exact Hhost].
Defined.

Lemma add_then_del_restores_witness :
  exists r1,
    add_whitelist_domain "matrix.org" empty_server = (inr true, r1)
    /\ del_whitelist_domain "matrix.org" r1 = (inr true, empty_server).
Proof.
  apply (add_then_del_restores "matrix.org" empty_server serving_empty_server).
  intros (h & v & Hh & _). vm_compute in Hh. discriminate.
Defined.

Lemma whitelist_errors_witness :
  is_host_listed "matrix.org" unreachable_server
  = (inl ConnectionError, unreachable_server)
  /\ add_whitelist_domain "matrix.org" other_server
     = (inl wrongtype, other_server).
Proof.
  split.
  - apply (proj1 (whitelist_errors "matrix.org" unreachable_server)).
    reflexivity.
  - apply (proj2 (whitelist_errors "matrix.org" other_server)
             (bytes_of_str "x")); [reflexivity|].
    apply lookup_singleton_eq.
Defined.

End MoreScenarios.

